(* ===== verification/_CoqProject ===== *)
-Q . S2P
Prelude.v
OdbcApi.v
Storage.v
Driver.v
ScriptDriver.v
ResultSetModel.v
BoundDatumSetModel.v
Statement.v
ReadRowOperationModel.v
Polling.v
Execute.v
Decode.v
DecodeSpec.v
DecodeProps.v
Streaming.v
Cursor.v
Returns.v
Cancellation.v
Machine.v
