(* ===== verification/Prelude.v ===== *)
(** * A verification development for the statement engine of node-sqlserver-v8

    ** The program

    The sources under [src/src] are the C++ core of a SQL Server client for
    Node.js.  A statement object ([OdbcStatement.cpp]) drives an ODBC
    statement handle: it binds parameters, submits a query (directly or
    through a prepared statement), polls an asynchronous execution and
    honours a cancellation request, describes the columns of each result
    set, fetches rows and decodes one column at a time into a typed value.
    [BoundDatumSet.cpp] is the ordered set of parameter (or prepared column)
    bindings, [ResultSet.h]/[ResultSet.cpp] the metadata of the current
    result set and the current column, [ReadRowOperation.cpp] the
    asynchronous operation that fetches one row.

    The parts interact as follows.  A caller builds a [BoundDatumSet] with
    [bind], hands it to [TryExecuteDirect] (or [TryPrepare] then
    [BindFetch]), which calls the driver, and on completion
    [StartReadingResults] fills a fresh [ResultSet].  [TryReadRow] advances
    the cursor, [TryReadColumn] dispatches on the SQL type of the column and
    stores a [Column] in the result set, [TryReadNextResult] moves to the
    next result set.  [cancel] and [setPolling] may be called from another
    thread; they only touch two flags under a mutex.

    ** The files

    In the order of their dependencies:

    - [Prelude] (this file): machine integers on [Z] with their wrap-around,
      the state-and-fault monad [prog] in which every stateful operation of
      the program is written, its rules for total ([wp]) and partial
      ([wlp]) correctness, preservation of an invariant ([preserves]) and
      absence of a fault ([avoids]), the tactics and the hint databases of
      the development.
    - [OdbcApi]: the constants of the ODBC headers that the sources use, the
      macro [SQL_SUCCEEDED] and the structures that the driver fills.
    - [Storage]: [DatumStorage], [BoundDatum] and [Column], the classes the
      sources use from [DatumStorage.h], [BoundDatum.h] and [Column.h].
      These headers are not under [src/]; the definitions follow the
      specification and the uses in [src/] and are marked as such.
    - [Driver]: the two interfaces of the program with what it calls.  The
      class [Driver] has one operation per ODBC entry point that
      [OdbcStatement.cpp] calls, over an abstract state of the handle; the
      class [NodeBoundary] has the V8 values and the methods of
      [BoundDatum] that [BoundDatumSet.cpp] calls.  The theorems are proved
      for every instance.  The class [Sized] states what the code takes
      from the driver without a test: a number of columns that is not
      negative and lengths of names that fit the buffers.
    - [ScriptDriver]: an executable instance of each: a driver that answers
      from a list, and a small type of JavaScript values.  The witnesses
      run on them.
    - [ResultSetModel]: [ResultSet.h] and [ResultSet.cpp]: the column
      definitions, the constructor and the accessors, [map_type],
      [get_entry] and [meta_to_value].
    - [BoundDatumSetModel]: [BoundDatumSet.cpp]: [bind], [tvp], [reserve]
      and [unbind], with their results on every branch.
    - [Statement]: the state of [OdbcStatement] as a record and the member
      functions of lines 30-483 and 934-981 of [OdbcStatement.cpp]:
      [cancel], [setPolling], [CheckOdbcError], [BindParams], [readNext],
      [StartReadingResults], [queryTimeout], [TryPrepare], [PollCheck],
      [BindFetch], [cancelHandle], [TryExecuteDirect], [TryReadRow],
      [TryReadNextResult]; the invariant [statement_inv] and the classes
      of predicates ([Quiet], [Reading], [Running], [Stable]) by which it
      is shown that each of them preserves it.
    - [ReadRowOperationModel]: [ReadRowOperation.cpp], on the statement the
      operation points to, if any.
    - [Polling]: the loop of [PollCheck] against the calls of the other
      thread: its closed form, its termination under a measure of the
      driver (the class [Progress]), and what a cancellation leaves.
    - [Execute]: what a result of [BindParams], [StartReadingResults] and
      [TryExecuteDirect] means for the state, and where the code departs
      from that discipline.
    - [Decode]: lines 485-932 of [OdbcStatement.cpp]: [dispatch], the
      decoders [d_Variant], [d_Time], [d_Integer], ..., the reader of large
      objects [Lob], [boundedString], [reservedString], [TryReadString] and
      [TryReadColumn], over the constants of the class [Constants].
    - [DecodeSpec]: a closed form of each decoder, and the table of
      strategies of the specification with the proof that [dispatch] is
      that table.
    - [DecodeProps]: the theorems on [TryReadColumn] that follow.
    - [Streaming]: a driver that delivers a value of any length through the
      buffers it is given, the loop of a caller that reads a column until
      nothing is left, and the round trip of a text through the packets of
      [Lob].
    - [Cursor]: prepared statements: the buffers that [TryPrepare] leaves,
      what a column read after each of two fetches is made of, and the end
      of the results in [TryReadNextResult].
    - [Returns]: total correctness: on a driver that is [Sized],
      [TryExecuteDirect] and [TryPrepare] return without a fault whatever
      else the driver answers; on a driver that is not, [readNext] throws
      or reads outside the buffer of a name.
    - [Cancellation]: a cancellation from the request to the rows: what
      [TryExecuteDirect] does when the query completes after the
      cancellation was served.
    - [Machine]: the statement as a state machine: one step per public
      operation, reachability from the constructor, and the invariant of
      every reachable state.

    ** How the model corresponds to the code

    A C++ member function that reads or writes the statement is a value of
    [prog S A]: a function from the state [S] to either a result [A] with
    the new state, or a [fault].  A fault is where the C++ program has no
    defined behaviour or aborts: a null [shared_ptr] is dereferenced
    ([NullPointer]), a vector is indexed past its end, a vector or a
    string is built with a negative length or from outside its buffer
    ([OutOfRange]), an [assert] fails ([AssertFailed]; the model follows a build with
    assertions enabled), or a loop that takes fuel is cut by it
    ([OutOfFuel]).  Early [return]s are the branches of the
    definition, in the order of the code.  Integers are [Z]; where the code
    converts between widths (a [SQLLEN] divided by a [size_t], a [SQLLEN]
    cast to [SQLSMALLINT], a [SQLULEN] cast to [int32_t], a [bool] returned
    as [SQLRETURN]) the conversion is written out with [wrap_signed] and
    [wrap_unsigned] below, for a 64-bit platform.

    The driver writes through the pointers it was given.  In the model an
    ODBC call returns what it wrote together with its return code, and the
    caller stores it where the pointer pointed; for columns bound with
    [SQLBindCol] the call [SQLFetch] returns the list of writes, which the
    model applies to the prepared storage ([Statement.apply_fetch_writes]):
    a write goes to the buffer bound under its column number, from 1, and
    a write for a column that was not bound goes nowhere.

    The other thread of [cancel] is modelled at the only point where the
    polling loop yields ([Sleep(1)]): [PollCheck] takes the client calls
    that arrive during each sleep as an explicit schedule.

    ** Fuel and bounds

    Three definitions take fuel; every other loop of the sources runs over
    a vector whose length is fixed when the loop starts and is a structural
    recursion here.

    - [Statement.PollCheck] polls until the driver stops answering
      [SQL_STILL_EXECUTING].  [Polling.PollCheck_fuel_mono] shows that more
      fuel never changes a result, and [Polling.PollCheck_terminates] that
      fuel above the number of polls the driver has left is enough.
    - [Decode.TryReadColumn] calls itself from [d_Variant] after it has
      replaced the type of the column with the type of the value.
      [DecodeProps.TryReadColumn_fuel] shows that fuel 1 is enough for a
      column that is not a variant, and
      [DecodeProps.variant_type_is_overwritten] that a variant takes one
      unit more, for the column read again with the type of its value.
    - [Streaming.read_all], the loop of the caller, needs one unit of fuel
      per packet of [LOB_PACKET_SIZE] characters
      ([Streaming.Lob_streaming_round_trip]).

    Lengths and sizes are at 64 bits ([SQLLEN], [size_t]), the sizes of the
    metadata given to JavaScript at 32 bits, type codes at 16 bits.  The
    constants are those of the repository ([Decode.repo_constants]); the
    theorems need only the ranges that the class [Decode.Constants] states.

    ** What the theorems show

    - Safety of the state machine: every state reachable by calls of the
      public member functions satisfies [Statement.statement_inv]
      ([Machine]); the cancelled state is never entered.
    - Polling and cancellation: termination of [PollCheck], and that a
      cancellation requested during a sleep is served ([Polling]); that
      the rows of a query that completes after it are read all the same
      ([Cancellation]).
    - Submission: the functional behaviour of [TryExecuteDirect] on each
      answer of the driver ([Execute]); that it returns on a driver whose
      sizes fit the buffers, and the fault on a driver whose sizes do not
      ([Returns]).
    - Parameters: the result, the error and the index that [bind] leaves on
      the first failure, and [unbind] after [bind] ([BoundDatumSetModel]).
    - Decoding: [TryReadColumn] follows the table of strategies; nulls,
      failures of the driver, out-of-range columns, the bounds of a packet
      ([DecodeProps]); the round trip of a long text ([Streaming]).
    - Prepared statements: what [TryPrepare] reserves, and that a row read
      after a fetch is made of that fetch ([Cursor]).
    - Where the code departs from the specification, the theorem states
      what the code does: [Execute.queryTimeout_failure_is_masked],
      [Cursor.prepared_null_shows_previous_row],
      [BoundDatumSetModel.tvp_column_failure_unreported],
      [Returns.readNext_unchecked_name_length],
      [Cancellation.served_cancel_resumes_rows],
      [Machine.unexecuted_statement_faults] and others.

    ** Not modelled

    The V8 conversion of a column to a JavaScript value ([Column::ToValue]),
    the body of [BoundDatum::bind] (only its result is used, through
    [NodeBoundary]), the allocation of the handle, [fprintf] diagnostics,
    the mutex (every access it guards is one read or one write of a flag)
    and the memory identity of buffers (the model passes buffers by value
    and writes them back explicitly).  The calls of the other thread take
    effect at [Sleep(1)] only: a call of [cancel] that arrives between
    the read of the flag in [PollCheck] and its reset in [cancelHandle]
    is lost in the code and is not a run of the model.  The characters of
    a buffer beyond what the driver wrote are not represented: a name
    built with a length within the buffer is the characters the driver
    wrote, up to that length.

    ** Left to do

    Total correctness of [BindFetch] and of [TryExecuteDirect] in polling
    mode; the round trip of a binary large object and of a prepared text
    column; the cancellation that arrives when no poll is sleeping, as a
    run of the machine; a variant column over several rows. *)

From Stdlib Require Export ZArith Lia.
From stdpp Require Export base tactics list numbers strings option.

#[global] Open Scope Z_scope.

(** ** Machine integers *)

(** The value of [z] stored in an unsigned integer of [w] bits. *)
Definition wrap_unsigned (w z : Z) : Z := z mod 2 ^ w.

(** The value of [z] stored in a two's complement integer of [w] bits. *)
Definition wrap_signed (w z : Z) : Z :=
  (z + 2 ^ (w - 1)) mod 2 ^ w - 2 ^ (w - 1).

(** [a / b] in C when [a] is a signed 64-bit integer and [b] a [size_t]:
    [a] is converted to unsigned, the quotient is unsigned, and it is
    converted back when it is stored in a signed variable. *)
Definition div_size_t (a b : Z) : Z := wrap_signed 64 (wrap_unsigned 64 a / b).

(** [a * b] in C for the same types, passed where a signed 64-bit integer is
    expected. *)
Definition mul_size_t (a b : Z) : Z := wrap_signed 64 (wrap_unsigned 64 (a * b)).

(** A C [bool] converted to an integer, and an integer used as a [bool]. *)
Definition Z_of_bool (b : bool) : Z := if b then 1 else 0.
Definition bool_of_Z (z : Z) : bool := negb (z =? 0).

(** ** The state-and-fault monad *)

Inductive fault : Set :=
| NullPointer
| AssertFailed
| OutOfRange
| OutOfFuel.

Inductive outcome (S A : Type) : Type :=
| Done (a : A) (s : S)
| Fault (f : fault).

Arguments Done {S A} a s.
Arguments Fault {S A} f.

Definition prog (S A : Type) : Type := S -> outcome S A.

Definition ret {S A} (a : A) : prog S A := fun s => Done a s.

Definition and_then {S A B} (c : prog S A) (k : A -> prog S B) : prog S B :=
  fun s => match c s with
           | Done a s' => k a s'
           | Fault f => Fault f
           end.

Definition get_state {S} : prog S S := fun s => Done s s.
Definition gets {S A} (f : S -> A) : prog S A := fun s => Done (f s) s.
Definition put_state {S} (s : S) : prog S unit := fun _ => Done tt s.
Definition modify {S} (f : S -> S) : prog S unit := fun s => Done tt (f s).
Definition throw {S A} (f : fault) : prog S A := fun _ => Fault f.

(** A pointer that must not be null. *)
Definition deref {S A} (why : fault) (o : option A) : prog S A :=
  match o with
  | Some a => ret a
  | None => throw why
  end.

(** The C [assert]. *)
Definition assert {S} (b : bool) : prog S unit :=
  if b then ret tt else throw AssertFailed.

(** A conditional statement with no [else]. *)
Definition when {S} (b : bool) (c : prog S unit) : prog S unit :=
  if b then c else ret tt.

Declare Scope prog_scope.
Delimit Scope prog_scope with prog.
Bind Scope prog_scope with prog.

Notation "x <- c ;; k" := (and_then c (fun x => k))
  (at level 100, c at next level, k at level 200, right associativity)
  : prog_scope.
Notation "c ;;; k" := (and_then c (fun _ => k))
  (at level 100, k at level 200, right associativity) : prog_scope.

(** The result and the final state of a run, when there is one. *)
Definition result_of {S A} (o : outcome S A) : option A :=
  match o with Done a _ => Some a | Fault _ => None end.
Definition state_of {S A} (o : outcome S A) : option S :=
  match o with Done _ s => Some s | Fault _ => None end.
Definition is_done {S A} (o : outcome S A) : bool :=
  match o with Done _ _ => true | Fault _ => false end.

(** ** Weakest preconditions *)

(** [wp c Q s]: from [s] the program [c] returns, without fault, a result
    and a state that satisfy [Q]. *)
Definition wp {S A} (c : prog S A) (Q : A -> S -> Prop) (s : S) : Prop :=
  match c s with
  | Done a s' => Q a s'
  | Fault _ => False
  end.

(** [wlp c Q s]: if [c] returns from [s], its result and state satisfy [Q]. *)
Definition wlp {S A} (c : prog S A) (Q : A -> S -> Prop) (s : S) : Prop :=
  match c s with
  | Done a s' => Q a s'
  | Fault _ => True
  end.

(** [preserves I c]: the invariant [I] of the state survives [c]. *)
Definition preserves {S A} (I : S -> Prop) (c : prog S A) : Prop :=
  forall s, I s -> wlp c (fun _ s' => I s') s.

(** [avoids f c]: no run of [c] ends with the fault [f]. *)
Definition avoids {S A} (f : fault) (c : prog S A) : Prop :=
  forall s, c s <> Fault f.

Create HintDb prog discriminated.
Create HintDb fuel discriminated.
Create HintDb wrap discriminated.
Create Rewrite HintDb wrap.

(** ** Lemmas on machine integers *)

Lemma pow2_pos (w : Z) : 0 <= w -> 0 < 2 ^ w.
Proof. intros. apply Z.pow_pos_nonneg; lia. Qed.

Lemma pow2_split (w : Z) : 0 < w -> 2 ^ w = 2 * 2 ^ (w - 1).
Proof.
  intros. rewrite <- Z.pow_succ_r by lia. f_equal. lia.
Qed.

Lemma wrap_unsigned_range (w z : Z) :
  0 <= w -> 0 <= wrap_unsigned w z < 2 ^ w.
Proof. intros. apply Z.mod_pos_bound, pow2_pos. done. Qed.

Lemma wrap_unsigned_small (w z : Z) :
  0 <= z < 2 ^ w -> wrap_unsigned w z = z.
Proof. intros. apply Z.mod_small. done. Qed.

Lemma wrap_unsigned_neg (w z : Z) :
  0 <= w -> - 2 ^ w <= z < 0 -> wrap_unsigned w z = z + 2 ^ w.
Proof.
  intros Hw Hz. unfold wrap_unsigned.
  pose proof (pow2_pos w Hw).
  replace z with (z + 2 ^ w + (-1) * 2 ^ w) at 1 by lia.
  rewrite Z.mod_add by lia. apply Z.mod_small. lia.
Qed.

Lemma wrap_signed_range (w z : Z) :
  0 < w -> - 2 ^ (w - 1) <= wrap_signed w z < 2 ^ (w - 1).
Proof.
  intros Hw. unfold wrap_signed.
  pose proof (Z.mod_pos_bound (z + 2 ^ (w - 1)) (2 ^ w) (pow2_pos w ltac:(lia))).
  rewrite (pow2_split w Hw) in *. lia.
Qed.

Lemma wrap_signed_small (w z : Z) :
  0 < w -> - 2 ^ (w - 1) <= z < 2 ^ (w - 1) -> wrap_signed w z = z.
Proof.
  intros Hw Hz. unfold wrap_signed.
  rewrite Z.mod_small; [lia|]. rewrite (pow2_split w Hw). lia.
Qed.

Lemma wrap_signed_idemp (w z : Z) :
  0 < w -> wrap_signed w (wrap_signed w z) = wrap_signed w z.
Proof. intros. apply wrap_signed_small, wrap_signed_range; done. Qed.

Lemma div_size_t_nonneg (a b : Z) :
  0 <= a < 2 ^ 63 -> 0 < b -> div_size_t a b = a / b.
Proof.
  intros Ha Hb. unfold div_size_t.
  rewrite wrap_unsigned_small by lia.
  apply wrap_signed_small; [lia|].
  pose proof (Z.div_pos a b ltac:(lia) Hb).
  assert (a / b <= a) by (apply Z.div_le_upper_bound; nia). lia.
Qed.

Lemma div_size_t_neg (a b : Z) :
  - 2 ^ 63 <= a < 0 -> 2 <= b -> div_size_t a b = (a + 2 ^ 64) / b.
Proof.
  intros Ha Hb. unfold div_size_t.
  rewrite wrap_unsigned_neg by lia.
  apply wrap_signed_small; [lia|].
  pose proof (Z.div_pos (a + 2 ^ 64) b ltac:(lia) ltac:(lia)).
  assert (a + 2 ^ 64 < b * 2 ^ 63) by lia.
  pose proof (Z.div_lt_upper_bound (a + 2 ^ 64) b (2 ^ 63) ltac:(lia) ltac:(done)).
  lia.
Qed.

Lemma mul_size_t_small (a b : Z) :
  0 <= a * b < 2 ^ 63 -> mul_size_t a b = a * b.
Proof.
  intros H. unfold mul_size_t.
  rewrite wrap_unsigned_small by lia. apply wrap_signed_small; lia.
Qed.

Lemma Z_of_bool_range (b : bool) : 0 <= Z_of_bool b <= 1.
Proof. destruct b; simpl; lia. Qed.

Lemma bool_of_Z_of_bool (b : bool) : bool_of_Z (Z_of_bool b) = b.
Proof. by destruct b. Qed.

#[export] Hint Rewrite bool_of_Z_of_bool : wrap.
#[export] Hint Rewrite wrap_signed_idemp using lia : wrap.
#[export] Hint Resolve wrap_signed_range wrap_unsigned_range Z_of_bool_range : wrap.

(** ** Lemmas on programs *)

Section ProgLaws.
Context {S : Type}.

Lemma bind_ret_l {A B} (a : A) (k : A -> prog S B) (s : S) :
  and_then (ret a) k s = k a s.
Proof. done. Qed.

Lemma bind_ret_r {A} (c : prog S A) (s : S) : and_then c ret s = c s.
Proof. unfold and_then. by destruct (c s). Qed.

Lemma bind_assoc {A B C} (c : prog S A) (k : A -> prog S B)
    (h : B -> prog S C) (s : S) :
  and_then (and_then c k) h s = and_then c (fun a => and_then (k a) h) s.
Proof. unfold and_then. by destruct (c s). Qed.

Lemma bind_done {A B} (c : prog S A) (k : A -> prog S B) s a s' :
  c s = Done a s' -> and_then c k s = k a s'.
Proof. unfold and_then. by intros ->. Qed.

Lemma bind_fault {A B} (c : prog S A) (k : A -> prog S B) s f :
  c s = Fault f -> and_then c k s = Fault f.
Proof. unfold and_then. by intros ->. Qed.

Lemma bind_inv {A B} (c : prog S A) (k : A -> prog S B) s b s'' :
  and_then c k s = Done b s'' ->
  exists a s', c s = Done a s' /\ k a s' = Done b s''.
Proof. unfold and_then. destruct (c s); [eauto | done]. Qed.

Lemma wp_ret {A} (a : A) (Q : A -> S -> Prop) s : wp (ret a) Q s <-> Q a s.
Proof. done. Qed.

Lemma wlp_ret {A} (a : A) (Q : A -> S -> Prop) s : wlp (ret a) Q s <-> Q a s.
Proof. done. Qed.

Lemma wlp_modify (f : S -> S) (Q : unit -> S -> Prop) s :
  wlp (modify f) Q s <-> Q tt (f s).
Proof. done. Qed.

Lemma wlp_gets {A} (f : S -> A) (Q : A -> S -> Prop) s :
  wlp (gets f) Q s <-> Q (f s) s.
Proof. done. Qed.

Lemma wlp_get_state (Q : S -> S -> Prop) s : wlp get_state Q s <-> Q s s.
Proof. done. Qed.

Lemma wlp_put_state (s0 : S) (Q : unit -> S -> Prop) s :
  wlp (put_state s0) Q s <-> Q tt s0.
Proof. done. Qed.

Lemma wlp_throw {A} (f : fault) (Q : A -> S -> Prop) s :
  wlp (throw f) Q s <-> True.
Proof. done. Qed.

Lemma wlp_deref {A} why (o : option A) (Q : A -> S -> Prop) s :
  wlp (deref why o) Q s <-> forall a, o = Some a -> Q a s.
Proof. destruct o; simpl; naive_solver. Qed.

Lemma wlp_assert b (Q : unit -> S -> Prop) s :
  wlp (assert b) Q s <-> (b = true -> Q tt s).
Proof. destruct b; simpl; naive_solver. Qed.

Lemma wlp_when b (c : prog S unit) (Q : unit -> S -> Prop) s :
  wlp (when b c) Q s <-> if b then wlp c Q s else Q tt s.
Proof. by destruct b. Qed.

Lemma wp_bind {A B} (c : prog S A) (k : A -> prog S B) Q s :
  wp (and_then c k) Q s <-> wp c (fun a s' => wp (k a) Q s') s.
Proof. unfold wp, and_then. by destruct (c s). Qed.

Lemma wlp_bind {A B} (c : prog S A) (k : A -> prog S B) Q s :
  wlp (and_then c k) Q s <-> wlp c (fun a s' => wlp (k a) Q s') s.
Proof. unfold wlp, and_then. by destruct (c s). Qed.

Lemma wp_mono {A} (c : prog S A) (Q Q' : A -> S -> Prop) s :
  (forall a s', Q a s' -> Q' a s') -> wp c Q s -> wp c Q' s.
Proof. unfold wp. destruct (c s); auto. Qed.

Lemma wlp_mono {A} (c : prog S A) (Q Q' : A -> S -> Prop) s :
  (forall a s', Q a s' -> Q' a s') -> wlp c Q s -> wlp c Q' s.
Proof. unfold wlp. destruct (c s); auto. Qed.

Lemma wlp_any {A} (c : prog S A) (Q : A -> S -> Prop) s :
  (forall a s', Q a s') -> wlp c Q s.
Proof. unfold wlp. destruct (c s); auto. Qed.

(** What holds after [c] by two specifications holds by both. *)
Lemma wlp_and {A} (c : prog S A) (Q Q' : A -> S -> Prop) s :
  wlp c Q s -> wlp c Q' s -> wlp c (fun a s' => Q a s' /\ Q' a s') s.
Proof. unfold wlp. by destruct (c s). Qed.

Lemma wp_wlp {A} (c : prog S A) Q s : wp c Q s -> wlp c Q s.
Proof. unfold wp, wlp. by destruct (c s). Qed.

Lemma wp_done {A} (c : prog S A) Q s a s' :
  c s = Done a s' -> Q a s' -> wp c Q s.
Proof. unfold wp. by intros ->. Qed.

Lemma wp_run {A} (c : prog S A) Q s :
  wp c Q s <-> exists a s', c s = Done a s' /\ Q a s'.
Proof.
  unfold wp. destruct (c s) as [a s'|f]; [naive_solver|].
  split; [done | by intros (? & ? & ? & _)].
Qed.

Lemma wlp_run {A} (c : prog S A) Q s :
  wlp c Q s <-> forall a s', c s = Done a s' -> Q a s'.
Proof. unfold wlp. destruct (c s) as [a s'|f]; naive_solver. Qed.

(** Invariants compose along [and_then], and every primitive that does not
    write the state preserves all of them. *)

Lemma preserves_ret {A} (I : S -> Prop) (a : A) : preserves I (ret a).
Proof. by intros s Hs. Qed.

Lemma preserves_bind {A B} (I : S -> Prop) (c : prog S A) (k : A -> prog S B) :
  preserves I c -> (forall a, preserves I (k a)) -> preserves I (and_then c k).
Proof.
  intros Hc Hk s Hs. apply wlp_bind. eapply wlp_mono; [|by apply Hc].
  intros a s' Hs'. by apply Hk.
Qed.

Lemma preserves_gets {A} (I : S -> Prop) (f : S -> A) : preserves I (gets f).
Proof. by intros s Hs. Qed.

Lemma preserves_get (I : S -> Prop) : preserves I get_state.
Proof. by intros s Hs. Qed.

Lemma preserves_throw {A} (I : S -> Prop) (f : fault) :
  preserves I (throw f : prog S A).
Proof. by intros s Hs. Qed.

Lemma preserves_deref {A} (I : S -> Prop) why (o : option A) :
  preserves I (deref why o).
Proof. destruct o; [apply preserves_ret | apply preserves_throw]. Qed.

Lemma preserves_assert (I : S -> Prop) b : preserves I (assert b).
Proof. destruct b; [apply preserves_ret | apply preserves_throw]. Qed.

Lemma preserves_modify (I : S -> Prop) (f : S -> S) :
  (forall s, I s -> I (f s)) -> preserves I (modify f).
Proof. intros Hf s Hs. by apply Hf. Qed.

Lemma preserves_when (I : S -> Prop) b (c : prog S unit) :
  preserves I c -> preserves I (when b c).
Proof. destruct b; [done | intros _; apply preserves_ret]. Qed.

Lemma preserves_if {A} (I : S -> Prop) (b : bool) (c1 c2 : prog S A) :
  preserves I c1 -> preserves I c2 -> preserves I (if b then c1 else c2).
Proof. by destruct b. Qed.

Lemma preserves_and {A} (I J : S -> Prop) (c : prog S A) :
  preserves I c -> preserves J c -> preserves (fun s => I s /\ J s) c.
Proof.
  intros HI HJ s [Hi Hj]. specialize (HI s Hi). specialize (HJ s Hj).
  unfold wlp in *. by destruct (c s).
Qed.

Lemma preserves_run {A} (I : S -> Prop) (c : prog S A) s a s' :
  preserves I c -> I s -> c s = Done a s' -> I s'.
Proof. intros Hc Hs Hrun. specialize (Hc s Hs). unfold wlp in Hc. by rewrite Hrun in Hc. Qed.

(** A fault that no part of a program raises is not raised by the
    program. *)
Lemma avoids_ret {A} f (a : A) : avoids f (ret a : prog S A).
Proof. by intros s. Qed.

Lemma avoids_bind {A B} f (c : prog S A) (k : A -> prog S B) :
  avoids f c -> (forall a, avoids f (k a)) -> avoids f (and_then c k).
Proof.
  intros Hc Hk s. unfold and_then. specialize (Hc s).
  destruct (c s); [apply Hk | intros [= ->]; by apply Hc].
Qed.

Lemma avoids_gets {A} f (g : S -> A) : avoids f (gets g).
Proof. by intros s. Qed.

Lemma avoids_get f : avoids f (get_state : prog S S).
Proof. by intros s. Qed.

Lemma avoids_put f (s0 : S) : avoids f (put_state s0).
Proof. by intros s. Qed.

Lemma avoids_modify f (g : S -> S) : avoids f (modify g).
Proof. by intros s. Qed.

Lemma avoids_throw {A} f f' : f' <> f -> avoids f (throw f' : prog S A).
Proof. intros Hf s. unfold throw. congruence. Qed.

Lemma avoids_deref {A} f why (o : option A) :
  why <> f -> avoids f (deref why o : prog S A).
Proof. intros Hf. destruct o; [apply avoids_ret | by apply avoids_throw]. Qed.

Lemma avoids_assert f b : AssertFailed <> f -> avoids f (assert b : prog S unit).
Proof. intros Hf. destruct b; [apply avoids_ret | by apply avoids_throw]. Qed.

Lemma avoids_when f b (c : prog S unit) : avoids f c -> avoids f (when b c).
Proof. destruct b; [done | intros _; apply avoids_ret]. Qed.

Lemma avoids_if {A} f (b : bool) (c1 c2 : prog S A) :
  avoids f c1 -> avoids f c2 -> avoids f (if b then c1 else c2).
Proof. by destruct b. Qed.

End ProgLaws.


(** ** Tactics *)

(** Unfold the primitives of [prog] in the goal and in the hypotheses. *)
Ltac prog_unfold :=
  unfold wp, wlp, when, assert, deref, modify, gets, get_state, put_state, throw, and_then, ret in *.

(** Run a program on a state that is known well enough to compute. *)
Ltac prog_run := prog_unfold; simpl in *; try done.

(** Split on the next test or call the goal is stuck on. *)
Ltac prog_case :=
  match goal with
  | |- context [match ?c with Done _ _ => _ | Fault _ => _ end] =>
      let E := fresh "Hrun" in destruct c eqn:E
  | |- context [if ?b then _ else _] =>
      let E := fresh "Htest" in destruct b eqn:E
  | |- context [match ?o with Some _ => _ | None => _ end] =>
      let E := fresh "Hopt" in destruct o eqn:E
  end.

(** Prove that a program built from the primitives preserves an invariant:
    the rules of [ProgLaws], then the side conditions. *)
Ltac preserves_step :=
  lazymatch goal with
  | |- preserves _ (ret _) => apply preserves_ret
  | |- preserves _ (gets _) => apply preserves_gets
  | |- preserves _ get_state => apply preserves_get
  | |- preserves _ (throw _) => apply preserves_throw
  | |- preserves _ (deref _ _) => apply preserves_deref
  | |- preserves _ (assert _) => apply preserves_assert
  | |- preserves _ (and_then _ _) => apply preserves_bind; [|intros ?]
  | |- preserves _ (when _ _) => apply preserves_when
  | |- preserves _ (modify _) => apply preserves_modify; intros ? ?
  | |- preserves _ (if ?b then _ else _) =>
      first [apply preserves_if | destruct b]
  | |- preserves _ (match ?x with _ => _ end) => destruct x
  end.

Ltac preserves_auto := repeat preserves_step; eauto with prog.

(** Prove that a program built from the primitives avoids a fault, with
    the lemmas of the database [fuel] for the programs it calls. *)
Ltac avoids_step :=
  lazymatch goal with
  | |- avoids _ (ret _) => apply avoids_ret
  | |- avoids _ (gets _) => apply avoids_gets
  | |- avoids _ get_state => apply avoids_get
  | |- avoids _ (put_state _) => apply avoids_put
  | |- avoids _ (modify _) => apply avoids_modify
  | |- avoids _ (throw _) => apply avoids_throw; discriminate
  | |- avoids _ (deref _ _) => apply avoids_deref; discriminate
  | |- avoids _ (assert _) => apply avoids_assert; discriminate
  | |- avoids _ (and_then _ _) => apply avoids_bind; [|intros ?]
  | |- avoids _ (when _ _) => apply avoids_when
  | |- avoids _ (if ?b then _ else _) =>
      first [apply avoids_if | destruct b]
  | |- avoids _ (match ?x with _ => _ end) => destruct x
  end.

Ltac avoids_auto := repeat avoids_step; eauto with fuel.

(** One step of the symbolic execution of a goal [wlp c Q s]: the
    primitives compute, a test or a pattern matching splits the goal. *)
Ltac wlp_step :=
  lazymatch goal with
  | |- wlp (and_then _ _) _ _ => apply wlp_bind
  | |- wlp (ret _) _ _ => apply wlp_ret
  | |- wlp (modify _) _ _ => apply wlp_modify
  | |- wlp (gets _) _ _ => apply wlp_gets
  | |- wlp get_state _ _ => apply wlp_get_state
  | |- wlp (put_state _) _ _ => apply wlp_put_state
  | |- wlp (throw _) _ _ => exact Logic.I
  | |- wlp (deref _ _) _ _ => apply wlp_deref; intros ? ?
  | |- wlp (assert _) _ _ => apply wlp_assert; intros ?
  | |- wlp (when ?b _) _ _ => destruct b eqn:?; [|apply wlp_ret]
  | |- wlp (if ?b then _ else _) _ _ => destruct b eqn:?
  | |- wlp (match ?x with _ => _ end) _ _ => destruct x eqn:?
  end.

(** Use the specification [lem] of the program at the head of the goal,
    and go on with what it ensures. *)
Ltac wlp_use lem :=
  eapply wlp_mono; [|eapply lem; eauto with prog]; cbv beta.

(** Use the fact that the program at the head preserves an invariant. *)
Ltac wlp_keep lem :=
  eapply wlp_mono; [|eapply (lem _); eauto with prog]; cbv beta; intros ? ? ?.
