(* ===== verification/OdbcApi.v ===== *)
(** * The ODBC vocabulary of the sources

    The return codes, SQL type codes, C type codes, attributes and
    indicator values that [OdbcStatement.cpp], [BoundDatumSet.cpp] and
    [ResultSet.cpp] name, with the values of the ODBC 3.8 headers ([sql.h],
    [sqlext.h]) and of the SQL Server extension header ([msodbcsql.h]), the
    macro [SQL_SUCCEEDED], and the structures the driver fills.  The
    constants are abbreviations, so that the [switch] statements of the
    sources are pattern matchings on the same names.

    The platform is 64-bit Windows, the platform of the sources ([Sleep],
    [UINT_PTR]): [SQLLEN] is a signed 64-bit integer, [size_t] an unsigned
    64-bit integer, [int] and [unsigned long] have 32 bits, [SQLSMALLINT]
    and [SQLRETURN] 16 bits. *)

From S2P Require Import Prelude.

(** ** Return codes *)

Abbreviation SQL_SUCCESS := 0 (only parsing).
Abbreviation SQL_SUCCESS_WITH_INFO := 1 (only parsing).
Abbreviation SQL_STILL_EXECUTING := 2 (only parsing).
Abbreviation SQL_NEED_DATA := 99 (only parsing).
Abbreviation SQL_NO_DATA := 100 (only parsing).
Abbreviation SQL_ERROR := (-1) (only parsing).
Abbreviation SQL_INVALID_HANDLE := (-2) (only parsing).

(** ** Indicator values and lengths *)

Abbreviation SQL_NULL_DATA := (-1) (only parsing).
Abbreviation SQL_NTS := (-3) (only parsing).
Abbreviation SQL_NO_TOTAL := (-4) (only parsing).
Abbreviation SQL_IS_UINTEGER := (-5) (only parsing).

(** ** SQL data types *)

Abbreviation SQL_CHAR := 1 (only parsing).
Abbreviation SQL_NUMERIC := 2 (only parsing).
Abbreviation SQL_DECIMAL := 3 (only parsing).
Abbreviation SQL_INTEGER := 4 (only parsing).
Abbreviation SQL_SMALLINT := 5 (only parsing).
Abbreviation SQL_FLOAT := 6 (only parsing).
Abbreviation SQL_REAL := 7 (only parsing).
Abbreviation SQL_DOUBLE := 8 (only parsing).
Abbreviation SQL_DATETIME := 9 (only parsing).
Abbreviation SQL_TIMESTAMP := 11 (only parsing).
Abbreviation SQL_VARCHAR := 12 (only parsing).
Abbreviation SQL_TYPE_DATE := 91 (only parsing).
Abbreviation SQL_TYPE_TIME := 92 (only parsing).
Abbreviation SQL_TYPE_TIMESTAMP := 93 (only parsing).
Abbreviation SQL_LONGVARCHAR := (-1) (only parsing).
Abbreviation SQL_BINARY := (-2) (only parsing).
Abbreviation SQL_VARBINARY := (-3) (only parsing).
Abbreviation SQL_LONGVARBINARY := (-4) (only parsing).
Abbreviation SQL_BIGINT := (-5) (only parsing).
Abbreviation SQL_TINYINT := (-6) (only parsing).
Abbreviation SQL_BIT := (-7) (only parsing).
Abbreviation SQL_WCHAR := (-8) (only parsing).
Abbreviation SQL_WVARCHAR := (-9) (only parsing).
Abbreviation SQL_WLONGVARCHAR := (-10) (only parsing).
Abbreviation SQL_GUID := (-11) (only parsing).
Abbreviation SQL_SS_VARIANT := (-150) (only parsing).
Abbreviation SQL_SS_UDT := (-151) (only parsing).
Abbreviation SQL_SS_XML := (-152) (only parsing).
Abbreviation SQL_SS_TABLE := (-153) (only parsing).
Abbreviation SQL_SS_TIME2 := (-154) (only parsing).
Abbreviation SQL_SS_TIMESTAMPOFFSET := (-155) (only parsing).

(** ** C data types *)

Abbreviation SQL_C_DEFAULT := 99 (only parsing).
Abbreviation SQL_C_BINARY := (-2) (only parsing).
Abbreviation SQL_C_BIT := (-7) (only parsing).
Abbreviation SQL_C_WCHAR := (-8) (only parsing).
Abbreviation SQL_C_DOUBLE := 8 (only parsing).
Abbreviation SQL_C_TIMESTAMP := 11 (only parsing).
Abbreviation SQL_C_SSHORT := (-15) (only parsing).
Abbreviation SQL_C_SLONG := (-16) (only parsing).
Abbreviation SQL_C_USHORT := (-17) (only parsing).
Abbreviation SQL_C_ULONG := (-18) (only parsing).
Abbreviation SQL_C_STINYINT := (-26) (only parsing).
Abbreviation SQL_C_UTINYINT := (-28) (only parsing).

(** ** Parameter directions *)

Abbreviation SQL_PARAM_INPUT := 1 (only parsing).
Abbreviation SQL_PARAM_INPUT_OUTPUT := 2 (only parsing).
Abbreviation SQL_PARAM_OUTPUT := 4 (only parsing).

(** ** Attributes and descriptor fields *)

Abbreviation SQL_QUERY_TIMEOUT := 0 (only parsing).
Abbreviation SQL_ATTR_QUERY_TIMEOUT := 0 (only parsing).
Abbreviation SQL_ATTR_ASYNC_ENABLE := 4 (only parsing).
Abbreviation SQL_ASYNC_ENABLE_ON := 1 (only parsing).
Abbreviation SQL_ATTR_PARAMSET_SIZE := 22 (only parsing).
Abbreviation SQL_ATTR_APP_PARAM_DESC := 10011 (only parsing).
Abbreviation SQL_DESC_DISPLAY_SIZE := 6 (only parsing).
Abbreviation SQL_DESC_TYPE_NAME := 14 (only parsing).
Abbreviation SQL_DESC_TYPE := 1002 (only parsing).
Abbreviation SQL_DESC_PRECISION := 1005 (only parsing).
Abbreviation SQL_DESC_SCALE := 1006 (only parsing).
Abbreviation SQL_DESC_DATA_PTR := 1010 (only parsing).
Abbreviation SQL_CA_SS_VARIANT_TYPE := 1215 (only parsing).
Abbreviation SQL_CA_SS_UDT_TYPE_NAME := 1220 (only parsing).
Abbreviation SQL_HANDLE_STMT := 3 (only parsing).

(** ** Limits of the platform's integer types *)

Abbreviation INT_MAX := 2147483647 (only parsing).
Abbreviation ULONG_MAX := 4294967295 (only parsing).

(** ** [SQL_SUCCEEDED] *)

(** [#define SQL_SUCCEEDED(rc) (((rc) & (~1)) == 0)] *)
Definition SQL_SUCCEEDED (rc : Z) : bool := Z.land rc (Z.lnot 1) =? 0.

(** ** Structures filled by the driver *)

Record TIMESTAMP_STRUCT : Set := mkTimestamp {
  ts_year : Z;
  ts_month : Z;
  ts_day : Z;
  ts_hour : Z;
  ts_minute : Z;
  ts_second : Z;
  ts_fraction : Z
}.

Record SQL_SS_TIME2_STRUCT : Set := mkTime2 {
  t2_hour : Z;
  t2_minute : Z;
  t2_second : Z;
  t2_fraction : Z
}.

Record SQL_SS_TIMESTAMPOFFSET_STRUCT : Set := mkTimestampOffset {
  tso_year : Z;
  tso_month : Z;
  tso_day : Z;
  tso_hour : Z;
  tso_minute : Z;
  tso_second : Z;
  tso_fraction : Z;
  tso_timezone_hour : Z;
  tso_timezone_minute : Z
}.

(** The structure after [memset(&s, 0, sizeof(s))]. *)
Definition zero_time2 : SQL_SS_TIME2_STRUCT := mkTime2 0 0 0 0.
Definition zero_timestampoffset : SQL_SS_TIMESTAMPOFFSET_STRUCT :=
  mkTimestampOffset 0 0 0 0 0 0 0 0 0.
Definition zero_timestamp : TIMESTAMP_STRUCT := mkTimestamp 0 0 0 0 0 0 0.

(** A diagnostic record as the statement keeps it ([OdbcError]). *)
Record OdbcError : Set := mkOdbcError {
  sqlstate : string;
  message : string;
  code : Z
}.

(** What one call of the driver writes into the buffer it was given. *)
Inductive CData : Set :=
| CNone
| CInt64 (v : Z)
| CDouble (bits : Z)
| CBytes (v : list Z)
| CWChars (v : list Z)
| CTimestamp (v : TIMESTAMP_STRUCT)
| CTimestampOffset (v : SQL_SS_TIMESTAMPOFFSET_STRUCT)
| CTime2 (v : SQL_SS_TIME2_STRUCT).

(** What [SQLDescribeCol] writes through its output pointers. *)
Record DescribeCol : Set := mkDescribeCol {
  dc_name : string;
  dc_name_length : Z;
  dc_data_type : Z;
  dc_column_size : Z;
  dc_decimal_digits : Z;
  dc_nullable : Z
}.

#[export] Instance TIMESTAMP_STRUCT_eq_dec : EqDecision TIMESTAMP_STRUCT.
Proof. solve_decision. Defined.
#[export] Instance SQL_SS_TIME2_STRUCT_eq_dec : EqDecision SQL_SS_TIME2_STRUCT.
Proof. solve_decision. Defined.
#[export] Instance SQL_SS_TIMESTAMPOFFSET_STRUCT_eq_dec :
  EqDecision SQL_SS_TIMESTAMPOFFSET_STRUCT.
Proof. solve_decision. Defined.
#[export] Instance OdbcError_eq_dec : EqDecision OdbcError.
Proof. solve_decision. Defined.
#[export] Instance CData_eq_dec : EqDecision CData.
Proof. solve_decision. Defined.

(** ** Facts on [SQL_SUCCEEDED] *)

Lemma land_lnot_1 (rc : Z) : Z.land rc (Z.lnot 1) = 2 * (rc / 2).
Proof.
  rewrite <- Z.ldiff_land. change 1 with (Z.ones 1) at 1.
  rewrite Z.ldiff_ones_r by lia.
  rewrite Z.shiftr_div_pow2, Z.shiftl_mul_pow2 by lia.
  change (2 ^ 1) with 2. lia.
Qed.

(** The macro accepts exactly the two success codes, among all integers. *)
Lemma SQL_SUCCEEDED_iff (rc : Z) :
  SQL_SUCCEEDED rc = true <-> rc = SQL_SUCCESS \/ rc = SQL_SUCCESS_WITH_INFO.
Proof.
  unfold SQL_SUCCEEDED. rewrite land_lnot_1, Z.eqb_eq.
  pose proof (Z.div_mod rc 2 ltac:(lia)).
  pose proof (Z.mod_pos_bound rc 2 ltac:(lia)). lia.
Qed.

Lemma SQL_SUCCEEDED_false_iff (rc : Z) :
  SQL_SUCCEEDED rc = false <-> rc <> SQL_SUCCESS /\ rc <> SQL_SUCCESS_WITH_INFO.
Proof.
  rewrite <- not_true_iff_false, SQL_SUCCEEDED_iff. lia.
Qed.

Lemma SQL_SUCCEEDED_of_bool (b : bool) : SQL_SUCCEEDED (Z_of_bool b) = true.
Proof. by destruct b. Qed.

Lemma SQL_SUCCEEDED_no_data : SQL_SUCCEEDED SQL_NO_DATA = false.
Proof. done. Qed.

Lemma SQL_SUCCEEDED_still_executing : SQL_SUCCEEDED SQL_STILL_EXECUTING = false.
Proof. done. Qed.

#[export] Hint Rewrite SQL_SUCCEEDED_of_bool : wrap.
