(* ===== verification/Storage.v ===== *)
(** * Typed storage, bindings and column values

    [DatumStorage] (the typed, reservable native buffer), [BoundDatum] (one
    parameter or one bound result column) and [Column] (the value of the
    column decoded last).  Their C++ headers ([DatumStorage.h],
    [BoundDatum.h], [Column.h]) are not among the sources; the definitions
    follow sections 2 and 3 of the specification and the members the sources
    use: the vectors [int64vec_ptr], [doublevec_ptr], [charvec_ptr],
    [uint16vec_ptr], [timestampvec_ptr] and [timestampoffsetvec_ptr] with
    their [Reserve...] functions, the fields of a binding that
    [SQLBindParameter] and [SQLBindCol] receive, and the constructors of
    the column classes. *)

From S2P Require Import Prelude OdbcApi.

(** ** DatumStorage *)

(** Each vector is behind a pointer that is null until it is reserved. *)
Record DatumStorage : Set := mkStorage {
  int64vec_ptr : option (list Z);
  doublevec_ptr : option (list Z);
  charvec_ptr : option (list Z);
  uint16vec_ptr : option (list Z);
  timestampvec_ptr : option (list TIMESTAMP_STRUCT);
  timestampoffsetvec_ptr : option (list SQL_SS_TIMESTAMPOFFSET_STRUCT)
}.

(** [make_shared<DatumStorage>()] *)
Definition new_DatumStorage : DatumStorage :=
  mkStorage None None None None None None.

(** A vector of [len] value-initialised elements. *)
Definition zeros (len : Z) : list Z := replicate (Z.to_nat len) 0.

Definition ReserveInt64 (len : Z) (st : DatumStorage) : DatumStorage :=
  mkStorage (Some (zeros len)) (doublevec_ptr st) (charvec_ptr st)
    (uint16vec_ptr st) (timestampvec_ptr st) (timestampoffsetvec_ptr st).

Definition ReserveDouble (len : Z) (st : DatumStorage) : DatumStorage :=
  mkStorage (int64vec_ptr st) (Some (zeros len)) (charvec_ptr st)
    (uint16vec_ptr st) (timestampvec_ptr st) (timestampoffsetvec_ptr st).

Definition ReserveChars (len : Z) (st : DatumStorage) : DatumStorage :=
  mkStorage (int64vec_ptr st) (doublevec_ptr st) (Some (zeros len))
    (uint16vec_ptr st) (timestampvec_ptr st) (timestampoffsetvec_ptr st).

Definition ReserveUint16 (len : Z) (st : DatumStorage) : DatumStorage :=
  mkStorage (int64vec_ptr st) (doublevec_ptr st) (charvec_ptr st)
    (Some (zeros len)) (timestampvec_ptr st) (timestampoffsetvec_ptr st).

Definition ReserveTimestamp (len : Z) (st : DatumStorage) : DatumStorage :=
  mkStorage (int64vec_ptr st) (doublevec_ptr st) (charvec_ptr st)
    (uint16vec_ptr st)
    (Some (replicate (Z.to_nat len) zero_timestamp))
    (timestampoffsetvec_ptr st).

Definition ReserveTimestampOffset (len : Z) (st : DatumStorage) : DatumStorage :=
  mkStorage (int64vec_ptr st) (doublevec_ptr st) (charvec_ptr st)
    (uint16vec_ptr st) (timestampvec_ptr st)
    (Some (replicate (Z.to_nat len) zero_timestampoffset)).

(** [v.resize(n)]: truncate, or extend with value-initialised elements. *)
Definition resize {A} (dflt : A) (n : Z) (v : list A) : list A :=
  take (Z.to_nat n) v ++ replicate (Z.to_nat n - length v)%nat dflt.

(** [storage->uint16vec_ptr->resize(n)] *)
Definition resize_uint16 (n : Z) (st : DatumStorage) : DatumStorage :=
  mkStorage (int64vec_ptr st) (doublevec_ptr st) (charvec_ptr st)
    (resize 0 n <$> uint16vec_ptr st) (timestampvec_ptr st)
    (timestampoffsetvec_ptr st).

(** The driver writes [data] at the start of the buffer [v], and never
    past its end. *)
Definition overwrite {A} (data v : list A) : list A :=
  take (length v) data ++ drop (length data) v.

(** The effect on the storage of a driver call that was given the data
    pointer of the vector that matches the kind of [data]. *)
Definition storage_write (data : CData) (st : DatumStorage) : DatumStorage :=
  match data with
  | CNone | CTime2 _ => st
  | CInt64 v =>
      mkStorage (overwrite [v] <$> int64vec_ptr st) (doublevec_ptr st)
        (charvec_ptr st) (uint16vec_ptr st) (timestampvec_ptr st)
        (timestampoffsetvec_ptr st)
  | CDouble v =>
      mkStorage (int64vec_ptr st) (overwrite [v] <$> doublevec_ptr st)
        (charvec_ptr st) (uint16vec_ptr st) (timestampvec_ptr st)
        (timestampoffsetvec_ptr st)
  | CBytes v =>
      mkStorage (int64vec_ptr st) (doublevec_ptr st)
        (overwrite v <$> charvec_ptr st) (uint16vec_ptr st)
        (timestampvec_ptr st) (timestampoffsetvec_ptr st)
  | CWChars v =>
      mkStorage (int64vec_ptr st) (doublevec_ptr st) (charvec_ptr st)
        (overwrite v <$> uint16vec_ptr st) (timestampvec_ptr st)
        (timestampoffsetvec_ptr st)
  | CTimestamp v =>
      mkStorage (int64vec_ptr st) (doublevec_ptr st) (charvec_ptr st)
        (uint16vec_ptr st) (overwrite [v] <$> timestampvec_ptr st)
        (timestampoffsetvec_ptr st)
  | CTimestampOffset v =>
      mkStorage (int64vec_ptr st) (doublevec_ptr st) (charvec_ptr st)
        (uint16vec_ptr st) (timestampvec_ptr st)
        (overwrite [v] <$> timestampoffsetvec_ptr st)
  end.

(** ** BoundDatum *)

Record BoundDatum : Set := mkBoundDatum {
  param_type : Z;
  c_type : Z;
  sql_type : Z;
  param_size : Z;
  digits : Z;
  buffer_len : Z;
  getStorage : DatumStorage;
  getIndVec : list Z;
  getDefinedPrecision : bool;
  is_tvp : bool;
  tvp_no_cols : Z;
  getErr : option string
}.

(** [binding->tvp_no_cols = col_count] *)
Definition set_tvp_no_cols (n : Z) (b : BoundDatum) : BoundDatum :=
  mkBoundDatum (param_type b) (c_type b) (sql_type b) (param_size b)
    (digits b) (buffer_len b) (getStorage b) (getIndVec b)
    (getDefinedPrecision b) (is_tvp b) n (getErr b).

(** The buffers of a bound column after the driver wrote one row into
    them: the data, and the indicator of the first row. *)
Definition datum_write (data : CData) (ind : Z) (b : BoundDatum) : BoundDatum :=
  mkBoundDatum (param_type b) (c_type b) (sql_type b) (param_size b)
    (digits b) (buffer_len b) (storage_write data (getStorage b))
    (overwrite [ind] (getIndVec b))
    (getDefinedPrecision b) (is_tvp b) (tvp_no_cols b) (getErr b).

(** The directions that make a parameter an output of the call. *)
Definition is_output (param_type : Z) : bool :=
  match param_type with
  | SQL_PARAM_OUTPUT | SQL_PARAM_INPUT_OUTPUT => true
  | _ => false
  end.

(** ** Column *)

(** The classes of [Column.h], one constructor per constructor call of the
    sources.  [TimestampColumn] is built from a storage, or from one
    structure ([d_Time]). *)
Inductive Column : Set :=
| NullColumn
| BoolColumn (storage : DatumStorage)
| IntColumn (storage : DatumStorage)
| NumberColumn (storage : DatumStorage)
| StringColumn (storage : DatumStorage) (size : Z) (more : bool)
| BinaryColumn (storage : DatumStorage) (amount : Z) (more : bool)
| TimestampColumn (storage : DatumStorage)
| TimestampColumn_of (datetime : SQL_SS_TIMESTAMPOFFSET_STRUCT).

(** [column->More()]: only strings and binaries are read in parts. *)
Definition More (c : Column) : bool :=
  match c with
  | StringColumn _ _ more | BinaryColumn _ _ more => more
  | _ => false
  end.

Definition is_null_column (c : Column) : bool :=
  match c with NullColumn => true | _ => false end.

#[export] Instance DatumStorage_eq_dec : EqDecision DatumStorage.
Proof. solve_decision. Defined.
#[export] Instance BoundDatum_eq_dec : EqDecision BoundDatum.
Proof. solve_decision. Defined.
#[export] Instance Column_eq_dec : EqDecision Column.
Proof. solve_decision. Defined.

(** ** Lemmas *)

Lemma length_zeros (len : Z) : length (zeros len) = Z.to_nat len.
Proof. apply length_replicate. Qed.

Lemma length_resize {A} (dflt : A) (n : Z) (v : list A) :
  length (resize dflt n v) = Z.to_nat n.
Proof.
  unfold resize. rewrite length_app, length_take, length_replicate. lia.
Qed.

Lemma resize_le {A} (dflt : A) (n : Z) (v : list A) :
  (Z.to_nat n <= length v)%nat -> resize dflt n v = take (Z.to_nat n) v.
Proof.
  intros Hn. unfold resize.
  replace (Z.to_nat n - length v)%nat with 0%nat by lia.
  apply app_nil_r.
Qed.

(** The driver never changes the size of a buffer. *)
Lemma length_overwrite {A} (data v : list A) :
  length (overwrite data v) = length v.
Proof.
  unfold overwrite. rewrite length_app, length_take, length_drop. lia.
Qed.

Lemma overwrite_fits {A} (data v : list A) :
  (length data <= length v)%nat ->
  overwrite data v = data ++ drop (length data) v.
Proof. intros H. unfold overwrite. by rewrite take_ge. Qed.

Lemma overwrite_all {A} (data v : list A) :
  length data = length v -> overwrite data v = data.
Proof.
  intros H. rewrite overwrite_fits by lia.
  rewrite drop_ge by lia. apply app_nil_r.
Qed.

(** A later row replaces an earlier one entirely, when both fill the
    buffer to the same length: nothing of the first row is left. *)
Lemma overwrite_overwrite {A} (d1 d2 v : list A) :
  (length d1 <= length d2)%nat ->
  overwrite d2 (overwrite d1 v) = overwrite d2 v.
Proof.
  intros H. unfold overwrite at 1 3.
  rewrite length_overwrite. f_equal.
  unfold overwrite.
  destruct (decide (length d1 <= length v)%nat).
  - rewrite take_ge, drop_app_ge by lia.
    rewrite drop_drop. f_equal. lia.
  - rewrite !drop_ge; [done| lia |].
    rewrite length_app, length_take, length_drop. lia.
Qed.

Lemma is_output_iff (t : Z) :
  is_output t = true <-> t = SQL_PARAM_OUTPUT \/ t = SQL_PARAM_INPUT_OUTPUT.
Proof.
  unfold is_output. split.
  - repeat case_match; naive_solver.
  - by intros [-> | ->].
Qed.

Lemma More_null : More NullColumn = false.
Proof. done. Qed.

#[export] Hint Rewrite @length_overwrite @length_resize length_zeros : wrap.
