(* ===== verification/Driver.v ===== *)
(** * The driver interface

    The ODBC entry points that [OdbcStatement.cpp] calls on its statement
    handle, as an interface over an abstract driver state [D].  The driver
    is an external collaborator (section 6 of the specification, "Consumed"):
    the statement engine is defined and verified against this interface, and
    [ScriptDriver] gives an executable instance.  The class [Sized] states
    what the engine relies on without a test.

    An operation takes the arguments of the C function (without the handle
    and without the output pointers), then the driver state, and returns
    the return code, what the function wrote through its output pointers,
    and the new driver state.  [ReadErrors] is the method of the handle
    wrapper that reads the diagnostic record of the last failure. *)

From S2P Require Import Prelude OdbcApi Storage.

(** One write of [SQLFetch] into the buffers of a column bound with
    [SQLBindCol]: the column (from 1), the data and the indicator. *)
Record FetchWrite : Set := mkFetchWrite {
  fw_column : Z;
  fw_data : CData;
  fw_indicator : Z
}.

Class Driver (D : Type) : Type := {
  (** attribute, value, string length *)
  SQLSetStmtAttr : Z -> Z -> Z -> D -> Z * D;
  (** attribute; writes the descriptor handle *)
  SQLGetStmtAttr : Z -> D -> Z * Z * D;
  (** descriptor, record, field, value *)
  SQLSetDescField : Z -> Z -> Z -> Z -> D -> Z * D;
  (** parameter number, direction, C type, SQL type, size, digits, buffer,
      buffer length, indicators *)
  SQLBindParameter :
    Z -> Z -> Z -> Z -> Z -> Z -> DatumStorage -> Z -> list Z -> D -> Z * D;
  (** statement text, text length *)
  SQLPrepare : string -> Z -> D -> Z * D;
  SQLExecute : D -> Z * D;
  (** statement text, text length *)
  SQLExecDirect : string -> Z -> D -> Z * D;
  (** writes the number of columns *)
  SQLNumResultCols : D -> Z * Z * D;
  (** column number, length of the name buffer *)
  SQLDescribeCol : Z -> Z -> D -> Z * DescribeCol * D;
  (** column number, field; writes the character attribute with its length
      and the numeric attribute *)
  SQLColAttribute : Z -> Z -> D -> Z * (string * Z * Z) * D;
  (** writes the number of affected rows *)
  SQLRowCount : D -> Z * Z * D;
  (** writes the bound columns *)
  SQLFetch : D -> Z * list FetchWrite * D;
  (** column number, C type, buffer length in bytes; writes the data and
      the length or indicator *)
  SQLGetData : Z -> Z -> Z -> D -> Z * (CData * Z) * D;
  (** column number, C type, buffer length *)
  SQLBindCol : Z -> Z -> Z -> D -> Z * D;
  (** handle type *)
  SQLCancelHandle : Z -> D -> Z * D;
  SQLMoreResults : D -> Z * D;
  SQLCloseCursor : D -> Z * D;
  (** handle type, record number; writes the SQLSTATE *)
  SQLGetDiagRec : Z -> Z -> D -> Z * string * D;
  (** [statement->ReadErrors()] *)
  ReadErrors : D -> option OdbcError
}.

(** ** Drivers that report sizes within the buffers

    What [OdbcStatement.cpp] takes from a successful call without a test:
    the number of columns, with which it builds the result set; the
    length of the name of a column, with which it allocates the buffer of
    the name (the first call of [SQLDescribeCol], without a buffer) and
    builds the name from the buffer (the second call, on the handle the
    first one left); and the length of the name of a type, written into
    an array of 1024 characters. *)
Class Sized (D : Type) `{!Driver D} : Prop := {
  counts_columns d :
    SQL_SUCCEEDED (SQLNumResultCols d).1.1 = true ->
    0 <= (SQLNumResultCols d).1.2;
  names_fit index d :
    let first := SQLDescribeCol index 0 d in
    let size := dc_name_length first.1.2 + 1 in
    let second := SQLDescribeCol index size first.2 in
    SQL_SUCCEEDED first.1.1 = true ->
    0 <= size /\
    (SQL_SUCCEEDED second.1.1 = true ->
     0 <= dc_name_length second.1.2 <= size);
  type_names_fit index field d :
    let answer := SQLColAttribute index field d in
    SQL_SUCCEEDED answer.1.1 = true ->
    0 <= answer.1.2.1.2 <= 1024
}.

(** ** The boundary with V8 and with [BoundDatum]

    What [BoundDatumSet.cpp] asks of a JavaScript value, and the three
    methods of [BoundDatum] it calls, whose code is not among the
    sources. *)
Class NodeBoundary (V : Type) : Type := {
  (** [o->Get(fact.newString(v))] *)
  Get : V -> string -> V;
  IsNull : V -> bool;
  IsArray : V -> bool;
  (** [a->Get(0)], ..., [a->Get(a->Length() - 1)] *)
  array_elements : V -> list V;
  (** [binding->bind(v)] on a fresh binding: the result and the binding *)
  datum_bind : V -> bool * BoundDatum;
  (** [param->unbind()] *)
  datum_unbind : BoundDatum -> V;
  (** [binding->reserve_column_type(type, size)] on a fresh binding *)
  reserve_column_type : Z -> Z -> BoundDatum
}.
