(* ===== verification/ScriptDriver.v ===== *)
(** * An executable driver and executable JavaScript values

    [ScriptDriver] is an instance of [Driver] that answers each call with
    the next answer of a script and records the call in a log; a call that
    finds no answer of its kind fails with [SQL_ERROR].  [JsValue] is an
    instance of [NodeBoundary]: a small universe of JavaScript values with
    a [BoundDatum::bind] that accepts numbers, output parameters and
    tables, and rejects [JsBad].

    They are not part of the program.  The witnesses of the theorems and
    the examples run the operations on them, and [pending] gives the
    driver the progress measure that the termination of the polling loop
    asks for. *)

From S2P Require Import Prelude OdbcApi Storage Driver.

(** ** The scripted driver *)

Inductive Answer : Set :=
| Rc (rc : Z)
| RcNum (rc : Z) (n : Z)
| RcDescribe (rc : Z) (d : DescribeCol)
| RcAttr (rc : Z) (text : string) (len : Z) (n : Z)
| RcFetch (rc : Z) (ws : list FetchWrite)
| RcData (rc : Z) (data : CData) (ind : Z)
| RcDiag (rc : Z) (state : string).

Inductive Call : Set :=
| CSetStmtAttr (attribute value : Z)
| CGetStmtAttr (attribute : Z)
| CSetDescField (record field value : Z)
| CBindParameter (number direction : Z)
| CPrepare (query : string)
| CExecute
| CExecDirect (query : string)
| CNumResultCols
| CDescribeCol (column len : Z)
| CColAttribute (column field : Z)
| CRowCount
| CFetch
| CGetData (column ctype len : Z)
| CBindCol (column ctype len : Z)
| CCancelHandle
| CMoreResults
| CCloseCursor
| CGetDiagRec.

Record ScriptDriver : Set := mkScript {
  script : list Answer;
  log : list Call;
  diag : option OdbcError
}.

(** The next answer, and the driver after the call [c]. *)
Definition next (c : Call) (d : ScriptDriver) : option Answer * ScriptDriver :=
  (head (script d), mkScript (tail (script d)) (log d ++ [c]) (diag d)).

Definition answer_rc (c : Call) (d : ScriptDriver) : Z * ScriptDriver :=
  match next c d with
  | (Some (Rc rc), d') => (rc, d')
  | (_, d') => (SQL_ERROR, d')
  end.

Definition answer_num (c : Call) (d : ScriptDriver) : Z * Z * ScriptDriver :=
  match next c d with
  | (Some (RcNum rc n), d') => (rc, n, d')
  | (_, d') => (SQL_ERROR, 0, d')
  end.

Definition empty_describe : DescribeCol := mkDescribeCol "" 0 0 0 0 0.

Definition answer_describe (c : Call) (d : ScriptDriver)
    : Z * DescribeCol * ScriptDriver :=
  match next c d with
  | (Some (RcDescribe rc out), d') => (rc, out, d')
  | (_, d') => (SQL_ERROR, empty_describe, d')
  end.

Definition answer_attr (c : Call) (d : ScriptDriver)
    : Z * (string * Z * Z) * ScriptDriver :=
  match next c d with
  | (Some (RcAttr rc text len n), d') => (rc, (text, len, n), d')
  | (Some (RcNum rc n), d') => (rc, (""%string, 0, n), d')
  | (_, d') => (SQL_ERROR, (""%string, 0, 0), d')
  end.

Definition answer_fetch (c : Call) (d : ScriptDriver)
    : Z * list FetchWrite * ScriptDriver :=
  match next c d with
  | (Some (RcFetch rc ws), d') => (rc, ws, d')
  | (Some (Rc rc), d') => (rc, [], d')
  | (_, d') => (SQL_ERROR, [], d')
  end.

Definition answer_data (c : Call) (d : ScriptDriver)
    : Z * (CData * Z) * ScriptDriver :=
  match next c d with
  | (Some (RcData rc data ind), d') => (rc, (data, ind), d')
  | (_, d') => (SQL_ERROR, (CNone, 0), d')
  end.

Definition answer_diag (c : Call) (d : ScriptDriver) : Z * string * ScriptDriver :=
  match next c d with
  | (Some (RcDiag rc state), d') => (rc, state, d')
  | (_, d') => (SQL_ERROR, ""%string, d')
  end.

#[export] Instance script_driver : Driver ScriptDriver := {|
  SQLSetStmtAttr a v _ := answer_rc (CSetStmtAttr a v);
  SQLGetStmtAttr a := answer_num (CGetStmtAttr a);
  SQLSetDescField _ r f v := answer_rc (CSetDescField r f v);
  SQLBindParameter n dir _ _ _ _ _ _ _ := answer_rc (CBindParameter n dir);
  SQLPrepare q _ := answer_rc (CPrepare q);
  SQLExecute := answer_rc CExecute;
  SQLExecDirect q _ := answer_rc (CExecDirect q);
  SQLNumResultCols := answer_num CNumResultCols;
  SQLDescribeCol i len := answer_describe (CDescribeCol i len);
  SQLColAttribute i f := answer_attr (CColAttribute i f);
  SQLRowCount := answer_num CRowCount;
  SQLFetch := answer_fetch CFetch;
  SQLGetData col ctype len := answer_data (CGetData col ctype len);
  SQLBindCol col ctype len := answer_rc (CBindCol col ctype len);
  SQLCancelHandle _ := answer_rc CCancelHandle;
  SQLMoreResults := answer_rc CMoreResults;
  SQLCloseCursor := answer_rc CCloseCursor;
  SQLGetDiagRec _ _ := answer_diag CGetDiagRec;
  ReadErrors d := diag d
|}.

(** A driver that will give the answers [l]. *)
Definition scripted (l : list Answer) : ScriptDriver :=
  mkScript l [] (Some (mkOdbcError "HY000" "scripted failure" 1)).

(** The number of answers left: every call consumes one. *)
Definition pending (d : ScriptDriver) : nat := length (script d).

(** ** JavaScript values *)

Inductive JsValue : Set :=
| JsNull
| JsUndefined
| JsInt (n : Z)
| JsOut (n : Z)
| JsInOut (n : Z)
| JsBad
| JsBadOut
| JsArr (l : list JsValue)
| JsTvp (table_value_param : JsValue).

(** The binding of a 64-bit integer in the direction [dir]. *)
Definition int_datum (dir n : Z) : BoundDatum :=
  mkBoundDatum dir (-25) SQL_BIGINT 0 0 8
    (storage_write (CInt64 n) (ReserveInt64 1 new_DatumStorage)) [8]
    false false 0 None.

Definition bad_datum : BoundDatum :=
  mkBoundDatum SQL_PARAM_INPUT 0 0 0 0 0 new_DatumStorage []
    false false 0 (Some "unsupported value"%string).

(** What is left of an output parameter whose value was refused. *)
Definition bad_output_datum : BoundDatum :=
  mkBoundDatum SQL_PARAM_OUTPUT 0 0 0 0 0 new_DatumStorage []
    false false 0 (Some "unsupported value"%string).

Definition tvp_datum : BoundDatum :=
  mkBoundDatum SQL_PARAM_INPUT SQL_C_DEFAULT SQL_SS_TABLE 0 0 0
    new_DatumStorage [0] false true 0 None.

Definition null_datum : BoundDatum :=
  mkBoundDatum SQL_PARAM_INPUT (-2) SQL_CHAR 0 0 0 new_DatumStorage
    [SQL_NULL_DATA] false false 0 None.

Definition js_bind (v : JsValue) : bool * BoundDatum :=
  match v with
  | JsInt n => (true, int_datum SQL_PARAM_INPUT n)
  | JsOut n => (true, int_datum SQL_PARAM_OUTPUT n)
  | JsInOut n => (true, int_datum SQL_PARAM_INPUT_OUTPUT n)
  | JsTvp _ => (true, tvp_datum)
  | JsNull | JsUndefined => (true, null_datum)
  | JsBad | JsArr _ => (false, bad_datum)
  | JsBadOut => (false, bad_output_datum)
  end.

Definition js_unbind (b : BoundDatum) : JsValue :=
  match getIndVec b, int64vec_ptr (getStorage b) with
  | ind :: _, Some (n :: _) => if ind =? SQL_NULL_DATA then JsNull else JsInt n
  | _, _ => JsNull
  end.

(** One buffer per kind of column, sized from the declared size. *)
Definition js_reserve (type size : Z) : BoundDatum :=
  match type with
  | SQL_INTEGER | SQL_SMALLINT | SQL_TINYINT =>
      mkBoundDatum SQL_PARAM_INPUT SQL_C_SLONG type size 0 8
        (ReserveInt64 1 new_DatumStorage) [0] false false 0 None
  | SQL_BIT =>
      mkBoundDatum SQL_PARAM_INPUT SQL_C_BIT type size 0 1
        (ReserveChars 1 new_DatumStorage) [0] false false 0 None
  | SQL_DECIMAL | SQL_NUMERIC | SQL_REAL | SQL_FLOAT | SQL_DOUBLE | SQL_BIGINT =>
      mkBoundDatum SQL_PARAM_INPUT SQL_C_DOUBLE type size 0 8
        (ReserveDouble 1 new_DatumStorage) [0] false false 0 None
  | SQL_BINARY | SQL_VARBINARY | SQL_LONGVARBINARY | SQL_SS_UDT =>
      mkBoundDatum SQL_PARAM_INPUT SQL_C_BINARY type size 0 size
        (ReserveChars size new_DatumStorage) [0] false false 0 None
  | SQL_TYPE_TIMESTAMP | SQL_TYPE_DATE | SQL_TIMESTAMP | SQL_DATETIME =>
      mkBoundDatum SQL_PARAM_INPUT SQL_C_TIMESTAMP type size 0 16
        (ReserveTimestamp 1 new_DatumStorage) [0] false false 0 None
  | SQL_SS_TIMESTAMPOFFSET =>
      mkBoundDatum SQL_PARAM_INPUT SQL_C_DEFAULT type size 0 20
        (ReserveTimestampOffset 1 new_DatumStorage) [0] false false 0 None
  | _ =>
      mkBoundDatum SQL_PARAM_INPUT SQL_C_WCHAR type size 0 (2 * (size + 1))
        (ReserveUint16 (size + 1) new_DatumStorage) [0] false false 0 None
  end.

#[export] Instance js_boundary : NodeBoundary JsValue := {|
  Get o v :=
    match o with
    | JsTvp cols => if String.eqb v "table_value_param" then cols else JsUndefined
    | _ => JsUndefined
    end;
  IsNull v := match v with JsNull => true | _ => false end;
  IsArray v := match v with JsArr _ => true | _ => false end;
  array_elements v := match v with JsArr l => l | _ => [] end;
  datum_bind := js_bind;
  datum_unbind := js_unbind;
  reserve_column_type := js_reserve
|}.

(** ** The progress of the scripted driver *)

Lemma pending_next c d : pending (snd (next c d)) = Nat.pred (pending d).
Proof. unfold pending, next. simpl. by destruct (script d). Qed.

Lemma pending_answer_rc c d :
  (pending (snd (answer_rc c d)) <= pending d)%nat /\
  (fst (answer_rc c d) <> SQL_ERROR ->
   (pending (snd (answer_rc c d)) < pending d)%nat).
Proof.
  unfold answer_rc, next, pending. simpl.
  destruct (script d) as [|[] l]; simpl; split; try lia; done.
Qed.
