(* ===== verification/ResultSetModel.v ===== *)
(** * The result set

    [ResultSet.h] and [ResultSet.cpp]: the definition of a column, the
    metadata of the current result set with its row count, its end-of-rows
    flag and the column decoded last, the accessors, and the conversion of
    the metadata into the array of objects handed to JavaScript
    ([map_type], [get_entry], [meta_to_value]).

    [OdbcStatement.cpp] calls the accessors by the names of a later
    revision of the header ([GetMetadata], [GetColumns], [GetColumn],
    [MetaToValue]); they are the same functions. *)

From S2P Require Import Prelude OdbcApi Storage.

(** ** Data *)

Record ColumnDefinition : Set := mkColumnDefinition {
  name : string;
  columnSize : Z;
  dataType : Z;
  dataTypeName : string;
  decimalDigits : Z;
  nullable : Z;
  udtTypeName : string
}.

Record ResultSet : Set := mkResultSet {
  metadata : list ColumnDefinition;
  rowcount : Z;
  endOfRows : bool;
  column : option Column
}.

(** An element of [metadata] after [resize]: value-initialised. *)
Definition empty_definition : ColumnDefinition :=
  mkColumnDefinition "" 0 0 "" 0 0 "".

(** One entry of the metadata array given to JavaScript. *)
Record MetaEntry : Set := mkMetaEntry {
  entry_size : Z;
  entry_name : string;
  entry_nullable : bool;
  entry_type : string;
  entry_sqlType : string;
  entry_udtType : option string
}.

(** ** Operations *)

(** [ResultSet(int columns)] *)
Definition new_ResultSet (columns : Z) : ResultSet :=
  mkResultSet (replicate (Z.to_nat columns) empty_definition) 0 true None.

(** [get_meta_data(column)], a reference into the vector: [None] when the
    index is past the end. *)
Definition get_meta_data (rs : ResultSet) (col : nat) : option ColumnDefinition :=
  metadata rs !! col.

(** Assignment through the reference that [get_meta_data] returns. *)
Definition set_meta_data (col : nat) (def : ColumnDefinition) (rs : ResultSet)
    : ResultSet :=
  mkResultSet (<[col := def]> (metadata rs)) (rowcount rs) (endOfRows rs)
    (column rs).

Definition get_column_count (rs : ResultSet) : nat := length (metadata rs).

Definition SetColumn (c : Column) (rs : ResultSet) : ResultSet :=
  mkResultSet (metadata rs) (rowcount rs) (endOfRows rs) (Some c).

Definition get_column (rs : ResultSet) : option Column := column rs.

Definition row_count (rs : ResultSet) : Z := rowcount rs.

Definition EndOfRows (rs : ResultSet) : bool := endOfRows rs.

(** The members that [OdbcStatement], a friend class, assigns directly. *)
Definition set_rowcount (n : Z) (rs : ResultSet) : ResultSet :=
  mkResultSet (metadata rs) n (endOfRows rs) (column rs).

Definition set_endOfRows (b : bool) (rs : ResultSet) : ResultSet :=
  mkResultSet (metadata rs) (rowcount rs) b (column rs).

Definition map_type (datatype : Z) : string :=
  match datatype with
  | SQL_CHAR | SQL_VARCHAR | SQL_LONGVARCHAR | SQL_WCHAR | SQL_WVARCHAR
  | SQL_WLONGVARCHAR | SQL_GUID | SQL_SS_XML => "text"
  | SQL_BIT => "boolean"
  | SQL_SMALLINT | SQL_TINYINT | SQL_INTEGER | SQL_DECIMAL | SQL_NUMERIC
  | SQL_REAL | SQL_FLOAT | SQL_DOUBLE | SQL_BIGINT => "number"
  | SQL_TYPE_TIME | SQL_SS_TIME2 | SQL_TYPE_TIMESTAMP | SQL_TYPE_DATE
  | SQL_SS_TIMESTAMPOFFSET => "date"
  | SQL_BINARY | SQL_VARBINARY | SQL_LONGVARBINARY | SQL_SS_UDT => "binary"
  | _ => "text"
  end.

Definition get_entry (definition : ColumnDefinition) : MetaEntry :=
  let type_name := map_type (dataType definition) in
  mkMetaEntry
    (wrap_signed 32 (columnSize definition))
    (name definition)
    (negb (nullable definition =? 0))
    type_name
    (dataTypeName definition)
    (if dataType definition =? SQL_SS_UDT
     then Some (udtTypeName definition) else None).

Definition meta_to_value (rs : ResultSet) : list MetaEntry :=
  get_entry <$> metadata rs.

#[export] Instance ColumnDefinition_eq_dec : EqDecision ColumnDefinition.
Proof. solve_decision. Defined.
#[export] Instance ResultSet_eq_dec : EqDecision ResultSet.
Proof. solve_decision. Defined.
#[export] Instance MetaEntry_eq_dec : EqDecision MetaEntry.
Proof. solve_decision. Defined.

(** ** Properties *)

(** The five type names of the JavaScript side. *)
Definition type_names : list string :=
  ["text"; "boolean"; "number"; "date"; "binary"].

Section ResultSetFacts.
Implicit Types (rs : ResultSet) (col : nat) (def : ColumnDefinition).

Lemma new_ResultSet_count (columns : Z) :
  get_column_count (new_ResultSet columns) = Z.to_nat columns.
Proof. apply length_replicate. Qed.

Lemma new_ResultSet_lookup (columns : Z) col :
  (col < Z.to_nat columns)%nat ->
  get_meta_data (new_ResultSet columns) col = Some empty_definition.
Proof. intros H. by apply lookup_replicate_2. Qed.

Lemma set_meta_data_count col def rs :
  get_column_count (set_meta_data col def rs) = get_column_count rs.
Proof. apply length_insert. Qed.

Lemma get_set_meta_data col def rs :
  (col < get_column_count rs)%nat ->
  get_meta_data (set_meta_data col def rs) col = Some def.
Proof. intros H. by apply list_lookup_insert_eq. Qed.

Lemma get_set_meta_data_ne col col' def rs :
  col <> col' ->
  get_meta_data (set_meta_data col def rs) col' = get_meta_data rs col'.
Proof. intros H. by apply list_lookup_insert_ne. Qed.

Lemma get_meta_data_is_Some rs col :
  is_Some (get_meta_data rs col) <-> (col < get_column_count rs)%nat.
Proof. apply lookup_lt_is_Some. Qed.

Lemma SetColumn_count c rs :
  get_column_count (SetColumn c rs) = get_column_count rs.
Proof. done. Qed.

Lemma get_SetColumn c rs : get_column (SetColumn c rs) = Some c.
Proof. done. Qed.

End ResultSetFacts.

(** [map_type] is total on the 16-bit type codes and answers one of the
    five names of the JavaScript side. *)
Lemma map_type_in_names (t : Z) : map_type t ∈ type_names.
Proof.
  unfold map_type, type_names.
  repeat case_match; apply list_elem_of_In; simpl; tauto.
Qed.

Lemma meta_to_value_length (rs : ResultSet) :
  length (meta_to_value rs) = get_column_count rs.
Proof. apply length_fmap. Qed.

Lemma meta_to_value_lookup (rs : ResultSet) (col : nat) :
  meta_to_value rs !! col = get_entry <$> get_meta_data rs col.
Proof. apply list_lookup_fmap. Qed.

Lemma get_entry_size_range (def : ColumnDefinition) :
  - 2 ^ 31 <= entry_size (get_entry def) < 2 ^ 31.
Proof. apply (wrap_signed_range 32). lia. Qed.

Lemma get_entry_udt (def : ColumnDefinition) :
  entry_udtType (get_entry def) =
    if decide (dataType def = SQL_SS_UDT) then Some (udtTypeName def) else None.
Proof.
  simpl. case_decide as H; [by rewrite H|].
  by apply Z.eqb_neq in H as ->.
Qed.

(** The size of an entry is the size of the column below [2^31]; from
    there to [2^32] the cast to 32 bits makes it negative. *)
Lemma get_entry_size (def : ColumnDefinition) :
  (0 <= columnSize def < 2 ^ 31 -> entry_size (get_entry def) = columnSize def) /\
  (2 ^ 31 <= columnSize def < 2 ^ 32 ->
   entry_size (get_entry def) = columnSize def - 2 ^ 32).
Proof.
  simpl. split; intros H; [apply wrap_signed_small; lia|].
  unfold wrap_signed. change (2 ^ (32 - 1)) with (2 ^ 31).
  replace (columnSize def + 2 ^ 31)
    with (columnSize def - 2 ^ 31 + 1 * 2 ^ 32) by lia.
  rewrite Z.mod_add, Z.mod_small by lia. lia.
Qed.

(** C37: the metadata given to JavaScript has one entry per column, in
    the order of the columns; the entry of a column has its name and the
    name of its type, one of the five type names, the size of the column
    cast to 32 bits (a size from [2^31] on is negative), [nullable] false
    exactly when the driver answered [SQL_NO_NULLS], and the name of the
    user-defined type for a column of type [SQL_SS_UDT] only. *)
Theorem meta_to_value_entry (rs : ResultSet) (col : nat) (def : ColumnDefinition) :
  get_meta_data rs col = Some def ->
  length (meta_to_value rs) = get_column_count rs /\
  exists e,
    meta_to_value rs !! col = Some e /\
    entry_name e = name def /\ entry_sqlType e = dataTypeName def /\
    entry_type e ∈ type_names /\
    (0 <= columnSize def < 2 ^ 31 -> entry_size e = columnSize def) /\
    (2 ^ 31 <= columnSize def < 2 ^ 32 -> entry_size e = columnSize def - 2 ^ 32) /\
    (entry_nullable e = false <-> nullable def = 0) /\
    entry_udtType e =
      if decide (dataType def = SQL_SS_UDT) then Some (udtTypeName def) else None.
Proof.
  intros Hdef. split; [apply meta_to_value_length|].
  exists (get_entry def). rewrite meta_to_value_lookup, Hdef.
  destruct (get_entry_size def) as [Hsmall Hlarge].
  split_and!; [done | done | done | apply map_type_in_names | done | done | |
               apply get_entry_udt].
  simpl. rewrite negb_false_iff. apply Z.eqb_eq.
Qed.

(** A column [varchar(max)] is described with the size [2^31 - 1]; a
    column whose size is [2^32 - 1] is described with the size [-1]. *)
Lemma meta_to_value_entry_witness :
  let def := mkColumnDefinition "xml" (2 ^ 32 - 1) SQL_SS_XML "xml" 0 1 "" in
  let rs := set_meta_data 0 def (new_ResultSet 1) in
  length (meta_to_value rs) = get_column_count rs /\
  exists e,
    meta_to_value rs !! 0%nat = Some e /\
    entry_name e = name def /\ entry_sqlType e = dataTypeName def /\
    entry_type e ∈ type_names /\
    (0 <= columnSize def < 2 ^ 31 -> entry_size e = columnSize def) /\
    (2 ^ 31 <= columnSize def < 2 ^ 32 -> entry_size e = columnSize def - 2 ^ 32) /\
    (entry_nullable e = false <-> nullable def = 0) /\
    entry_udtType e =
      if decide (dataType def = SQL_SS_UDT) then Some (udtTypeName def) else None.
Proof.
  intros def rs. apply (meta_to_value_entry rs 0 def). reflexivity.
Defined.
