(* ===== verification/BoundDatumSetModel.v ===== *)
(** * The set of bindings

    [BoundDatumSet.cpp]: the ordered collection of [BoundDatum] that holds
    the parameters of a call ([bind], [tvp], [unbind]) or the buffers of the
    columns of a prepared statement ([reserve]).

    The file calls the V8 API on the values it receives and three methods
    of [BoundDatum] whose code is elsewhere.  Both are the interface
    [Driver.NodeBoundary]: what a JavaScript value answers to [Get],
    [IsNull], [IsArray] and to the enumeration of an array, and what
    [BoundDatum::bind], [BoundDatum::unbind] and
    [BoundDatum::reserve_column_type] produce.

    The bindings are held through [shared_ptr]: an assignment to a binding
    after it was pushed changes the element of the vector
    ([update_last]).  A JavaScript array is a list of optional values, a
    hole being [None]; [js_set] extends the array as [Array::Set] does. *)

From S2P Require Import Prelude OdbcApi Storage Driver ScriptDriver ResultSetModel.

(** ** Data *)

Record BoundDatumSet : Set := mkBoundDatumSet {
  err : option string;
  first_error : Z;
  _output_param_count : Z;
  _bindings : list BoundDatum
}.

#[export] Instance BoundDatumSet_eq_dec : EqDecision BoundDatumSet.
Proof. solve_decision. Defined.

(** [BoundDatumSet::BoundDatumSet()] *)
Definition new_BoundDatumSet : BoundDatumSet := mkBoundDatumSet None 0 (-1) [].

Definition push_back (b : BoundDatum) (this : BoundDatumSet) : BoundDatumSet :=
  mkBoundDatumSet (err this) (first_error this) (_output_param_count this)
    (_bindings this ++ [b]).

(** An assignment through the [shared_ptr] of the binding pushed last. *)
Definition update_last (f : BoundDatum -> BoundDatum) (this : BoundDatumSet)
    : BoundDatumSet :=
  mkBoundDatumSet (err this) (first_error this) (_output_param_count this)
    (alter f (pred (length (_bindings this))) (_bindings this)).

Definition set_output_param_count (n : Z) (this : BoundDatumSet) : BoundDatumSet :=
  mkBoundDatumSet (err this) (first_error this) n (_bindings this).

Definition set_failure (e : option string) (i : Z) (this : BoundDatumSet)
    : BoundDatumSet :=
  mkBoundDatumSet e i (_output_param_count this) (_bindings this).

(** [arr->Set(i, v)] on a JavaScript array. *)
Definition js_set {V} (i : nat) (v : V) (arr : list (option V)) : list (option V) :=
  if decide (i < length arr)%nat then <[i := Some v]> arr
  else arr ++ replicate (i - length arr) None ++ [Some v].

Section Operations.
Context {V : Type} `{!NodeBoundary V}.

(** ** Operations *)

Definition get (o : V) (v : string) : V := Get o v.

Definition reserve (set : ResultSet) (this : BoundDatumSet) : bool * BoundDatumSet :=
  (true,
   foldl (fun acc def =>
            push_back (reserve_column_type (dataType def) (columnSize def)) acc)
         this (metadata set)).

Definition get_tvp_col_count (v : V) : Z :=
  let tvp_columns := get v "table_value_param" in
  Z.of_nat (length (array_elements tvp_columns)).

(** The loop of [tvp]: it stops at the first column that does not bind. *)
Fixpoint tvp_loop (cols : list V) (this : BoundDatumSet) : BoundDatumSet :=
  match cols with
  | [] => this
  | p :: cols' =>
      let '(res, binding) := datum_bind p in
      if negb res then this
      else tvp_loop cols' (push_back binding this)
  end.

Definition tvp (v : V) (this : BoundDatumSet) : bool * BoundDatumSet :=
  let tvp_columns := get v "table_value_param" in
  if IsNull tvp_columns then (false, this)
  else if negb (IsArray tvp_columns) then (false, this)
  else (true, tvp_loop (array_elements tvp_columns) this).

(** The loop of [bind] from parameter [i] on, [res] being the value the
    variable has when the iteration starts. *)
Fixpoint bind_loop (params : list V) (i : Z) (res : bool) (this : BoundDatumSet)
    : bool * BoundDatumSet :=
  match params with
  | [] => (res, this)
  | v :: params' =>
      let '(res, binding) := datum_bind v in
      let this :=
        if is_output (param_type binding)
        then set_output_param_count (_output_param_count this + 1) this
        else this in
      if negb res then (res, set_failure (getErr binding) i this)
      else
        let this := push_back binding this in
        if is_tvp binding then
          let col_count := get_tvp_col_count v in
          let this := update_last (set_tvp_no_cols col_count) this in
          let '(res, this) := tvp v this in
          bind_loop params' (i + 1) res this
        else bind_loop params' (i + 1) res this
  end.

Definition bind (node_params : list V) (this : BoundDatumSet)
    : bool * BoundDatumSet :=
  let this := set_output_param_count 0 this in
  bind_loop node_params 0 true this.

(** The loop of [unbind], [i] being the next free index of the array. *)
Fixpoint unbind_loop (bs : list BoundDatum) (i : nat) (arr : list (option V))
    : list (option V) :=
  match bs with
  | [] => arr
  | param :: bs' =>
      if is_output (param_type param)
      then unbind_loop bs' (S i) (js_set i (datum_unbind param) arr)
      else unbind_loop bs' i arr
  end.

Definition unbind (this : BoundDatumSet) : list (option V) :=
  let arr := replicate (Z.to_nat (_output_param_count this)) None in
  unbind_loop (_bindings this) 0 arr.

(** ** Reference definitions *)

(** The bindings that are outputs of the call, in the order of the set. *)
Definition outputs (bs : list BoundDatum) : list BoundDatum :=
  filter (fun b => is_output (param_type b) = true) bs.

(** The bindings a value contributes when every bind succeeds: its own,
    then those of the columns of its table up to the first that fails. *)
Definition bindings_of (v : V) : list BoundDatum :=
  let '(_, binding) := datum_bind v in
  if is_tvp binding then
    set_tvp_no_cols (get_tvp_col_count v) binding ::
    _bindings (snd (tvp v new_BoundDatumSet))
  else [binding].

(** The number of output parameters among the values given to [bind]. *)
Definition count_outputs (params : list V) : Z :=
  Z.of_nat (length (filter (fun v => is_output (param_type (snd (datum_bind v))) = true) params)).

(** The set after [n] more output parameters and the bindings [bs]. *)
Definition extend (n : Z) (bs : list BoundDatum) (this : BoundDatumSet)
    : BoundDatumSet :=
  mkBoundDatumSet (err this) (first_error this) (_output_param_count this + n)
    (_bindings this ++ bs).

(** The value of [res] after the iteration of a value that binds. *)
Definition step_result (v : V) : bool :=
  if is_tvp (snd (datum_bind v)) then fst (tvp v new_BoundDatumSet) else true.

(** The value of [res] after the iterations of values that all bind. *)
Definition last_result (res : bool) (params : list V) : bool :=
  from_option step_result res (list.last params).

(** The binding of a value itself, as it is in the set after [bind]. *)
Definition head_binding (v : V) : BoundDatum :=
  let binding := snd (datum_bind v) in
  if is_tvp binding then set_tvp_no_cols (get_tvp_col_count v) binding
  else binding.

(** ** Properties of [js_set] and [unbind] *)

Lemma js_set_fill (n i : nat) (v : V) (done_ : list (option V)) :
  length done_ = i ->
  js_set i v (done_ ++ replicate (n - i) None) =
    (done_ ++ [Some v]) ++ replicate (n - S i) None.
Proof.
  intros Hlen. unfold js_set. rewrite length_app, length_replicate.
  case_decide as Hi.
  - destruct (n - i)%nat as [|k] eqn:Hk; [lia|].
    rewrite insert_app_r_alt by lia. rewrite Hlen, Nat.sub_diag. simpl.
    rewrite <- app_assoc. simpl. do 3 f_equal. lia.
  - replace (n - i)%nat with 0%nat by lia.
    replace (n - S i)%nat with 0%nat by lia. simpl.
    rewrite !app_nil_r.
    by replace (i - (length done_ + 0))%nat with 0%nat by lia.
Qed.

Lemma unbind_loop_fill (bs : list BoundDatum) (n : nat) (done_ : list (option V)) :
  unbind_loop bs (length done_) (done_ ++ replicate (n - length done_) None) =
    (done_ ++ (Some ∘ datum_unbind <$> outputs bs)) ++
    replicate (n - length done_ - length (outputs bs)) None.
Proof.
  revert done_. induction bs as [|b bs IH]; intros done_; simpl.
  - rewrite app_nil_r. do 2 f_equal. lia.
  - unfold outputs in *. rewrite filter_cons.
    destruct (is_output (param_type b)) eqn:Hb.
    + rewrite decide_True by done.
      rewrite js_set_fill by done.
      specialize (IH (done_ ++ [Some (datum_unbind b)])).
      rewrite length_app in IH. simpl in IH.
      replace (length done_ + 1)%nat with (S (length done_)) in IH by lia.
      rewrite IH. simpl. rewrite <- !app_assoc. simpl.
      do 4 f_equal. lia.
    + rewrite decide_False by done. apply IH.
Qed.

(** ** Properties of [tvp] and [bind] *)

Lemma tvp_loop_bindings cols this :
  _bindings (tvp_loop cols this) =
    _bindings this ++ _bindings (tvp_loop cols new_BoundDatumSet).
Proof.
  revert this. induction cols as [|p cols IH]; intros this; simpl.
  - by rewrite app_nil_r.
  - destruct (datum_bind p) as [[] b]; simpl; [|by rewrite app_nil_r].
    rewrite (IH (push_back _ this)), (IH (push_back _ new_BoundDatumSet)).
    simpl. by rewrite <- app_assoc.
Qed.

Lemma tvp_loop_frame cols this :
  err (tvp_loop cols this) = err this /\
  first_error (tvp_loop cols this) = first_error this /\
  _output_param_count (tvp_loop cols this) = _output_param_count this.
Proof.
  revert this. induction cols as [|p cols IH]; intros this; simpl; [done|].
  destruct (datum_bind p) as [[] b]; simpl; [|done].
  by destruct (IH (push_back b this)) as (-> & -> & ->).
Qed.

Lemma tvp_bindings v this :
  _bindings (snd (tvp v this)) =
    _bindings this ++ _bindings (snd (tvp v new_BoundDatumSet)).
Proof.
  unfold tvp. repeat case_match; simpl; try by rewrite app_nil_r.
  apply tvp_loop_bindings.
Qed.

Lemma tvp_frame v this :
  err (snd (tvp v this)) = err this /\
  first_error (snd (tvp v this)) = first_error this /\
  _output_param_count (snd (tvp v this)) = _output_param_count this.
Proof. unfold tvp. repeat case_match; simpl; try done. apply tvp_loop_frame. Qed.

(** The bindings of the columns that bound are a prefix of the columns. *)
Lemma tvp_loop_prefix cols :
  exists k, (k <= length cols)%nat /\
    _bindings (tvp_loop cols new_BoundDatumSet) = snd ∘ datum_bind <$> take k cols /\
    Forall (fun p => fst (datum_bind p) = true) (take k cols) /\
    (k < length cols -> exists p, cols !! k = Some p /\ fst (datum_bind p) = false)%nat.
Proof.
  induction cols as [|p cols (k & Hk & Hb & Hall & Hfail)].
  - exists 0%nat. simpl. split_and!; [done | done | constructor | lia].
  - simpl. destruct (datum_bind p) as [[] b] eqn:Hp; simpl.
    + exists (S k). rewrite tvp_loop_bindings. simpl. rewrite Hp, Hb.
      split_and!; [lia | done | | intros ?; apply Hfail; lia].
      constructor; [by rewrite Hp | done].
    + exists 0%nat. simpl. split_and!; [lia | done | constructor |].
      intros _. exists p. by rewrite Hp.
Qed.

Lemma update_last_push_back f b this :
  update_last f (push_back b this) = push_back (f b) this.
Proof.
  unfold update_last, push_back. simpl. f_equal.
  rewrite length_app. simpl.
  replace (pred (length (_bindings this) + 1)) with (length (_bindings this) + 0)%nat by lia.
  by rewrite alter_app_r.
Qed.

Lemma count_outputs_app l1 l2 :
  count_outputs (l1 ++ l2) = count_outputs l1 + count_outputs l2.
Proof. unfold count_outputs. rewrite list.filter_app, length_app. lia. Qed.

Lemma count_outputs_cons v l :
  count_outputs (v :: l) =
    (if is_output (param_type (snd (datum_bind v))) then 1 else 0) + count_outputs l.
Proof.
  unfold count_outputs. rewrite filter_cons.
  destruct (is_output _); [rewrite decide_True by done | rewrite decide_False by done];
    simpl; lia.
Qed.

Lemma tvp_fst v this this' : fst (tvp v this) = fst (tvp v this').
Proof. unfold tvp. by repeat case_match. Qed.

Lemma extend_0 this : extend 0 [] this = this.
Proof. destruct this. unfold extend. simpl. by rewrite Z.add_0_r, app_nil_r. Qed.

(** [tvp] only appends bindings, and its result does not depend on the set. *)
Lemma tvp_extend v this :
  tvp v this =
    (fst (tvp v new_BoundDatumSet),
     extend 0 (_bindings (snd (tvp v new_BoundDatumSet))) this).
Proof.
  pose proof (tvp_bindings v this) as Hb.
  pose proof (tvp_frame v this) as (He & Hf & Hc).
  rewrite (tvp_fst v new_BoundDatumSet this).
  destruct (tvp v this) as [r [e f c bs]]. simpl in *. subst.
  unfold extend. by rewrite Z.add_0_r.
Qed.

Lemma extend_extend n m bs cs this :
  extend n bs (extend m cs this) = extend (m + n) (cs ++ bs) this.
Proof. unfold extend. simpl. f_equal; [lia | by rewrite app_assoc]. Qed.

Lemma last_result_cons res v params :
  last_result (step_result v) params = last_result res (v :: params).
Proof. unfold last_result. rewrite last_cons. by destruct (list.last params). Qed.

Lemma bindings_of_head v :
  bindings_of v = head_binding v :: tail (bindings_of v).
Proof.
  unfold bindings_of, head_binding.
  destruct (datum_bind v) as [r b]. simpl. by destruct (is_tvp b).
Qed.

Lemma outputs_app bs cs : outputs (bs ++ cs) = outputs bs ++ outputs cs.
Proof. apply list.filter_app. Qed.

Lemma outputs_cons b bs :
  outputs (b :: bs) =
    (if is_output (param_type b) then [b] else []) ++ outputs bs.
Proof.
  unfold outputs. rewrite filter_cons.
  by destruct (is_output _); [rewrite decide_True | rewrite decide_False].
Qed.

Lemma outputs_bindings_of params :
  Forall (fun v => outputs (tail (bindings_of v)) = []) params ->
  outputs (concat (bindings_of <$> params)) = outputs (head_binding <$> params).
Proof.
  induction 1 as [|v params Hv _ IH]; [done|]. csimpl.
  rewrite outputs_app, IH, bindings_of_head, !outputs_cons, Hv.
  by rewrite app_nil_r.
Qed.

Lemma head_binding_param_type v :
  param_type (head_binding v) = param_type (snd (datum_bind v)).
Proof. unfold head_binding. by destruct (is_tvp _). Qed.

Lemma length_outputs_heads params :
  Z.of_nat (length (outputs (head_binding <$> params))) = count_outputs params.
Proof.
  induction params as [|v params IH]; [done|].
  rewrite count_outputs_cons, <- IH, fmap_cons, outputs_cons.
  rewrite head_binding_param_type.
  destruct (is_output _); simpl; lia.
Qed.

(** One iteration of [bind] on a value that binds. *)
Lemma bind_loop_cons_ok v params i res this :
  fst (datum_bind v) = true ->
  bind_loop (v :: params) i res this =
    bind_loop params (i + 1) (step_result v)
      (extend (count_outputs [v]) (bindings_of v) this).
Proof.
  intros Hv. simpl. unfold bindings_of, step_result, extend.
  rewrite count_outputs_cons. change (count_outputs []) with 0.
  destruct (datum_bind v) as [r b]. simpl in Hv. subst r. simpl.
  destruct (is_tvp b).
  - rewrite update_last_push_back, tvp_extend. unfold extend.
    destruct (is_output (param_type b)); simpl;
      by rewrite <- app_assoc, ?Z.add_0_r.
  - destruct (is_output (param_type b)); simpl; by rewrite ?Z.add_0_r.
Qed.

(** The loop of [bind] over values that all bind, followed by [l]. *)
Lemma bind_loop_all_ok params l i res this :
  Forall (fun v => fst (datum_bind v) = true) params ->
  bind_loop (params ++ l) i res this =
    bind_loop l (i + Z.of_nat (length params)) (last_result res params)
      (extend (count_outputs params) (concat (bindings_of <$> params)) this).
Proof.
  intros Hall. revert i res this.
  induction Hall as [|v params Hv _ IH]; intros i res this.
  - simpl. by rewrite extend_0, Z.add_0_r.
  - rewrite <- app_comm_cons, bind_loop_cons_ok, IH, extend_extend by done.
    rewrite <- count_outputs_app, (last_result_cons res). csimpl.
    f_equal. lia.
Qed.

Lemma bind_all_ok params this :
  Forall (fun v => fst (datum_bind v) = true) params ->
  bind params this =
    (last_result true params,
     mkBoundDatumSet (err this) (first_error this) (count_outputs params)
       (_bindings this ++ concat (bindings_of <$> params))).
Proof.
  intros Hall. unfold bind.
  rewrite <- (app_nil_r params) at 1. by rewrite bind_loop_all_ok.
Qed.

Lemma unbind_closed this :
  unbind this =
    (Some ∘ datum_unbind <$> outputs (_bindings this)) ++
    replicate (Z.to_nat (_output_param_count this) - length (outputs (_bindings this)))
      None.
Proof.
  unfold unbind.
  pose proof (unbind_loop_fill (_bindings this)
                (Z.to_nat (_output_param_count this)) []) as H.
  simpl in H. by rewrite Nat.sub_0_r in H.
Qed.

(** ** The theorems of [bind], [unbind], [tvp] and [reserve] *)

(** C7: when the value at index [k] is the first that does not bind,
    [bind] returns [false], records [k] and the error of that value, and
    leaves in the set the bindings of the values before it and no other;
    the values after it are not looked at.  The count of output
    parameters includes the failing value when it is an output. *)
Theorem bind_first_failure good bad rest this :
  Forall (fun v => fst (datum_bind v) = true) good ->
  fst (datum_bind bad) = false ->
  bind (good ++ bad :: rest) this =
    (false,
     mkBoundDatumSet (getErr (snd (datum_bind bad))) (Z.of_nat (length good))
       (count_outputs (good ++ [bad]))
       (_bindings this ++ concat (bindings_of <$> good))).
Proof.
  intros Hgood Hbad. unfold bind. rewrite bind_loop_all_ok by done.
  simpl. rewrite count_outputs_app, count_outputs_cons.
  change (count_outputs []) with 0.
  destruct (datum_bind bad) as [r b]. simpl in *. subst r. simpl.
  unfold set_failure, extend.
  destruct (is_output (param_type b)); simpl; do 2 f_equal; lia.
Qed.

(** C15: when every value binds, the set holds the bindings of the values
    in their order, each followed by the bindings of the columns of its
    table, the count of output parameters is the number of values that
    are outputs, and the error is untouched.  The result is the result of
    the table of the last value: a table that is null or not an array
    makes [bind] return [false] only when it is the last parameter. *)
Theorem bind_success params this :
  Forall (fun v => fst (datum_bind v) = true) params ->
  bind params this =
    (last_result true params,
     mkBoundDatumSet (err this) (first_error this) (count_outputs params)
       (_bindings this ++ concat (bindings_of <$> params))).
Proof. apply bind_all_ok. Qed.

(** C33: [unbind] returns the values of the output bindings of the set in
    their order, then one empty slot for each output that was counted and
    is not in the set. *)
Theorem unbind_spec this :
  unbind this =
    (Some ∘ datum_unbind <$> outputs (_bindings this)) ++
    replicate (Z.to_nat (_output_param_count this) - length (outputs (_bindings this)))
      None.
Proof. apply unbind_closed. Qed.

(** C8: after a [bind] in which every value binds, [unbind] returns the
    values of the parameters that are outputs, in the order of the
    parameters, and as many as [bind] counted, provided no column of a
    table is an output. *)
Theorem unbind_after_bind params :
  Forall (fun v => fst (datum_bind v) = true) params ->
  Forall (fun v => outputs (tail (bindings_of v)) = []) params ->
  unbind (snd (bind params new_BoundDatumSet)) =
    Some ∘ datum_unbind <$> outputs (head_binding <$> params) /\
  Z.of_nat (length (outputs (head_binding <$> params))) = count_outputs params.
Proof.
  intros Hok Hcols. rewrite unbind_closed, bind_all_ok by done. simpl.
  rewrite (outputs_bindings_of params Hcols).
  pose proof (length_outputs_heads params) as Hlen. split; [|done].
  replace (Z.to_nat (count_outputs params) - _)%nat with 0%nat by lia.
  apply app_nil_r.
Qed.

(** The columns that [tvp_loop] binds come before every column that does
    not bind. *)
Lemma tvp_loop_stops cols k p :
  cols !! k = Some p ->
  fst (datum_bind p) = false ->
  exists k0, (k0 <= k)%nat /\
    _bindings (tvp_loop cols new_BoundDatumSet) =
      snd ∘ datum_bind <$> take k0 cols.
Proof.
  intros Hk Hp. destruct (tvp_loop_prefix cols) as (k0 & Hk0 & Hb & Hall & _).
  exists k0. split; [|done]. destruct (decide (k0 <= k)%nat); [done|].
  rewrite Forall_lookup in Hall.
  specialize (Hall k p). rewrite lookup_take_lt in Hall by lia.
  rewrite Hall in Hp; done.
Qed.

(** C18: when a column of a table does not bind, [tvp] stops at it and
    still returns [true]: the set holds, after the bindings it had, the
    bindings of the columns before the first one that fails, in order,
    and nothing records the failure: the error and the index of the
    first error are what they were. *)
Theorem tvp_column_failure_unreported v k p this :
  IsNull (get v "table_value_param") = false ->
  IsArray (get v "table_value_param") = true ->
  array_elements (get v "table_value_param") !! k = Some p ->
  fst (datum_bind p) = false ->
  fst (tvp v this) = true /\
  (length (_bindings (snd (tvp v this))) <= length (_bindings this) + k)%nat /\
  (exists k0, (k0 <= k)%nat /\
     _bindings (snd (tvp v this)) =
       _bindings this ++
       (snd ∘ datum_bind <$>
          take k0 (array_elements (get v "table_value_param")))) /\
  err (snd (tvp v this)) = err this /\
  first_error (snd (tvp v this)) = first_error this.
Proof.
  intros Hnull Harr Hk Hp.
  destruct (tvp_frame v this) as (Herr & Hfirst & _). revert Herr Hfirst.
  unfold tvp. rewrite Hnull, Harr. simpl. intros Herr Hfirst.
  destruct (tvp_loop_stops _ k p Hk Hp) as (k0 & Hk0 & Hb).
  rewrite tvp_loop_bindings, Hb.
  split_and!; [done | | by exists k0 | done | done].
  rewrite length_app, length_fmap, length_take. lia.
Qed.

Lemma reserve_spec set this :
  reserve set this =
    (true,
     extend 0
       ((fun def => reserve_column_type (dataType def) (columnSize def)) <$>
          metadata set) this).
Proof.
  unfold reserve. f_equal.
  generalize (metadata set) as defs. intros defs. revert this.
  induction defs as [|def defs IH]; intros this; simpl.
  - by rewrite extend_0.
  - rewrite IH. unfold extend, push_back. simpl.
    by rewrite <- app_assoc, !Z.add_0_r.
Qed.

End Operations.

(** ** The theorems on the values of [ScriptDriver.JsValue] *)

(** An input, an output that is refused, and a value never looked at:
    the output is counted and is not in the set. *)
Lemma bind_first_failure_witness :
  bind [JsInt 1; JsBadOut; JsOut 2] new_BoundDatumSet =
    (false,
     mkBoundDatumSet (Some "unsupported value"%string) 1 1
       [int_datum SQL_PARAM_INPUT 1]).
Proof.
  refine (eq_trans
    (bind_first_failure [JsInt 1] JsBadOut [JsOut 2] new_BoundDatumSet _ _) _);
    [repeat constructor | reflexivity | by vm_compute].
Defined.

(** A table whose columns are not an array, followed by an integer:
    [bind] returns [true]. *)
Lemma bind_success_witness :
  bind [JsTvp JsNull; JsInt 7] new_BoundDatumSet =
    (true,
     mkBoundDatumSet None 0 0
       [set_tvp_no_cols 0 tvp_datum; int_datum SQL_PARAM_INPUT 7]).
Proof.
  refine (eq_trans
    (bind_success [JsTvp JsNull; JsInt 7] new_BoundDatumSet _) _);
    [repeat constructor | by vm_compute].
Defined.

Lemma unbind_after_bind_witness :
  unbind (snd (bind [JsOut 5; JsInt 1; JsInOut 6] new_BoundDatumSet)) =
    [Some (JsInt 5); Some (JsInt 6)] /\
  2 = count_outputs [JsOut 5; JsInt 1; JsInOut 6].
Proof.
  pose proof (unbind_after_bind [JsOut 5; JsInt 1; JsInOut 6]) as H.
  vm_compute in H |- *. apply H; repeat constructor.
Defined.

(** A table of three columns whose second is refused: one column is
    bound, and [tvp] returns [true]. *)
Lemma tvp_column_failure_unreported_witness :
  let v := JsTvp (JsArr [JsInt 1; JsBad; JsInt 3]) in
  fst (tvp v new_BoundDatumSet) = true /\
  (length (_bindings (snd (tvp v new_BoundDatumSet))) <= 0 + 1)%nat /\
  (exists k0, (k0 <= 1)%nat /\
     _bindings (snd (tvp v new_BoundDatumSet)) =
       [] ++ (snd ∘ datum_bind <$>
                take k0 (array_elements (get v "table_value_param")))) /\
  err (snd (tvp v new_BoundDatumSet)) = None /\
  first_error (snd (tvp v new_BoundDatumSet)) = 0.
Proof.
  exact (tvp_column_failure_unreported
           (JsTvp (JsArr [JsInt 1; JsBad; JsInt 3])) 1 JsBad new_BoundDatumSet
           eq_refl eq_refl eq_refl eq_refl).
Defined.

(** The array that [unbind] returns after the failure of an output
    parameter has a slot for it, which is empty. *)
Example unbind_after_failed_output :
  unbind (snd (bind [JsOut 5; JsBadOut] new_BoundDatumSet)) =
    [Some (JsInt 5); None].
Proof. by vm_compute. Qed.
