(* ===== verification/Statement.v ===== *)
(** * The statement engine: submission, polling, description, fetch

    The first half of [OdbcStatement.cpp] (lines 30 to 483) and
    [TryReadNextResult] (lines 934 to 981): the state of an [OdbcStatement]
    and the operations that bind parameters, prepare or submit a query, poll
    an asynchronous execution, cancel it, describe the columns of a result
    set, fetch a row and move to the next result set.

    Every member function is a program of [prog OdbcStatement]; a call of
    the driver goes through [odbc], which dereferences the handle.  The
    values of the enumeration [OdbcStatementState] and the initial state
    [STATEMENT_CREATED] are those of [OdbcStatement.h]. *)

From S2P Require Import Prelude OdbcApi Storage Driver ResultSetModel BoundDatumSetModel.

#[local] Open Scope prog_scope.

(** ** The state *)

Inductive OdbcStatementState : Set :=
| STATEMENT_CREATED
| STATEMENT_PREPARED
| STATEMENT_SUBMITTED
| STATEMENT_FETCHING
| STATEMENT_CANCELLED
| STATEMENT_ERROR
| STATEMENT_CLOSED.

#[export] Instance OdbcStatementState_eq_dec : EqDecision OdbcStatementState.
Proof. solve_decision. Defined.

(** A call made by the client on another thread while the statement
    polls. *)
Inductive ClientCall : Set :=
| CallCancel
| CallSetPolling (mode : bool).

Record OdbcStatement (D : Type) : Type := mkStatement {
  statement : option D;
  error : option OdbcError;
  error2 : option OdbcError;
  _endOfResults : bool;
  _statementId : Z;
  _prepared : bool;
  _cancelRequested : bool;
  _pollingEnabled : bool;
  resultset : option ResultSet;
  boundParamsSet : option BoundDatumSet;
  _preparedStorage : option BoundDatumSet;
  _statementState : OdbcStatementState
}.

Arguments mkStatement {D}.
Arguments statement {D}.
Arguments error {D}.
Arguments error2 {D}.
Arguments _endOfResults {D}.
Arguments _statementId {D}.
Arguments _prepared {D}.
Arguments _cancelRequested {D}.
Arguments _pollingEnabled {D}.
Arguments resultset {D}.
Arguments boundParamsSet {D}.
Arguments _preparedStorage {D}.
Arguments _statementState {D}.

(** The two errors the statement makes itself. *)
Definition cancel_unsupported : OdbcError :=
  mkOdbcError "CANCEL"
    "Error: [msnodesql] cancel only supported for statements where polling is enabled."
    (-1).

Definition operation_canceled : OdbcError :=
  mkOdbcError "CANCEL" "Error: [msnodesql] Operation canceled." (-1).

(** The first [n] characters the driver wrote. *)
Definition wstring_n (buffer : string) (n : Z) : string :=
  String.substring 0 (Z.to_nat n) buffer.

(** [vector<wchar_t> buffer(size)]: the size is converted to [size_t],
    and the constructor throws [length_error] on a negative one. *)
Definition new_buffer {S} (size : Z) : prog S unit :=
  if size <? 0 then throw OutOfRange else ret tt.

(** [wstring(buffer, n)] on a buffer of [size] characters that the driver
    filled: the constructor throws [length_error] on a negative [n], and
    reads past the buffer when [n] exceeds [size].  The length is the one
    the driver wrote back; the code does not test it. *)
Definition wstring_of {S} (size : Z) (buffer : string) (n : Z) : prog S string :=
  if (n <? 0) || (size <? n) then throw OutOfRange
  else ret (wstring_n buffer n).

(** The size of the arrays [type_name] and [udt_type_name] of
    [readColAttributes]. *)
Abbreviation type_name_size := 1024 (only parsing).

Section Statement.
Context {D : Type} `{!Driver D} {V : Type} `{!NodeBoundary V}.

Abbreviation stmt := (OdbcStatement D).

(** ** Assignments to the members *)

Definition set_statement (x : option D) (s : stmt) : stmt :=
  mkStatement x (error s) (error2 s) (_endOfResults s) (_statementId s)
    (_prepared s) (_cancelRequested s) (_pollingEnabled s) (resultset s)
    (boundParamsSet s) (_preparedStorage s) (_statementState s).

Definition set_error (x : option OdbcError) (s : stmt) : stmt :=
  mkStatement (statement s) x (error2 s) (_endOfResults s) (_statementId s)
    (_prepared s) (_cancelRequested s) (_pollingEnabled s) (resultset s)
    (boundParamsSet s) (_preparedStorage s) (_statementState s).

Definition set_error2 (x : option OdbcError) (s : stmt) : stmt :=
  mkStatement (statement s) (error s) x (_endOfResults s) (_statementId s)
    (_prepared s) (_cancelRequested s) (_pollingEnabled s) (resultset s)
    (boundParamsSet s) (_preparedStorage s) (_statementState s).

Definition set_endOfResults (x : bool) (s : stmt) : stmt :=
  mkStatement (statement s) (error s) (error2 s) x (_statementId s)
    (_prepared s) (_cancelRequested s) (_pollingEnabled s) (resultset s)
    (boundParamsSet s) (_preparedStorage s) (_statementState s).

Definition set_prepared (x : bool) (s : stmt) : stmt :=
  mkStatement (statement s) (error s) (error2 s) (_endOfResults s)
    (_statementId s) x (_cancelRequested s) (_pollingEnabled s) (resultset s)
    (boundParamsSet s) (_preparedStorage s) (_statementState s).

Definition set_cancelRequested (x : bool) (s : stmt) : stmt :=
  mkStatement (statement s) (error s) (error2 s) (_endOfResults s)
    (_statementId s) (_prepared s) x (_pollingEnabled s) (resultset s)
    (boundParamsSet s) (_preparedStorage s) (_statementState s).

Definition set_pollingEnabled (x : bool) (s : stmt) : stmt :=
  mkStatement (statement s) (error s) (error2 s) (_endOfResults s)
    (_statementId s) (_prepared s) (_cancelRequested s) x (resultset s)
    (boundParamsSet s) (_preparedStorage s) (_statementState s).

Definition set_resultset (x : option ResultSet) (s : stmt) : stmt :=
  mkStatement (statement s) (error s) (error2 s) (_endOfResults s)
    (_statementId s) (_prepared s) (_cancelRequested s) (_pollingEnabled s) x
    (boundParamsSet s) (_preparedStorage s) (_statementState s).

Definition set_boundParamsSet (x : option BoundDatumSet) (s : stmt) : stmt :=
  mkStatement (statement s) (error s) (error2 s) (_endOfResults s)
    (_statementId s) (_prepared s) (_cancelRequested s) (_pollingEnabled s)
    (resultset s) x (_preparedStorage s) (_statementState s).

Definition set_preparedStorage (x : option BoundDatumSet) (s : stmt) : stmt :=
  mkStatement (statement s) (error s) (error2 s) (_endOfResults s)
    (_statementId s) (_prepared s) (_cancelRequested s) (_pollingEnabled s)
    (resultset s) (boundParamsSet s) x (_statementState s).

Definition set_statementState (x : OdbcStatementState) (s : stmt) : stmt :=
  mkStatement (statement s) (error s) (error2 s) (_endOfResults s)
    (_statementId s) (_prepared s) (_cancelRequested s) (_pollingEnabled s)
    (resultset s) (boundParamsSet s) (_preparedStorage s) x.

(** ** Access to the handle and to the result set *)

(** A call of the driver on [*statement]. *)
Definition odbc {A} (f : D -> A * D) : prog stmt A :=
  s <- get_state ;;
  d <- deref NullPointer (statement s) ;;
  put_state (set_statement (Some (snd (f d))) s) ;;;
  ret (fst (f d)).

(** [*resultset] *)
Definition the_resultset : prog stmt ResultSet :=
  s <- get_state ;; deref NullPointer (resultset s).

(** An assignment to a member of [*resultset]. *)
Definition update_resultset (f : ResultSet -> ResultSet) : prog stmt unit :=
  rs <- the_resultset ;;
  modify (set_resultset (Some (f rs))).

(** [resultset->GetMetadata(column)] *)
Definition GetMetadata (column : nat) : prog stmt ColumnDefinition :=
  rs <- the_resultset ;;
  deref OutOfRange (get_meta_data rs column).

(** An assignment through the reference [resultset->GetMetadata(column)]. *)
Definition update_metadata (column : nat)
    (f : ColumnDefinition -> ColumnDefinition) : prog stmt unit :=
  current <- GetMetadata column ;;
  update_resultset (set_meta_data column (f current)).

(** [resultset = make_unique<ResultSet>(columns)]; [resize] throws on a
    negative count. *)
Definition make_resultset (columns : Z) : prog stmt unit :=
  if columns <? 0 then throw OutOfRange
  else modify (set_resultset (Some (new_ResultSet columns))).

(** ** The constructor and the destructor *)

(** [OdbcStatement(statement_id, c)], the handle being allocated.  The
    constructor does not assign [_statementState]: its first value is the
    one the header gives the member, [STATEMENT_CREATED]. *)
Definition new_OdbcStatement (statement_id : Z) (handle : D) : stmt :=
  mkStatement (Some handle) None None true statement_id false false false
    None None None STATEMENT_CREATED.

(** [~OdbcStatement()] *)
Definition destroy : prog stmt unit :=
  modify (set_statementState STATEMENT_CLOSED).

(** ** Operations *)

Definition getSize (params : BoundDatumSet) : Z :=
  match _bindings params with
  | f :: _ => Z.of_nat (length (getIndVec f))
  | [] => 0
  end.

Definition applyPrecision (datum : BoundDatum) (current_param : Z)
    : prog stmt unit :=
  r <- odbc (SQLGetStmtAttr SQL_ATTR_APP_PARAM_DESC) ;;
  let hdesc := snd r in
  odbc (SQLSetDescField hdesc current_param SQL_DESC_TYPE (c_type datum)) ;;;
  odbc (SQLSetDescField hdesc current_param SQL_DESC_PRECISION (param_size datum)) ;;;
  odbc (SQLSetDescField hdesc current_param SQL_DESC_SCALE (digits datum)) ;;;
  odbc (SQLSetDescField hdesc current_param SQL_DESC_DATA_PTR 0) ;;;
  ret tt.

Definition cancel : prog stmt bool :=
  polling <- gets _pollingEnabled ;;
  if polling then
    modify (set_cancelRequested true) ;;;
    ret true
  else
    modify (set_error (Some cancel_unsupported)) ;;;
    ret false.

Definition setPolling (mode : bool) : prog stmt bool :=
  modify (set_pollingEnabled mode) ;;;
  ret true.

Definition ReturnOdbcError : prog stmt bool :=
  s <- get_state ;;
  match statement s with
  | None => ret false
  | Some d =>
      put_state (set_error (ReadErrors d) s) ;;;
      ret false
  end.

Definition CheckOdbcError (r : Z) : prog stmt bool :=
  if negb (SQL_SUCCEEDED r) then
    modify (set_statementState STATEMENT_ERROR) ;;;
    ReturnOdbcError
  else ret true.

(** The loop of [BindParams]. *)
Fixpoint BindParams_loop (ps : list BoundDatum) (current_param : Z)
    : prog stmt bool :=
  match ps with
  | [] => ret true
  | datum :: ps' =>
      r <- odbc (SQLBindParameter current_param (param_type datum)
                   (c_type datum) (sql_type datum) (param_size datum)
                   (digits datum) (getStorage datum) (buffer_len datum)
                   (getIndVec datum)) ;;
      ok <- CheckOdbcError r ;;
      if negb ok then ret false
      else
        when (getDefinedPrecision datum) (applyPrecision datum current_param) ;;;
        BindParams_loop ps' (current_param + 1)
  end.

Definition BindParams (params : option BoundDatumSet) : prog stmt bool :=
  ps <- deref NullPointer params ;;
  let size := getSize ps in
  if size <=? 0 then ret true
  else
    r <- odbc (SQLSetStmtAttr SQL_ATTR_PARAMSET_SIZE size 0) ;;
    ok <- CheckOdbcError r ;;
    if negb ok then ret false
    else BindParams_loop (_bindings ps) 1.

Definition UnbindParams (s : stmt) : list (option V) :=
  match boundParamsSet s with
  | Some ps => unbind ps
  | None => []
  end.

Definition GetMetaValue : prog stmt (list MetaEntry) :=
  rs <- the_resultset ;;
  ret (meta_to_value rs).

Definition endOfResults (s : stmt) : bool := _endOfResults s.

Definition EndOfResults (s : stmt) : bool := _endOfResults s.

Definition EndOfRows_value : prog stmt bool :=
  rs <- the_resultset ;;
  ret (EndOfRows rs).

(** The object [{data, more}]; [data] stays the column itself. *)
Definition GetColumnValue : prog stmt (Column * bool) :=
  rs <- the_resultset ;;
  column <- deref NullPointer (get_column rs) ;;
  ret (column, More column).

Definition readColAttributes (column : nat) : prog stmt bool :=
  let index := Z.of_nat column + 1 in
  r <- odbc (SQLColAttribute index SQL_DESC_TYPE_NAME) ;;
  let '(rc, (type_name, type_name_len, _)) := r in
  ok <- CheckOdbcError rc ;;
  if negb ok then ret false
  else
    type_name <- wstring_of type_name_size type_name type_name_len ;;
    update_metadata column (fun current =>
      mkColumnDefinition (name current) (columnSize current) (dataType current)
        type_name (decimalDigits current)
        (nullable current) (udtTypeName current)) ;;;
    current <- GetMetadata column ;;
    match dataType current with
    | SQL_SS_VARIANT => ret true
    | SQL_SS_UDT =>
        r <- odbc (SQLColAttribute index SQL_CA_SS_UDT_TYPE_NAME) ;;
        let '(rc, (udt_type_name, udt_type_name_len, _)) := r in
        ok <- CheckOdbcError rc ;;
        if negb ok then ret false
        else
          udt_type_name <-
            wstring_of type_name_size udt_type_name udt_type_name_len ;;
          update_metadata column (fun current =>
            mkColumnDefinition (name current) (columnSize current)
              (dataType current) (dataTypeName current) (decimalDigits current)
              (nullable current) udt_type_name) ;;;
          ret true
    | _ => ret true
    end.

Definition readNext (column : nat) : prog stmt bool :=
  let index := Z.of_nat column + 1 in
  r <- odbc (SQLDescribeCol index 0) ;;
  let '(rc, out) := r in
  ok <- CheckOdbcError rc ;;
  if negb ok then ret false
  else
    let name_length := dc_name_length out in
    GetMetadata column ;;;
    new_buffer (name_length + 1) ;;;
    r <- odbc (SQLDescribeCol index (name_length + 1)) ;;
    let '(rc, out) := r in
    update_metadata column (fun current =>
      mkColumnDefinition (name current) (dc_column_size out) (dc_data_type out)
        (dataTypeName current) (dc_decimal_digits out) (dc_nullable out)
        (udtTypeName current)) ;;;
    ok <- CheckOdbcError rc ;;
    if negb ok then ret false
    else
      name <- wstring_of (name_length + 1) (dc_name out) (dc_name_length out) ;;
      update_metadata column (fun current =>
        mkColumnDefinition name
          (columnSize current) (dataType current) (dataTypeName current)
          (decimalDigits current) (nullable current) (udtTypeName current)) ;;;
      b <- readColAttributes column ;;
      let rc := Z_of_bool b in
      ok <- CheckOdbcError rc ;;
      if negb ok then ret false
      else ret (bool_of_Z rc).

(** The loop of [StartReadingResults] over the columns. *)
Fixpoint readNext_while (columns : list nat) : prog stmt bool :=
  match columns with
  | [] => ret true
  | column :: columns' =>
      ok <- readNext column ;;
      if negb ok then ret false
      else readNext_while columns'
  end.

Definition StartReadingResults : prog stmt bool :=
  r <- odbc SQLNumResultCols ;;
  let '(rc, columns) := r in
  ok <- CheckOdbcError rc ;;
  if negb ok then ret false
  else
    make_resultset columns ;;;
    rs <- the_resultset ;;
    ok <- readNext_while (seq 0 (get_column_count rs)) ;;
    if negb ok then ret false
    else
      r <- odbc SQLRowCount ;;
      let '(rc, n) := r in
      update_resultset (set_rowcount n) ;;;
      ok <- CheckOdbcError rc ;;
      if negb ok then ret false
      else ret true.

(** The function is declared with the return type [SQLRETURN] and returns
    [false] and [true]. *)
Definition queryTimeout (timeout : Z) : prog stmt Z :=
  if 0 <? timeout then
    let to := wrap_unsigned 64 timeout in
    r <- odbc (SQLSetStmtAttr SQL_QUERY_TIMEOUT to SQL_IS_UINTEGER) ;;
    ok <- CheckOdbcError r ;;
    if negb ok then ret (Z_of_bool false)
    else
      odbc (SQLSetStmtAttr SQL_ATTR_QUERY_TIMEOUT to SQL_IS_UINTEGER) ;;;
      ok <- CheckOdbcError r ;;
      if negb ok then ret (Z_of_bool false)
      else ret (Z_of_bool true)
  else ret (Z_of_bool true).

(** The first loop of [TryPrepare]: the result of [readNext] is dropped. *)
Fixpoint readNext_each (columns : list nat) : prog stmt unit :=
  match columns with
  | [] => ret tt
  | i :: columns' =>
      readNext i ;;;
      readNext_each columns'
  end.

(** The second loop of [TryPrepare], over the prepared storage. *)
Fixpoint BindCol_loop (ps : list BoundDatum) (i : Z) : prog stmt bool :=
  match ps with
  | [] => ret true
  | datum :: ps' =>
      r <- odbc (SQLBindCol (i + 1) (c_type datum) (buffer_len datum)) ;;
      ok <- CheckOdbcError r ;;
      if negb ok then ret false
      else BindCol_loop ps' (i + 1)
  end.

Definition TryPrepare (query : string) (timeout : Z) : prog stmt bool :=
  r <- odbc (SQLPrepare query
               (wrap_signed 32 (Z.of_nat (String.length query)))) ;;
  ok <- CheckOdbcError r ;;
  if negb ok then ret false
  else
    r <- odbc SQLNumResultCols ;;
    let '(rc, num_cols) := r in
    ok <- CheckOdbcError rc ;;
    if negb ok then ret false
    else
      modify (set_preparedStorage (Some new_BoundDatumSet)) ;;;
      make_resultset num_cols ;;;
      readNext_each (seq 0 (Z.to_nat num_cols)) ;;;
      rs <- the_resultset ;;
      modify (set_preparedStorage (Some (snd (reserve rs new_BoundDatumSet)))) ;;;
      ok <- BindCol_loop (_bindings (snd (reserve rs new_BoundDatumSet))) 0 ;;
      if negb ok then ret false
      else
        update_resultset (set_endOfRows true) ;;;
        modify (set_prepared true) ;;;
        modify (set_statementState STATEMENT_PREPARED) ;;;
        ret true.

Definition cancelHandle : prog stmt unit :=
  modify (set_error2 (Some operation_canceled)) ;;;
  r <- odbc (SQLCancelHandle SQL_HANDLE_STMT) ;;
  CheckOdbcError r ;;;
  modify (set_cancelRequested false).

(** The calls of the client that arrive during one [Sleep(1)]. *)
Definition run_client (c : ClientCall) : prog stmt unit :=
  match c with
  | CallCancel => cancel ;;; ret tt
  | CallSetPolling mode => setPolling mode ;;; ret tt
  end.

Fixpoint run_clients (cs : list ClientCall) : prog stmt unit :=
  match cs with
  | [] => ret tt
  | c :: cs' => run_client c ;;; run_clients cs'
  end.

(** The loop of [PollCheck]: [sched] gives, for each sleep, the calls of
    the client that arrive during it. *)
Fixpoint PollCheck_loop (fuel : nat) (sched : list (list ClientCall))
    (direct : bool) : prog stmt Z :=
  match fuel with
  | O => throw OutOfFuel
  | S fuel' =>
      r <- (if direct then odbc (SQLExecDirect "" SQL_NTS)
            else odbc SQLExecute) ;;
      if negb (r =? SQL_STILL_EXECUTING) then ret r
      else
        run_clients (hd [] sched) ;;;
        submit_cancel <- gets _cancelRequested ;;
        when submit_cancel cancelHandle ;;;
        PollCheck_loop fuel' (tl sched) direct
  end.

Definition PollCheck (fuel : nat) (sched : list (list ClientCall))
    (r : Z) (direct : bool) : prog stmt Z :=
  if r =? SQL_STILL_EXECUTING then PollCheck_loop fuel sched direct
  else ret r.

Definition BindFetch (fuel : nat) (sched : list (list ClientCall))
    (paramSet : option BoundDatumSet) : prog stmt bool :=
  polling_mode <- gets _pollingEnabled ;;
  bound <- BindParams paramSet ;;
  if negb bound then ret false
  else
    when polling_mode
      (odbc (SQLSetStmtAttr SQL_ATTR_ASYNC_ENABLE SQL_ASYNC_ENABLE_ON 0) ;;;
       ret tt) ;;;
    r <- odbc SQLExecute ;;
    r <- (if polling_mode then PollCheck fuel sched r false else ret r) ;;
    ok <- CheckOdbcError r ;;
    if negb ok then ret false
    else
      the_resultset ;;;
      r <- odbc SQLRowCount ;;
      let '(rc, n) := r in
      update_resultset (set_rowcount n) ;;;
      ok <- CheckOdbcError rc ;;
      if negb ok then ret false
      else ret true.

(** The end of [TryExecuteDirect], from the test of the return code [r] of
    the submission on. *)
Definition TryExecuteDirect_finish (r : Z) (paramSet : option BoundDatumSet)
    : prog stmt bool :=
  if (r =? SQL_SUCCESS_WITH_INFO)
     || (negb (r =? SQL_NO_DATA) && negb (SQL_SUCCEEDED r)) then
    ReturnOdbcError ;;;
    modify (set_boundParamsSet paramSet) ;;;
    saved_errors <- gets error ;;
    res <- StartReadingResults ;;
    modify (set_error saved_errors) ;;;
    (if res then update_resultset (set_endOfRows false)
     else
       modify (set_resultset (Some (new_ResultSet 0))) ;;;
       update_resultset (set_endOfRows true)) ;;;
    ret false
  else
    modify (set_boundParamsSet paramSet) ;;;
    StartReadingResults.

Definition TryExecuteDirect (fuel : nat) (sched : list (list ClientCall))
    (query : string) (timeout : Z) (paramSet : option BoundDatumSet)
    : prog stmt bool :=
  bound <- BindParams paramSet ;;
  if negb bound then ret false
  else
    polling_mode <- gets _pollingEnabled ;;
    modify (set_endOfResults true) ;;;
    r <- queryTimeout (wrap_signed 32 timeout) ;;
    ok <- CheckOdbcError r ;;
    if negb ok then ret false
    else
      modify (set_statementState STATEMENT_SUBMITTED) ;;;
      when polling_mode
        (odbc (SQLSetStmtAttr SQL_ATTR_ASYNC_ENABLE SQL_ASYNC_ENABLE_ON 0) ;;;
         ret tt) ;;;
      r <- odbc (SQLExecDirect query SQL_NTS) ;;
      r <- (if polling_mode then PollCheck fuel sched r true else ret r) ;;
      TryExecuteDirect_finish r paramSet.

(** One write of [SQLFetch] through the pointers given to [SQLBindCol]
    for column [fw_column w]: columns are bound under the numbers 1 to
    the number of buffers, and a write for another column has no pointer
    to go through. *)
Definition fetch_write (bs : list BoundDatum) (w : FetchWrite)
    : list BoundDatum :=
  if fw_column w <? 1 then bs
  else alter (datum_write (fw_data w) (fw_indicator w))
         (Z.to_nat (fw_column w - 1)) bs.

(** The buffers of the prepared columns after [SQLFetch] wrote into them. *)
Definition apply_fetch_writes (ws : list FetchWrite) (s : stmt) : stmt :=
  match _preparedStorage s with
  | None => s
  | Some ps =>
      set_preparedStorage
        (Some (mkBoundDatumSet (err ps) (first_error ps) (_output_param_count ps)
           (foldl fetch_write (_bindings ps) ws))) s
  end.

Definition TryReadRow : prog stmt bool :=
  s <- get_state ;;
  match resultset s, statement s with
  | None, _ => ret false
  | _, None => ret false
  | Some _, Some _ =>
      r <- odbc SQLFetch ;;
      let '(rc, writes) := r in
      modify (apply_fetch_writes writes) ;;;
      if rc =? SQL_NO_DATA then
        update_resultset (set_endOfRows true) ;;;
        ret true
      else
        modify (set_statementState STATEMENT_FETCHING) ;;;
        update_resultset (set_endOfRows false) ;;;
        ok <- CheckOdbcError rc ;;
        if negb ok then ret false
        else ret true
  end.

(** [TryReadNextResult] from the call of [SQLMoreResults] on. *)
Definition TryReadNextResult_advance : prog stmt bool :=
  r <- odbc SQLMoreResults ;;
  match r with
  | SQL_NO_DATA =>
      modify (set_endOfResults true) ;;;
      prepared <- gets _prepared ;;
      when prepared (odbc SQLCloseCursor ;;; ret tt) ;;;
      ret true
  | SQL_SUCCESS_WITH_INFO =>
      ReturnOdbcError ;;;
      saved_errors <- gets error ;;
      res <- StartReadingResults ;;
      (if res then update_resultset (set_endOfRows false)
       else update_resultset (set_endOfRows true)) ;;;
      ret false
  | _ =>
      modify (set_endOfResults false) ;;;
      StartReadingResults
  end.

Definition TryReadNextResult : prog stmt bool :=
  state <- gets _statementState ;;
  if decide (state = STATEMENT_CANCELLED) then
    update_resultset (set_endOfRows true) ;;;
    modify (set_endOfResults true) ;;;
    modify (set_statementState STATEMENT_ERROR) ;;;
    ret false
  else TryReadNextResult_advance.

(** ** The invariant of a statement *)

(** What holds of a statement from its construction on, whatever the
    driver answers: the handle is allocated; the state is never
    [STATEMENT_CANCELLED], which no operation assigns; a statement that is
    prepared, or that fetched a row, or that is in the prepared state, has
    a result set, and a prepared one has its storage. *)
Record statement_inv (s : stmt) : Prop := mkInv {
  inv_handle : is_Some (statement s);
  inv_not_cancelled : _statementState s <> STATEMENT_CANCELLED;
  inv_prepared :
    _prepared s = true ->
    is_Some (_preparedStorage s) /\ is_Some (resultset s);
  inv_resultset :
    _statementState s = STATEMENT_FETCHING \/
    _statementState s = STATEMENT_PREPARED ->
    is_Some (resultset s)
}.

(** The statement has a result set, besides its invariant. *)
Definition has_resultset (s : stmt) : Prop :=
  statement_inv s /\ is_Some (resultset s).

End Statement.

(** Prove that an assignment keeps the invariant. *)
Ltac inv_solve :=
  repeat match goal with
         | H : has_resultset _ |- _ => destruct H as [? ?]
         | H : statement_inv _ |- _ => destruct H
         | |- has_resultset _ => split
         | |- statement_inv _ => constructor
         end;
  simpl in *; try done; try (intuition (eauto; congruence)).

#[export] Hint Extern 1 (statement_inv _) => inv_solve : prog.
#[export] Hint Extern 1 (has_resultset _) => inv_solve : prog.

Section Invariant.
Context {D : Type} `{!Driver D} {V : Type} `{!NodeBoundary V}.

Abbreviation stmt := (OdbcStatement D).
Implicit Types (s : stmt) (I : stmt -> Prop).

(** ** Runs of the primitives *)

Lemma odbc_run {A} (f : D -> A * D) s d :
  statement s = Some d ->
  odbc f s = Done (fst (f d)) (set_statement (Some (snd (f d))) s).
Proof. unfold odbc. prog_unfold. by intros ->. Qed.

Lemma odbc_null {A} (f : D -> A * D) s :
  statement s = None -> odbc f s = Fault NullPointer.
Proof. unfold odbc. prog_unfold. by intros ->. Qed.

Lemma the_resultset_run s rs :
  resultset s = Some rs -> the_resultset s = Done rs s.
Proof. unfold the_resultset. prog_unfold. by intros ->. Qed.

Lemma update_resultset_run f s rs :
  resultset s = Some rs ->
  update_resultset f s = Done tt (set_resultset (Some (f rs)) s).
Proof. unfold update_resultset, the_resultset. prog_unfold. by intros ->. Qed.

Lemma ReturnOdbcError_run s d :
  statement s = Some d ->
  ReturnOdbcError s = Done false (set_error (ReadErrors d) s).
Proof. unfold ReturnOdbcError. prog_unfold. by intros ->. Qed.

Lemma CheckOdbcError_ok r s :
  SQL_SUCCEEDED r = true -> CheckOdbcError r s = Done true s.
Proof. unfold CheckOdbcError. by intros ->. Qed.

Lemma CheckOdbcError_fail r s d :
  SQL_SUCCEEDED r = false ->
  statement s = Some d ->
  CheckOdbcError r s =
    Done false (set_error (ReadErrors d) (set_statementState STATEMENT_ERROR s)).
Proof.
  intros Hr Hd. unfold CheckOdbcError. rewrite Hr. simpl.
  rewrite (bind_done _ _ s tt (set_statementState STATEMENT_ERROR s)) by done.
  by apply ReturnOdbcError_run.
Qed.

(** ** Stable predicates *)

(** The assignments of a driver call and of an access to the result set:
    to the handle, to the error, and to the result set when it is set to
    an object. *)
Class Quiet (I : stmt -> Prop) : Prop := {
  stable_statement s d : I s -> I (set_statement (Some d) s);
  stable_error s e : I s -> I (set_error e s);
  stable_resultset s rs : I s -> I (set_resultset (Some rs) s)
}.

(** The assignments of the operations that describe and read a result
    set: those of [Quiet], and to the state when it becomes
    [STATEMENT_ERROR]. *)
Class Reading (I : stmt -> Prop) : Prop := {
  reading_quiet :: Quiet I;
  stable_state_error s : I s -> I (set_statementState STATEMENT_ERROR s)
}.

(** The assignments of the operations that run a query that was
    submitted (polling, cancellation, the fetch of a row, the next result
    set): those of [Reading], and the assignments to the second error, to
    the flags, to the bound parameters and to the prepared storage when it
    is set to an object.  The state is assigned [STATEMENT_ERROR] only. *)
Class Running (I : stmt -> Prop) : Prop := {
  running_reading :: Reading I;
  stable_error2 s e : I s -> I (set_error2 e s);
  stable_endOfResults s b : I s -> I (set_endOfResults b s);
  stable_cancelRequested s b : I s -> I (set_cancelRequested b s);
  stable_pollingEnabled s b : I s -> I (set_pollingEnabled b s);
  stable_boundParamsSet s ps : I s -> I (set_boundParamsSet ps s);
  stable_preparedStorage s ps : I s -> I (set_preparedStorage (Some ps) s)
}.

(** A predicate on statements is stable when it survives the assignments
    that the operations make on every path: those of [Running], and the
    assignments to the state when it becomes [STATEMENT_SUBMITTED] or
    [STATEMENT_CLOSED]. *)
Class Stable (I : stmt -> Prop) : Prop := {
  stable_running :: Running I;
  stable_state s st :
    st = STATEMENT_SUBMITTED \/ st = STATEMENT_CLOSED ->
    I s -> I (set_statementState st s)
}.

Lemma stable_state_submitted I `{!Stable I} s :
  I s -> I (set_statementState STATEMENT_SUBMITTED s).
Proof. apply stable_state. auto. Qed.

Lemma stable_state_closed I `{!Stable I} s :
  I s -> I (set_statementState STATEMENT_CLOSED s).
Proof. apply stable_state. auto. Qed.

#[export] Instance statement_inv_stable : Stable statement_inv.
Proof. split; [split; [split; [split|]|..]|]; intros; inv_solve. Qed.

#[export] Instance has_resultset_stable : Stable has_resultset.
Proof. split; [split; [split; [split|]|..]|]; intros; inv_solve. Qed.

(** What the operations that describe and read a result set leave as it
    is: the flags, the parameters, the prepared storage and the second
    error are those of [s0], and the state is that of [s0] or the error
    state. *)
Record frame (s0 s : stmt) : Prop := mkFrame {
  frame_error2 : error2 s = error2 s0;
  frame_endOfResults : _endOfResults s = _endOfResults s0;
  frame_statementId : _statementId s = _statementId s0;
  frame_prepared : _prepared s = _prepared s0;
  frame_cancelRequested : _cancelRequested s = _cancelRequested s0;
  frame_pollingEnabled : _pollingEnabled s = _pollingEnabled s0;
  frame_boundParamsSet : boundParamsSet s = boundParamsSet s0;
  frame_preparedStorage : _preparedStorage s = _preparedStorage s0;
  frame_state :
    _statementState s = _statementState s0 \/
    _statementState s = STATEMENT_ERROR;
  frame_handle : is_Some (statement s0) -> is_Some (statement s)
}.

Lemma frame_refl s : frame s s.
Proof. split; auto. Qed.

#[export] Instance frame_reading s0 : Reading (frame s0).
Proof.
  split; [split|]; intros;
    match goal with H : frame _ _ |- _ => destruct H end;
    split; simpl; eauto.
Qed.

(** The same, with the state of [s0]. *)
Definition frame_exact (s0 s : stmt) : Prop :=
  frame s0 s /\ _statementState s = _statementState s0.

#[export] Instance frame_exact_quiet s0 : Quiet (frame_exact s0).
Proof.
  split; intros ? ? [[] ?]; split; try done; split; simpl; eauto.
Qed.

End Invariant.

(** Prove that an assignment keeps a stable predicate. *)
Ltac stable_solve :=
  first [ apply stable_statement | apply stable_error | apply stable_error2
        | apply stable_endOfResults | apply stable_cancelRequested
        | apply stable_pollingEnabled | apply stable_boundParamsSet
        | apply stable_resultset | apply stable_preparedStorage
        | apply stable_state_error | apply stable_state_submitted
        | apply stable_state_closed | apply stable_state ];
  assumption.

#[export] Hint Extern 2 => stable_solve : prog.

(** ** The buffers of the names change nothing *)

Lemma new_buffer_stable {S} (I : S -> Prop) size : preserves I (new_buffer size).
Proof. unfold new_buffer. preserves_auto. Qed.

Lemma wstring_of_stable {S} (I : S -> Prop) size buffer n :
  preserves I (wstring_of size buffer n).
Proof. unfold wstring_of. preserves_auto. Qed.

Lemma new_buffer_run {S} size (s : S) :
  0 <= size -> new_buffer size s = Done tt s.
Proof. intros H. unfold new_buffer. by destruct (Z.ltb_spec size 0); [lia|]. Qed.

Lemma wstring_of_run {S} size buffer n (s : S) :
  0 <= n <= size -> wstring_of size buffer n s = Done (wstring_n buffer n) s.
Proof.
  intros H. unfold wstring_of.
  by destruct (Z.ltb_spec n 0), (Z.ltb_spec size n); try lia.
Qed.

Lemma wstring_of_fault {S} size buffer n (s : S) :
  n < 0 \/ size < n -> wstring_of size buffer n s = Fault OutOfRange.
Proof.
  intros H. unfold wstring_of.
  by destruct (Z.ltb_spec n 0), (Z.ltb_spec size n); try lia.
Qed.

#[export] Hint Resolve new_buffer_stable wstring_of_stable : prog.

(** ** A driver call and an access to the result set preserve every
    predicate of [Quiet] *)

Section QuietOps.
Context {D : Type} `{!Driver D}.
Context (I : OdbcStatement D -> Prop) `{!Quiet I}.

Lemma odbc_stable {A} (f : D -> A * D) : preserves I (odbc f).
Proof.
  intros s Hs. unfold odbc. prog_unfold.
  destruct (statement s); [simpl; stable_solve | done].
Qed.

Lemma the_resultset_stable : preserves I the_resultset.
Proof. unfold the_resultset. preserves_auto. Qed.

Lemma GetMetadata_stable column : preserves I (GetMetadata column).
Proof. unfold GetMetadata, the_resultset. preserves_auto. Qed.

Lemma update_resultset_stable f : preserves I (update_resultset f).
Proof. unfold update_resultset, the_resultset. preserves_auto. Qed.

Lemma update_metadata_stable column f : preserves I (update_metadata column f).
Proof.
  unfold update_metadata, GetMetadata, update_resultset, the_resultset.
  preserves_auto.
Qed.

Lemma make_resultset_stable columns : preserves I (make_resultset columns).
Proof. unfold make_resultset. preserves_auto. Qed.

Lemma ReturnOdbcError_stable : preserves I ReturnOdbcError.
Proof.
  intros s Hs. unfold ReturnOdbcError. prog_unfold.
  destruct (statement s); [simpl; stable_solve | done].
Qed.

#[local] Hint Resolve odbc_stable : prog.

Lemma applyPrecision_stable datum current_param :
  preserves I (applyPrecision datum current_param).
Proof. unfold applyPrecision. preserves_auto. Qed.

End QuietOps.

#[export] Hint Extern 1 (Quiet _) => typeclasses eauto : prog.

#[export] Hint Resolve odbc_stable the_resultset_stable GetMetadata_stable
  update_resultset_stable update_metadata_stable make_resultset_stable
  ReturnOdbcError_stable applyPrecision_stable : prog.

(** ** The operations that bind parameters and describe a result set
    preserve every predicate of [Reading] *)

Section ReadingOps.
Context {D : Type} `{!Driver D} {V : Type} `{!NodeBoundary V}.
Context (I : OdbcStatement D -> Prop) `{!Reading I}.

Lemma CheckOdbcError_stable r : preserves I (CheckOdbcError r).
Proof. unfold CheckOdbcError. preserves_auto. Qed.

#[local] Hint Resolve CheckOdbcError_stable : prog.

Lemma BindParams_loop_stable ps current_param :
  preserves I (BindParams_loop ps current_param).
Proof.
  revert current_param. induction ps as [|datum ps IH]; intros n; simpl;
    preserves_auto.
Qed.

#[local] Hint Resolve BindParams_loop_stable : prog.

Lemma BindParams_stable params : preserves I (BindParams params).
Proof. unfold BindParams. preserves_auto. Qed.

Lemma readColAttributes_stable column : preserves I (readColAttributes column).
Proof. unfold readColAttributes. preserves_auto. Qed.

#[local] Hint Resolve BindParams_stable readColAttributes_stable : prog.

Lemma readNext_stable column : preserves I (readNext column).
Proof. unfold readNext. preserves_auto. Qed.

#[local] Hint Resolve readNext_stable : prog.

Lemma readNext_while_stable columns : preserves I (readNext_while columns).
Proof. induction columns; simpl; preserves_auto. Qed.

Lemma readNext_each_stable columns : preserves I (readNext_each columns).
Proof. induction columns; simpl; preserves_auto. Qed.

#[local] Hint Resolve readNext_while_stable readNext_each_stable : prog.

Lemma StartReadingResults_stable : preserves I StartReadingResults.
Proof. unfold StartReadingResults. preserves_auto. Qed.

Lemma queryTimeout_stable timeout : preserves I (queryTimeout timeout).
Proof. unfold queryTimeout. preserves_auto. Qed.

Lemma BindCol_loop_stable ps i : preserves I (BindCol_loop ps i).
Proof. revert i. induction ps; intros i; simpl; preserves_auto. Qed.

End ReadingOps.

#[export] Hint Extern 1 (Reading _) => typeclasses eauto : prog.

#[export] Hint Resolve CheckOdbcError_stable BindParams_loop_stable BindParams_stable readColAttributes_stable
  readNext_stable readNext_while_stable readNext_each_stable
  StartReadingResults_stable queryTimeout_stable BindCol_loop_stable : prog.

(** ** The operations that run a submitted query preserve every
    predicate of [Running] *)

Section RunningOps.
Context {D : Type} `{!Driver D} {V : Type} `{!NodeBoundary V}.
Context (I : OdbcStatement D -> Prop) `{!Running I}.

Lemma cancel_stable : preserves I cancel.
Proof. unfold cancel. preserves_auto. Qed.

Lemma setPolling_stable mode : preserves I (setPolling mode).
Proof. unfold setPolling. preserves_auto. Qed.

Lemma cancelHandle_stable : preserves I cancelHandle.
Proof. unfold cancelHandle. preserves_auto. Qed.

#[local] Hint Resolve cancel_stable setPolling_stable cancelHandle_stable
  : prog.

Lemma run_clients_stable cs : preserves I (run_clients cs).
Proof. induction cs as [|[] cs IH]; simpl; preserves_auto. Qed.

#[local] Hint Resolve run_clients_stable : prog.

Lemma PollCheck_loop_stable fuel sched direct :
  preserves I (PollCheck_loop fuel sched direct).
Proof.
  revert sched. induction fuel; intros sched; simpl; preserves_auto.
Qed.

#[local] Hint Resolve PollCheck_loop_stable : prog.

Lemma PollCheck_stable fuel sched r direct :
  preserves I (PollCheck fuel sched r direct).
Proof. unfold PollCheck. preserves_auto. Qed.

#[local] Hint Resolve PollCheck_stable : prog.

Lemma BindFetch_stable fuel sched paramSet :
  preserves I (BindFetch fuel sched paramSet).
Proof. unfold BindFetch. preserves_auto. Qed.

Lemma TryExecuteDirect_finish_stable r paramSet :
  preserves I (TryExecuteDirect_finish r paramSet).
Proof. unfold TryExecuteDirect_finish. preserves_auto. Qed.

#[local] Hint Resolve TryExecuteDirect_finish_stable : prog.

Lemma TryReadNextResult_stable : preserves I TryReadNextResult.
Proof.
  unfold TryReadNextResult, TryReadNextResult_advance. preserves_auto.
Qed.

Lemma apply_fetch_writes_stable ws s : I s -> I (apply_fetch_writes ws s).
Proof.
  intros Hs. unfold apply_fetch_writes.
  destruct (_preparedStorage s); [stable_solve | done].
Qed.

End RunningOps.

#[export] Hint Extern 1 (Running _) => typeclasses eauto : prog.

#[export] Hint Resolve cancel_stable setPolling_stable
  cancelHandle_stable run_clients_stable PollCheck_loop_stable
  PollCheck_stable BindFetch_stable TryExecuteDirect_finish_stable
  TryReadNextResult_stable : prog.

(** ** The submission and the destructor preserve every stable
    predicate *)

Section Preservation.
Context {D : Type} `{!Driver D} {V : Type} `{!NodeBoundary V}.
Context (I : OdbcStatement D -> Prop) `{!Stable I}.

Lemma destroy_stable : preserves I destroy.
Proof. unfold destroy. preserves_auto. Qed.

Lemma TryExecuteDirect_stable fuel sched query timeout paramSet :
  preserves I (TryExecuteDirect fuel sched query timeout paramSet).
Proof. unfold TryExecuteDirect. preserves_auto. Qed.

End Preservation.

#[export] Hint Extern 1 (Stable _) => typeclasses eauto : prog.

#[export] Hint Resolve destroy_stable TryExecuteDirect_stable : prog.

#[export] Hint Extern 2 =>
  (apply apply_fetch_writes_stable; try typeclasses eauto; assumption) : prog.

(** ** Every operation that does not poll runs without fuel *)

Section Fuel.
Context {D : Type} `{!Driver D} {V : Type} `{!NodeBoundary V}.

Abbreviation fuel_free c := (avoids (S := OdbcStatement D) OutOfFuel c).

Lemma odbc_fuel {A} (f : D -> A * D) : fuel_free (odbc f).
Proof. unfold odbc. avoids_auto. Qed.

Lemma new_buffer_fuel size : fuel_free (new_buffer size).
Proof. unfold new_buffer. avoids_auto. Qed.

Lemma wstring_of_fuel size buffer n : fuel_free (wstring_of size buffer n).
Proof. unfold wstring_of. avoids_auto. Qed.

Lemma the_resultset_fuel : fuel_free the_resultset.
Proof. unfold the_resultset. avoids_auto. Qed.

Lemma GetMetadata_fuel column : fuel_free (GetMetadata column).
Proof. unfold GetMetadata, the_resultset. avoids_auto. Qed.

Lemma update_resultset_fuel f : fuel_free (update_resultset f).
Proof. unfold update_resultset, the_resultset. avoids_auto. Qed.

Lemma update_metadata_fuel column f : fuel_free (update_metadata column f).
Proof.
  unfold update_metadata, GetMetadata, update_resultset, the_resultset.
  avoids_auto.
Qed.

Lemma make_resultset_fuel columns : fuel_free (make_resultset columns).
Proof. unfold make_resultset. avoids_auto. Qed.

Lemma ReturnOdbcError_fuel : fuel_free ReturnOdbcError.
Proof. unfold ReturnOdbcError. avoids_auto. Qed.

Lemma CheckOdbcError_fuel r : fuel_free (CheckOdbcError r).
Proof. unfold CheckOdbcError, ReturnOdbcError. avoids_auto. Qed.

#[local] Hint Resolve odbc_fuel new_buffer_fuel wstring_of_fuel
  the_resultset_fuel GetMetadata_fuel
  update_resultset_fuel update_metadata_fuel make_resultset_fuel
  ReturnOdbcError_fuel CheckOdbcError_fuel : fuel.

Lemma applyPrecision_fuel datum n : fuel_free (applyPrecision datum n).
Proof. unfold applyPrecision. avoids_auto. Qed.

#[local] Hint Resolve applyPrecision_fuel : fuel.

Lemma BindParams_loop_fuel ps n : fuel_free (BindParams_loop ps n).
Proof. revert n. induction ps; intros n; simpl; avoids_auto. Qed.

#[local] Hint Resolve BindParams_loop_fuel : fuel.

Lemma BindParams_fuel params : fuel_free (BindParams params).
Proof. unfold BindParams. avoids_auto. Qed.

Lemma readColAttributes_fuel column : fuel_free (readColAttributes column).
Proof. unfold readColAttributes. avoids_auto. Qed.

#[local] Hint Resolve BindParams_fuel readColAttributes_fuel : fuel.

Lemma readNext_fuel column : fuel_free (readNext column).
Proof. unfold readNext. avoids_auto. Qed.

#[local] Hint Resolve readNext_fuel : fuel.

Lemma readNext_while_fuel columns : fuel_free (readNext_while columns).
Proof. induction columns; simpl; avoids_auto. Qed.

Lemma readNext_each_fuel columns : fuel_free (readNext_each columns).
Proof. induction columns; simpl; avoids_auto. Qed.

Lemma BindCol_loop_fuel ps i : fuel_free (BindCol_loop ps i).
Proof. revert i. induction ps; intros i; simpl; avoids_auto. Qed.

#[local] Hint Resolve readNext_while_fuel readNext_each_fuel
  BindCol_loop_fuel : fuel.

Lemma StartReadingResults_fuel : fuel_free StartReadingResults.
Proof. unfold StartReadingResults. avoids_auto. Qed.

Lemma queryTimeout_fuel timeout : fuel_free (queryTimeout timeout).
Proof. unfold queryTimeout. avoids_auto. Qed.

Lemma TryPrepare_fuel query timeout : fuel_free (TryPrepare query timeout).
Proof. unfold TryPrepare. avoids_auto. Qed.

#[local] Hint Resolve StartReadingResults_fuel : fuel.

Lemma TryExecuteDirect_finish_fuel r paramSet :
  fuel_free (TryExecuteDirect_finish r paramSet).
Proof. unfold TryExecuteDirect_finish. avoids_auto. Qed.

Lemma TryReadRow_fuel : fuel_free TryReadRow.
Proof. unfold TryReadRow. avoids_auto. Qed.

Lemma TryReadNextResult_fuel : fuel_free TryReadNextResult.
Proof. unfold TryReadNextResult, TryReadNextResult_advance. avoids_auto. Qed.

End Fuel.

#[export] Hint Resolve odbc_fuel new_buffer_fuel wstring_of_fuel
  the_resultset_fuel GetMetadata_fuel
  update_resultset_fuel update_metadata_fuel make_resultset_fuel
  ReturnOdbcError_fuel CheckOdbcError_fuel applyPrecision_fuel
  BindParams_loop_fuel BindParams_fuel readColAttributes_fuel readNext_fuel
  readNext_while_fuel readNext_each_fuel BindCol_loop_fuel
  StartReadingResults_fuel queryTimeout_fuel TryPrepare_fuel
  TryExecuteDirect_finish_fuel TryReadRow_fuel TryReadNextResult_fuel : fuel.

Section Behaviour.
Context {D : Type} `{!Driver D} {V : Type} `{!NodeBoundary V}.
Implicit Types (s : OdbcStatement D) (d : D).

(** ** The two operations that assign [STATEMENT_FETCHING] and
    [STATEMENT_PREPARED] *)

(** The statement has its prepared storage, besides its invariant. *)
Definition has_storage s : Prop :=
  statement_inv s /\ is_Some (_preparedStorage s).

(** It has both the result set and the storage: it may become prepared. *)
Definition prepared_ready s : Prop :=
  has_resultset s /\ is_Some (_preparedStorage s).

#[export] Instance has_storage_stable : Stable has_storage.
Proof.
  split; [split; [split; [split|]|..]|]; intros;
    match goal with H : has_storage _ |- _ => destruct H end;
    split; simpl; eauto with prog.
Qed.

#[export] Instance prepared_ready_stable : Stable prepared_ready.
Proof.
  split; [split; [split; [split|]|..]|]; intros;
    match goal with H : prepared_ready _ |- _ => destruct H end;
    split; simpl; eauto with prog.
Qed.

(** A program that keeps a stronger predicate than the invariant keeps
    the invariant from the states where the stronger one holds. *)
Lemma preserves_from (I J : OdbcStatement D -> Prop) {A B}
    (c : prog (OdbcStatement D) A) (k : A -> prog (OdbcStatement D) B) :
  (forall s, I s -> wlp c (fun _ s' => J s') s) ->
  (forall a, preserves J (k a)) ->
  (forall s, J s -> I s) ->
  preserves I (and_then c k).
Proof.
  intros Hc Hk HJI s Hs. apply wlp_bind.
  eapply wlp_mono; [|by apply Hc]. intros a s' Hs'.
  eapply wlp_mono; [|by apply Hk]. eauto.
Qed.

Lemma TryReadRow_inv : preserves statement_inv TryReadRow.
Proof.
  intros s Hs. unfold TryReadRow. apply wlp_bind, wlp_get_state.
  destruct (resultset s) eqn:Hrs; [|done].
  destruct (statement s) eqn:Hd; [|done].
  assert (has_resultset s) as HJ by (split; eauto).
  apply (wlp_mono _ (fun _ s' => has_resultset s')); [by intros ? ? []|].
  revert HJ. generalize s. change (preserves has_resultset
    (r <- odbc SQLFetch ;;
     (let '(rc, writes) := r in
      modify (apply_fetch_writes writes) ;;;
      (if rc =? SQL_NO_DATA
       then update_resultset (set_endOfRows true) ;;; ret true
       else modify (set_statementState STATEMENT_FETCHING) ;;;
            update_resultset (set_endOfRows false) ;;;
            ok <- CheckOdbcError rc ;;
            (if negb ok then ret false else ret true))))%prog).
  preserves_auto.
Qed.

Lemma TryPrepare_inv query timeout :
  preserves statement_inv (TryPrepare query timeout).
Proof.
  unfold TryPrepare.
  apply preserves_bind; [eauto with prog|intros r].
  apply preserves_bind; [eauto with prog|intros ok].
  apply preserves_if; [preserves_auto|].
  apply preserves_bind; [eauto with prog|intros [rc num_cols]].
  apply preserves_bind; [eauto with prog|intros ok2].
  apply preserves_if; [preserves_auto|].
  apply (preserves_from statement_inv has_storage);
    [intros s Hs; split; simpl; eauto with prog | intros _ | by intros ? []].
  apply (preserves_from has_storage prepared_ready);
    [|intros _; preserves_auto;
       match goal with H : prepared_ready _ |- _ => destruct H end;
       (split; [inv_solve | done])
     | intros ? [[]]; by split].
  intros s [Hs Hst]. unfold make_resultset.
  destruct (num_cols <? 0); [done|]. split; [split|]; simpl; eauto with prog.
Qed.

(** ** [cancel], [setPolling] and [CheckOdbcError] *)

(** C39: [cancel] records the request and returns [true] when polling is
    enabled; otherwise it returns [false], the error of the statement is
    the error of an unsupported cancellation, and no request is
    recorded. *)
Theorem cancel_spec s :
  cancel s =
    if _pollingEnabled s then Done true (set_cancelRequested true s)
    else Done false (set_error (Some cancel_unsupported) s).
Proof. unfold cancel. prog_unfold. by destruct (_pollingEnabled s). Qed.

Lemma setPolling_spec mode s :
  setPolling mode s = Done true (set_pollingEnabled mode s).
Proof. done. Qed.

(** C40: [CheckOdbcError] returns [true] and changes nothing on
    [SQL_SUCCESS] and [SQL_SUCCESS_WITH_INFO]; on every other code it
    returns [false], puts the statement in the error state and replaces
    its error by the diagnostics of the handle. *)
Theorem CheckOdbcError_spec r s :
  CheckOdbcError r s =
    if SQL_SUCCEEDED r then Done true s
    else Done false
           (match statement s with
            | Some d => set_error (ReadErrors d)
            | None => id
            end (set_statementState STATEMENT_ERROR s)).
Proof.
  unfold CheckOdbcError, ReturnOdbcError. prog_unfold.
  destruct (SQL_SUCCEEDED r); simpl; [done|]. by destruct (statement s).
Qed.

(** ** [TryReadRow] *)

(** [SQLFetch] writes into the prepared storage and nowhere else. *)
Lemma apply_fetch_writes_frame ws s :
  resultset (apply_fetch_writes ws s) = resultset s /\
  statement (apply_fetch_writes ws s) = statement s /\
  _statementState (apply_fetch_writes ws s) = _statementState s /\
  _prepared (apply_fetch_writes ws s) = _prepared s /\
  error (apply_fetch_writes ws s) = error s.
Proof. unfold apply_fetch_writes. by destruct (_preparedStorage s). Qed.

(** The statement after [TryReadRow] fetched with the answer [rc], the
    writes [writes] and the handle [d'], the result set being [rs]. *)
Definition fetched (rc : Z) (writes : list FetchWrite) (d' : D)
    (rs : ResultSet) s : OdbcStatement D :=
  let s1 := apply_fetch_writes writes (set_statement (Some d') s) in
  if rc =? SQL_NO_DATA then set_resultset (Some (set_endOfRows true rs)) s1
  else
    let s2 := set_resultset (Some (set_endOfRows false rs))
                (set_statementState STATEMENT_FETCHING s1) in
    if SQL_SUCCEEDED rc then s2
    else set_error (ReadErrors d') (set_statementState STATEMENT_ERROR s2).

Lemma TryReadRow_run s :
  TryReadRow s =
    match resultset s, statement s with
    | Some rs, Some d =>
        let '(rc, writes, d') := SQLFetch d in
        Done ((rc =? SQL_NO_DATA) || SQL_SUCCEEDED rc) (fetched rc writes d' rs s)
    | _, _ => Done false s
    end.
Proof.
  unfold TryReadRow. prog_unfold.
  destruct (resultset s) as [rs|] eqn:Hrs, (statement s) as [d|] eqn:Hd;
    try done.
  unfold odbc. prog_unfold. rewrite Hd. simpl.
  destruct (SQLFetch d) as [[rc writes] d']. simpl.
  unfold update_resultset, the_resultset, CheckOdbcError, ReturnOdbcError.
  prog_unfold.
  destruct (apply_fetch_writes_frame writes (set_statement (Some d') s))
    as (Hrs' & Hd' & _).
  simpl in Hrs', Hd'. rewrite Hrs in Hrs'. unfold fetched.
  destruct (rc =? 100); simpl; rewrite Hrs'; simpl; [done|].
  destruct (SQL_SUCCEEDED rc); simpl; [done|]. by rewrite Hd'.
Qed.

(** C13: [TryReadRow] returns [false] and changes nothing on a statement
    without a result set or without a handle.  Otherwise it fetches and
    returns [true] unless the driver answers an error: [SQL_NO_DATA] sets
    the end of rows and keeps the state; a success clears the end of rows
    and moves to the fetching state; an error does the same and then
    moves to the error state with the diagnostics of the driver.  The
    fetch writes the prepared storage. *)
Theorem TryReadRow_spec s :
  TryReadRow s =
    match resultset s, statement s with
    | Some rs, Some d =>
        let '(rc, writes, d') := SQLFetch d in
        Done ((rc =? SQL_NO_DATA) || SQL_SUCCEEDED rc) (fetched rc writes d' rs s)
    | _, _ => Done false s
    end.
Proof. apply TryReadRow_run. Qed.

(** The end of rows after a fetch is the answer [SQL_NO_DATA]. *)
Lemma fetched_resultset rc writes d' rs s :
  resultset (fetched rc writes d' rs s) =
    Some (set_endOfRows (rc =? SQL_NO_DATA) rs).
Proof.
  unfold fetched. destruct (rc =? SQL_NO_DATA); [done|].
  by destruct (SQL_SUCCEEDED rc).
Qed.

End Behaviour.
