(* ===== verification/ReadRowOperationModel.v ===== *)
(** * The operation that reads a row

    [ReadRowOperation.cpp]: the unit of work queued for one call of
    [readRow] from JavaScript.  The worker thread runs [TryInvokeOdbc];
    the main thread then builds the argument of the callback with
    [CreateCompletionArg].

    The operation holds a pointer to its statement, which is null when the
    statement was not found: the state of the operation is the statement
    it points to, if any.  [TryInvokeOdbc] tests the pointer,
    [CreateCompletionArg] does not. *)

From S2P Require Import Prelude OdbcApi Storage Driver ScriptDriver.
From S2P Require Import ResultSetModel BoundDatumSetModel Statement.

#[local] Open Scope prog_scope.

Section ReadRowOperation.
Context {D : Type} `{!Driver D}.
Implicit Types (s : OdbcStatement D) (o : option (OdbcStatement D)).

(** [statement->m()]: the member function [m] runs on the statement the
    operation points to. *)
Definition on_statement {A} (m : prog (OdbcStatement D) A)
    : prog (option (OdbcStatement D)) A :=
  fun o =>
    match o with
    | None => Fault NullPointer
    | Some s =>
        match m s with
        | Done a s' => Done a (Some s')
        | Fault f => Fault f
        end
    end.

Definition TryInvokeOdbc : prog (option (OdbcStatement D)) bool :=
  o <- get_state ;;
  if decide (o = None :> option (OdbcStatement D)) then ret false
  else
    res <- on_statement TryReadRow ;;
    ret res.

Definition CreateCompletionArg : prog (option (OdbcStatement D)) bool :=
  res <- on_statement EndOfRows_value ;;
  ret res.

(** ** Properties *)

Lemma on_statement_run {A} (m : prog (OdbcStatement D) A) s a s' :
  m s = Done a s' -> on_statement m (Some s) = Done a (Some s').
Proof. unfold on_statement. by intros ->. Qed.

Lemma TryInvokeOdbc_run o :
  TryInvokeOdbc o =
    match o with
    | None => Done false None
    | Some s =>
        match resultset s, statement s with
        | Some rs, Some d =>
            let '(rc, writes, d') := SQLFetch d in
            Done ((rc =? SQL_NO_DATA) || SQL_SUCCEEDED rc)
              (Some (fetched rc writes d' rs s))
        | _, _ => Done false o
        end
    end.
Proof.
  unfold TryInvokeOdbc. prog_unfold. destruct o as [s|]; [|done].
  rewrite decide_False by done. unfold on_statement.
  rewrite TryReadRow_run.
  destruct (resultset s), (statement s) as [d|]; try done.
  by destruct (SQLFetch d) as [[rc writes] d'].
Qed.

Lemma CreateCompletionArg_run o :
  CreateCompletionArg o =
    match o ≫= resultset with
    | Some rs => Done (EndOfRows rs) o
    | None => Fault NullPointer
    end.
Proof.
  unfold CreateCompletionArg, on_statement, EndOfRows_value, the_resultset.
  prog_unfold. destruct o as [s|]; [|done]. simpl.
  by destruct (resultset s).
Qed.

(** C31: after [TryInvokeOdbc] returned [true], [CreateCompletionArg]
    returns, changes nothing, and its value tells whether the fetch
    answered [SQL_NO_DATA]: the callback is told that the rows are at
    their end exactly when the driver said so. *)
Theorem completion_after_read o o' :
  TryInvokeOdbc o = Done true o' ->
  exists s d rs,
    o = Some s /\ statement s = Some d /\ resultset s = Some rs /\
    CreateCompletionArg o' = Done ((SQLFetch d).1.1 =? SQL_NO_DATA) o'.
Proof.
  rewrite TryInvokeOdbc_run. destruct o as [s|]; [|done].
  destruct (resultset s) as [rs|] eqn:Hrs, (statement s) as [d|] eqn:Hd;
    try done.
  destruct (SQLFetch d) as [[rc writes] d'] eqn:Hf. intros [= _ <-].
  exists s, d, rs. split_and!; try done.
  rewrite CreateCompletionArg_run, Hf. simpl. by rewrite fetched_resultset.
Qed.

(** C32: [TryInvokeOdbc] returns [false] without a fault when the
    operation has no statement or the statement has no result set, and
    [CreateCompletionArg] then dereferences a null pointer. *)
Theorem completion_without_resultset o :
  o ≫= resultset = None ->
  TryInvokeOdbc o = Done false o /\
  CreateCompletionArg o = Fault NullPointer.
Proof.
  intros Ho. rewrite TryInvokeOdbc_run, CreateCompletionArg_run, Ho.
  split; [|done]. destruct o as [s|]; [|done]. simpl in Ho. by rewrite Ho.
Qed.

End ReadRowOperation.

(** ** The theorems at a scripted driver *)

(** An operation on a statement that reads a result set of no column from
    a driver that will give the answers [l]. *)
Definition reading_operation (l : list Answer)
    : option (OdbcStatement ScriptDriver) :=
  Some (set_resultset (Some (new_ResultSet 0))
          (new_OdbcStatement 1 (scripted l))).

(** The operation after [TryInvokeOdbc] ran on [reading_operation l]. *)
Definition after_read (l : list Answer) : option (OdbcStatement ScriptDriver) :=
  default None (state_of (TryInvokeOdbc (reading_operation l))).

Lemma completion_after_read_witness :
  exists s d rs,
    reading_operation [RcFetch SQL_NO_DATA []] = Some s /\
    statement s = Some d /\ resultset s = Some rs /\
    CreateCompletionArg (after_read [RcFetch SQL_NO_DATA []]) =
      Done ((SQLFetch d).1.1 =? SQL_NO_DATA)
        (after_read [RcFetch SQL_NO_DATA []]).
Proof.
  apply (completion_after_read (reading_operation [RcFetch SQL_NO_DATA []])).
  reflexivity.
Defined.

Lemma completion_without_resultset_witness :
  TryInvokeOdbc (None : option (OdbcStatement ScriptDriver)) = Done false None /\
  CreateCompletionArg (None : option (OdbcStatement ScriptDriver)) =
    Fault NullPointer.
Proof. exact (completion_without_resultset None eq_refl). Defined.
