(* ===== verification/Polling.v ===== *)
(** * The polling loop and cancellation

    [PollCheck] and [cancelHandle] of [OdbcStatement.cpp] (lines 322 to 356
    and 389 to 405) against a closed form of one turn of the loop.  The
    client thread is the schedule of [Statement.PollCheck_loop]: the calls
    of [cancel] and [setPolling] that arrive during each [Sleep(1)].

    The loop runs as long as the driver answers [SQL_STILL_EXECUTING].  The
    class [Progress] states what a driver must promise for the loop to end:
    a number of polls left that every unfinished poll decreases and that a
    cancellation does not increase.  The scripted driver is an instance. *)

From S2P Require Import Prelude OdbcApi Storage Driver ScriptDriver.
From S2P Require Import ResultSetModel BoundDatumSetModel Statement.

(** ** Closed forms *)

Section Closed.
Context {D : Type} `{!Driver D}.
Implicit Types (s : OdbcStatement D) (d : D).

(** The call that [PollCheck] repeats. *)
Definition poll (direct : bool) (d : D) : Z * D :=
  if direct then SQLExecDirect "" SQL_NTS d else SQLExecute d.

(** The effect of one call of the client. *)
Definition client_effect (c : ClientCall) s : OdbcStatement D :=
  match c with
  | CallCancel =>
      if _pollingEnabled s then set_cancelRequested true s
      else set_error (Some cancel_unsupported) s
  | CallSetPolling mode => set_pollingEnabled mode s
  end.

Definition clients (cs : list ClientCall) s : OdbcStatement D :=
  foldl (fun s c => client_effect c s) s cs.

(** The statement after [cancelHandle], the handle being [d]. *)
Definition after_cancel d s : OdbcStatement D :=
  let '(rc, d') := SQLCancelHandle SQL_HANDLE_STMT d in
  let s1 := set_statement (Some d') (set_error2 (Some operation_canceled) s) in
  set_cancelRequested false
    (if SQL_SUCCEEDED rc then s1
     else set_error (ReadErrors d') (set_statementState STATEMENT_ERROR s1)).

(** The statement after one sleep of the loop: the client calls arrive,
    then the request is read and served. *)
Definition after_sleep (cs : list ClientCall) d s : OdbcStatement D :=
  let s2 := clients cs s in
  if _cancelRequested s2 then after_cancel d s2 else s2.

(** The loop, on the handle. *)
Fixpoint poll_loop (fuel : nat) (sched : list (list ClientCall))
    (direct : bool) d s : outcome (OdbcStatement D) Z :=
  match fuel with
  | O => Fault OutOfFuel
  | S fuel' =>
      let '(r, d1) := poll direct d in
      let s1 := set_statement (Some d1) s in
      if r =? SQL_STILL_EXECUTING then
        let s2 := after_sleep (hd [] sched) d1 s1 in
        match statement s2 with
        | Some d2 => poll_loop fuel' (tl sched) direct d2 s2
        | None => Fault NullPointer
        end
      else Done r s1
  end.

End Closed.

(** ** Drivers that make progress *)

Class Progress (D : Type) `{!Driver D} : Type := {
  polls : D -> nat;
  polls_exec_direct q n d :
    fst (SQLExecDirect q n d) = SQL_STILL_EXECUTING ->
    (polls (snd (SQLExecDirect q n d)) < polls d)%nat;
  polls_execute d :
    fst (SQLExecute d) = SQL_STILL_EXECUTING ->
    (polls (snd (SQLExecute d)) < polls d)%nat;
  polls_cancel h d :
    (polls (snd (SQLCancelHandle h d)) <= polls d)%nat
}.

Lemma pending_still c d :
  fst (answer_rc c d) = SQL_STILL_EXECUTING ->
  (pending (snd (answer_rc c d)) < pending d)%nat.
Proof. intros H. apply pending_answer_rc. by rewrite H. Qed.

Lemma pending_le c d : (pending (snd (answer_rc c d)) <= pending d)%nat.
Proof. apply pending_answer_rc. Qed.

#[export] Instance script_progress : Progress ScriptDriver := {|
  polls := pending;
  polls_exec_direct q _ d := pending_still (CExecDirect q) d;
  polls_execute d := pending_still CExecute d;
  polls_cancel _ d := pending_le CCancelHandle d
|}.

Section Polling.
Context {D : Type} `{!Driver D}.
Implicit Types (s : OdbcStatement D) (d : D).

(** ** Runs of the parts of the loop *)

Lemma run_client_run c s : run_client c s = Done tt (client_effect c s).
Proof.
  destruct c; simpl; unfold cancel, setPolling; prog_unfold; [|done].
  by destruct (_pollingEnabled s).
Qed.

Lemma run_clients_run cs s : run_clients cs s = Done tt (clients cs s).
Proof.
  revert s. induction cs as [|c cs IH]; intros s; [done|]. simpl.
  by rewrite (bind_done _ _ _ _ _ (run_client_run c s)).
Qed.

Lemma client_effect_frame c s :
  statement (client_effect c s) = statement s /\
  _statementState (client_effect c s) = _statementState s /\
  resultset (client_effect c s) = resultset s /\
  error2 (client_effect c s) = error2 s.
Proof. destruct c; simpl; [|done]. by destruct (_pollingEnabled s). Qed.

Lemma clients_frame cs s :
  statement (clients cs s) = statement s /\
  _statementState (clients cs s) = _statementState s /\
  resultset (clients cs s) = resultset s /\
  error2 (clients cs s) = error2 s.
Proof.
  revert s. induction cs as [|c cs IH]; intros s; [done|]. simpl.
  destruct (IH (client_effect c s)) as (-> & -> & -> & ->).
  apply client_effect_frame.
Qed.

Lemma cancelHandle_run s d :
  statement s = Some d -> cancelHandle s = Done tt (after_cancel d s).
Proof.
  intros Hd. unfold cancelHandle, after_cancel, odbc, CheckOdbcError,
    ReturnOdbcError. prog_unfold. simpl. rewrite Hd. simpl.
  destruct (SQLCancelHandle SQL_HANDLE_STMT d) as [rc d']. simpl.
  by destruct (SQL_SUCCEEDED rc).
Qed.

Lemma after_cancel_statement d s :
  statement (after_cancel d s) = Some (snd (SQLCancelHandle SQL_HANDLE_STMT d)).
Proof.
  unfold after_cancel. destruct (SQLCancelHandle SQL_HANDLE_STMT d) as [rc d'].
  by destruct (SQL_SUCCEEDED rc).
Qed.

Lemma after_cancel_served d s :
  _cancelRequested (after_cancel d s) = false /\
  error2 (after_cancel d s) = Some operation_canceled.
Proof.
  unfold after_cancel. destruct (SQLCancelHandle SQL_HANDLE_STMT d) as [rc d'].
  by destruct (SQL_SUCCEEDED rc).
Qed.

Lemma after_sleep_run {A} cs s d (k : prog (OdbcStatement D) A) :
  statement s = Some d ->
  (run_clients cs ;;;
   submit_cancel <- gets _cancelRequested ;;
   when submit_cancel cancelHandle ;;;
   k)%prog s = k (after_sleep cs d s).
Proof.
  intros Hd. rewrite (bind_done _ _ _ _ _ (run_clients_run cs s)).
  unfold after_sleep. prog_unfold.
  destruct (_cancelRequested (clients cs s)); [|done].
  rewrite (cancelHandle_run _ d); [done|].
  by destruct (clients_frame cs s) as (-> & _).
Qed.

(** The handle after a sleep is the one the poll left, or the one the
    cancellation left. *)
Lemma after_sleep_statement cs s d :
  statement s = Some d ->
  statement (after_sleep cs d s) = Some d \/
  statement (after_sleep cs d s) =
    Some (snd (SQLCancelHandle SQL_HANDLE_STMT d)).
Proof.
  intros Hd. unfold after_sleep.
  destruct (_cancelRequested (clients cs s)).
  - right. apply after_cancel_statement.
  - left. by destruct (clients_frame cs s) as (-> & _).
Qed.

Lemma after_sleep_cleared cs s d :
  _cancelRequested (after_sleep cs d s) = false.
Proof.
  unfold after_sleep. destruct (_cancelRequested (clients cs s)) eqn:E;
    [apply after_cancel_served | done].
Qed.

Lemma poll_run (direct : bool) s d :
  statement s = Some d ->
  (if direct then odbc (SQLExecDirect "" SQL_NTS) else odbc SQLExecute) s =
    Done (fst (poll direct d)) (set_statement (Some (snd (poll direct d))) s).
Proof. intros Hd. unfold poll. destruct direct; by apply odbc_run. Qed.

Lemma clients_requested cs s :
  _cancelRequested s = true -> _cancelRequested (clients cs s) = true.
Proof.
  revert s. induction cs as [|c cs IH]; intros s Hs; [done|]. simpl.
  apply IH. destruct c; simpl; [|done]. by destruct (_pollingEnabled s).
Qed.

Lemma after_sleep_marked cs s d :
  error2 s = Some operation_canceled \/ _cancelRequested (clients cs s) = true ->
  error2 (after_sleep cs d s) = Some operation_canceled.
Proof.
  unfold after_sleep. destruct (_cancelRequested (clients cs s));
    [intros _; apply after_cancel_served|].
  intros [H|?]; [|done]. by destruct (clients_frame cs s) as (_ & _ & _ & ->).
Qed.

(** ** The loop against its closed form *)

Lemma PollCheck_loop_closed fuel sched direct s d :
  statement s = Some d ->
  PollCheck_loop fuel sched direct s = poll_loop fuel sched direct d s.
Proof.
  revert sched s d. induction fuel as [|fuel IH]; intros sched s d Hd; [done|].
  simpl. rewrite (bind_done _ _ _ _ _ (poll_run direct s d Hd)).
  destruct (poll direct d) as [r d1]. simpl.
  destruct (r =? SQL_STILL_EXECUTING); simpl; [|done].
  rewrite (after_sleep_run _ _ d1) by done.
  destruct (after_sleep_statement (hd [] sched)
              (set_statement (Some d1) s) d1 eq_refl) as [E|E];
    rewrite E; by apply IH.
Qed.

(** What every return of the closed loop satisfies, when every sleep
    establishes it and the polls keep it. *)
Lemma poll_loop_post (P : OdbcStatement D -> Prop) fuel sched direct d s r s' :
  (forall s d, P s -> P (set_statement (Some d) s)) ->
  (forall cs d s, P s -> P (after_sleep cs d s)) ->
  P s ->
  poll_loop fuel sched direct d s = Done r s' ->
  P s' /\ r <> SQL_STILL_EXECUTING.
Proof.
  intros Hset Hsleep. revert sched d s.
  induction fuel as [|fuel IH]; intros sched d s Hs; [done|]. simpl.
  destruct (poll direct d) as [r1 d1].
  destruct (r1 =? SQL_STILL_EXECUTING) eqn:Hr.
  - destruct (statement _) eqn:E; [|done]. apply IH. auto.
  - intros [= <- <-]. split; [auto|]. by apply Z.eqb_neq.
Qed.

Lemma poll_loop_fuel_mono fuel fuel' sched direct d s r s' :
  (fuel <= fuel')%nat ->
  poll_loop fuel sched direct d s = Done r s' ->
  poll_loop fuel' sched direct d s = Done r s'.
Proof.
  revert fuel' sched d s.
  induction fuel as [|fuel IH]; intros [|fuel'] sched d s Hle; try done;
    [lia|].
  simpl. destruct (poll direct d) as [r1 d1].
  destruct (r1 =? SQL_STILL_EXECUTING); [|done].
  destruct (statement _); [|done]. apply IH. lia.
Qed.

Lemma poll_loop_terminates `{!Progress D} fuel sched direct d s :
  (polls d < fuel)%nat ->
  exists r s', poll_loop fuel sched direct d s = Done r s'.
Proof.
  revert sched d s.
  induction fuel as [|fuel IH]; intros sched d s Hfuel; [lia|]. simpl.
  assert (fst (poll direct d) = SQL_STILL_EXECUTING ->
          (polls (snd (poll direct d)) < polls d)%nat) as Hpoll.
  { unfold poll. destruct direct; [apply polls_exec_direct|apply polls_execute]. }
  destruct (poll direct d) as [r1 d1]. simpl in Hpoll.
  destruct (r1 =? SQL_STILL_EXECUTING) eqn:Hr; [|eauto].
  apply Z.eqb_eq in Hr. specialize (Hpoll Hr).
  pose proof (polls_cancel SQL_HANDLE_STMT d1).
  destruct (after_sleep_statement (hd [] sched)
              (set_statement (Some d1) s) d1 eq_refl) as [E|E];
    rewrite E; apply IH; lia.
Qed.

End Polling.

(** ** [PollCheck] *)

Section PollCheck.
Context {D : Type} `{!Driver D}.
Implicit Types (s : OdbcStatement D) (d : D).

Lemma PollCheck_loop_null fuel sched direct s :
  statement s = None ->
  exists f, PollCheck_loop fuel sched direct s = Fault f.
Proof.
  intros Hs. destruct fuel; simpl; [eauto|]. exists NullPointer.
  apply bind_fault. destruct direct; by apply odbc_null.
Qed.

Lemma after_sleep_allocated cs d s :
  is_Some (statement s) -> is_Some (statement (after_sleep cs d s)).
Proof.
  unfold after_sleep. destruct (_cancelRequested _);
    [rewrite after_cancel_statement; eauto|].
  by destruct (clients_frame cs s) as (-> & _).
Qed.

Lemma PollCheck_run fuel sched r direct s d :
  statement s = Some d ->
  PollCheck fuel sched r direct s =
    if r =? SQL_STILL_EXECUTING then poll_loop fuel sched direct d s
    else Done r s.
Proof.
  intros Hd. unfold PollCheck.
  destruct (r =? SQL_STILL_EXECUTING); [by apply PollCheck_loop_closed|done].
Qed.

(** C24: [PollCheck] is the closed loop [poll_loop] on the handle of the
    statement: each turn polls the driver, and when the answer is
    [SQL_STILL_EXECUTING] lets the client calls of the sleep take effect,
    serves a pending request by [SQLCancelHandle] and goes on with the
    handle that is left. *)
Theorem PollCheck_closed fuel sched r direct s d :
  statement s = Some d ->
  PollCheck fuel sched r direct s =
    if r =? SQL_STILL_EXECUTING then poll_loop fuel sched direct d s
    else Done r s.
Proof. apply PollCheck_run. Qed.

(** C2: The polling loop returns, with an answer that is not
    [SQL_STILL_EXECUTING] and the handle still allocated, as soon as the
    fuel exceeds the number of polls the driver has left. *)
Theorem PollCheck_terminates `{!Progress D} fuel sched r direct s d :
  statement s = Some d ->
  (polls d < fuel)%nat ->
  exists r' s',
    PollCheck fuel sched r direct s = Done r' s' /\
    (r <> SQL_STILL_EXECUTING -> r' = r /\ s' = s) /\
    r' <> SQL_STILL_EXECUTING /\ is_Some (statement s').
Proof.
  intros Hd Hfuel. rewrite (PollCheck_run _ _ _ _ _ d Hd).
  destruct (r =? SQL_STILL_EXECUTING) eqn:Hr.
  - destruct (poll_loop_terminates fuel sched direct d s Hfuel) as (r' & s' & E).
    exists r', s'. apply Z.eqb_eq in Hr. split_and!; [done|done|..];
      eapply (poll_loop_post (fun s => is_Some (statement s))), E;
      eauto using after_sleep_allocated.
  - apply Z.eqb_neq in Hr. exists r, s. split_and!; eauto.
Qed.

(** More fuel never changes the result of the polling loop. *)
Lemma PollCheck_fuel_mono fuel fuel' sched r direct s r' s' :
  (fuel <= fuel')%nat ->
  PollCheck fuel sched r direct s = Done r' s' ->
  PollCheck fuel' sched r direct s = Done r' s'.
Proof.
  intros Hle. unfold PollCheck.
  destruct (r =? SQL_STILL_EXECUTING); [|done].
  destruct (statement s) as [d|] eqn:Hd.
  - rewrite !(PollCheck_loop_closed _ _ _ _ d Hd). by apply poll_loop_fuel_mono.
  - destruct (PollCheck_loop_null fuel sched direct s Hd) as [f ->]. done.
Qed.

(** C3: A call of [cancel] that arrives during the first sleep of a polling
    execution is served before [PollCheck] returns: the request flag is
    clear again and [error2] holds the cancellation error. *)
Theorem cancel_during_poll_is_served fuel cs sched direct s d r' s' :
  statement s = Some d ->
  _pollingEnabled s = true ->
  fst (poll direct d) = SQL_STILL_EXECUTING ->
  PollCheck fuel ((CallCancel :: cs) :: sched) SQL_STILL_EXECUTING direct s
    = Done r' s' ->
  _cancelRequested s' = false /\ error2 s' = Some operation_canceled.
Proof.
  intros Hd Hp Hr. rewrite (PollCheck_run _ _ _ _ _ d Hd). simpl.
  destruct fuel as [|fuel]; [done|]. simpl.
  destruct (poll direct d) as [r1 d1]. simpl in Hr. subst r1. simpl.
  destruct (statement (after_sleep _ _ _)) as [d2|]; [|done]. intros E.
  eapply (poll_loop_post
    (fun s => _cancelRequested s = false /\
              error2 s = Some operation_canceled)) in E; [tauto|done|..].
  - intros cs' d' s0 [_ H2]. split; [apply after_sleep_cleared|].
    apply after_sleep_marked. by left.
  - split; [apply after_sleep_cleared|]. apply after_sleep_marked. right.
    apply (clients_requested cs
             (client_effect CallCancel (set_statement (Some d1) s))).
    simpl. by rewrite Hp.
Qed.

End PollCheck.

(** ** The theorems at a scripted driver *)

(** A statement in polling mode on a driver that will give the answers
    [l]. *)
Definition polling_statement (l : list Answer) : OdbcStatement ScriptDriver :=
  set_pollingEnabled true (new_OdbcStatement 1 (scripted l)).

Lemma PollCheck_closed_witness :
  PollCheck 5 [] 2 true (polling_statement [Rc 2; Rc 0]) =
    poll_loop 5 [] true (scripted [Rc 2; Rc 0]) (polling_statement [Rc 2; Rc 0]).
Proof.
  exact (PollCheck_closed 5 [] 2 true (polling_statement [Rc 2; Rc 0]) _ eq_refl).
Defined.

Lemma PollCheck_terminates_witness :
  exists r' s',
    PollCheck 3 [] 2 true (polling_statement [Rc 2; Rc 0]) = Done r' s' /\
    (2 <> SQL_STILL_EXECUTING -> r' = 2 /\ s' = polling_statement [Rc 2; Rc 0]) /\
    r' <> SQL_STILL_EXECUTING /\ is_Some (statement s').
Proof.
  apply (PollCheck_terminates 3 [] 2 true _ (scripted [Rc 2; Rc 0]));
    [reflexivity | vm_compute; lia].
Defined.

Lemma cancel_during_poll_is_served_witness :
  exists r' s',
    PollCheck 3 [[CallCancel]] 2 true (polling_statement [Rc 2; Rc 0; Rc 0])
      = Done r' s' /\
    _cancelRequested s' = false /\ error2 s' = Some operation_canceled.
Proof.
  destruct (PollCheck 3 [[CallCancel]] 2 true _) as [r' s'|f] eqn:E;
    [|by vm_compute in E].
  exists r', s'. split; [done|].
  exact (cancel_during_poll_is_served 3 [] [] true
           (polling_statement [Rc 2; Rc 0; Rc 0])
           (scripted [Rc 2; Rc 0; Rc 0]) r' s' eq_refl eq_refl eq_refl E).
Defined.
