(* ===== verification/Execute.v ===== *)
(** * Submission and description: what a result means

    The operations of [Statement] that bind the parameters, submit the
    query and describe the result set report a failure of the driver by
    returning [false] after [CheckOdbcError] has put the statement in the
    error state.  This file states that discipline once ([checks]), proves
    it of [BindParams], [readNext], [StartReadingResults] and
    [BindCol_loop], and derives what [TryExecuteDirect] guarantees, and
    where it departs from it. *)

From S2P Require Import Prelude OdbcApi Storage Driver ScriptDriver.
From S2P Require Import ResultSetModel BoundDatumSetModel Statement Polling.

#[local] Open Scope prog_scope.

Section Checks.
Context {D : Type} `{!Driver D} {V : Type} `{!NodeBoundary V}.
Implicit Types (s : OdbcStatement D) (d : D).

(** ** The discipline *)

(** What a run from [s0] that returned [res] did to the statement: it
    touched the handle, the error, the result set and the state only, and
    the state is the one of [s0] when [res] is [true] and the error state
    when it is [false]. *)
Definition verdict s0 (res : bool) s : Prop :=
  frame s0 s /\
  _statementState s =
    (if res then _statementState s0 else STATEMENT_ERROR).

Definition checks (c : prog (OdbcStatement D) bool) : Prop :=
  forall s, wlp c (verdict s) s.

(** A program that cannot fail: it leaves the state as it is. *)
Definition quiet {A} (c : prog (OdbcStatement D) A) : Prop :=
  forall s, wlp c (fun _ s' => frame_exact s s') s.

Lemma frame_trans s0 s1 s2 : frame s0 s1 -> frame s1 s2 -> frame s0 s2.
Proof.
  intros [] []. split; try congruence; [|auto].
  destruct frame_state0, frame_state; try (right; congruence). left. congruence.
Qed.

Lemma quiet_intro {A} (c : prog (OdbcStatement D) A) :
  (forall I, Quiet I -> preserves I c) -> quiet c.
Proof.
  intros Hc s. apply (Hc (frame_exact s) _). split; [apply frame_refl|done].
Qed.

Lemma verdict_after s0 s1 res s2 :
  frame_exact s0 s1 -> verdict s1 res s2 -> verdict s0 res s2.
Proof.
  intros [Hf Hs] [Hf' Hs']. split; [exact (frame_trans _ _ _ Hf Hf')|].
  rewrite Hs'. by destruct res.
Qed.

Lemma checks_quiet_bind {A} (c : prog _ A) (k : A -> prog _ bool) :
  quiet c -> (forall a, checks (k a)) -> checks (and_then c k).
Proof.
  intros Hc Hk s. apply wlp_bind. eapply wlp_mono; [|apply Hc].
  intros a s1 H1. eapply wlp_mono; [|apply Hk].
  intros res s2 H2. exact (verdict_after _ _ _ _ H1 H2).
Qed.

Lemma checks_guard (c k : prog _ bool) :
  checks c -> checks k ->
  checks (ok <- c ;; if negb ok then ret false else k).
Proof.
  intros Hc Hk s. apply wlp_bind. eapply wlp_mono; [|apply Hc].
  intros [] s1 [H1 H1']; simpl; [|done].
  eapply wlp_mono; [|apply Hk]. intros res s2 H2.
  by apply (verdict_after s s1).
Qed.

Lemma checks_ret_true : checks (ret true).
Proof. intros s. split; [apply frame_refl|done]. Qed.

Lemma checks_if (b : bool) (c1 c2 : prog _ bool) :
  checks c1 -> checks c2 -> checks (if b then c1 else c2).
Proof. by destruct b. Qed.

Lemma checks_CheckOdbcError r : checks (CheckOdbcError r).
Proof.
  intros s. unfold CheckOdbcError, ReturnOdbcError. prog_unfold.
  destruct (SQL_SUCCEEDED r); simpl; [split; [apply frame_refl|done]|].
  destruct (statement s) eqn:E; simpl; (split; [|done]);
    split; simpl; eauto.
Qed.

(** [readNext] converts the result of [readColAttributes] to a return code,
    checks it and converts it back: the result is unchanged and the check
    never fails. *)
Lemma result_round_trip (c : prog (OdbcStatement D) bool) s :
  (b <- c ;;
   let rc := Z_of_bool b in
   ok <- CheckOdbcError rc ;;
   if negb ok then ret false else ret (bool_of_Z rc)) s = c s.
Proof. unfold and_then. by destruct (c s) as [[] s1|]. Qed.

Lemma checks_round_trip (c : prog (OdbcStatement D) bool) :
  checks c ->
  checks (b <- c ;;
          let rc := Z_of_bool b in
          ok <- CheckOdbcError rc ;;
          if negb ok then ret false else ret (bool_of_Z rc)).
Proof. intros Hc s. unfold wlp. rewrite result_round_trip. apply Hc. Qed.

End Checks.

#[export] Hint Resolve checks_ret_true checks_CheckOdbcError : prog.

(** Prove that a program follows the discipline: a check guards what
    follows it, and what cannot fail is skipped. *)
Ltac checks_step :=
  lazymatch goal with
  | |- checks (ret true) => apply checks_ret_true
  | |- checks (and_then _ (fun ok => if negb ok then ret false else _)) =>
      apply checks_guard
  | |- checks (and_then _ _) =>
      first [ apply checks_round_trip
            | apply checks_quiet_bind; [apply quiet_intro; intros ? ?|intros ?] ]
  | |- checks (if ?b then _ else _) => first [apply checks_if | destruct b]
  | |- checks (match ?x with _ => _ end) => destruct x
  end.

Ltac checks_auto := repeat checks_step; preserves_auto.

Section Discipline.
Context {D : Type} `{!Driver D} {V : Type} `{!NodeBoundary V}.
Implicit Types (s : OdbcStatement D) (d : D).

(** ** The operations that follow the discipline *)

Lemma BindParams_loop_checks ps n : checks (BindParams_loop ps n).
Proof. revert n. induction ps; intros n; simpl; checks_auto. Qed.

#[local] Hint Resolve BindParams_loop_checks : prog.

Lemma BindParams_checks params : checks (BindParams params).
Proof. unfold BindParams. checks_auto. Qed.

Lemma readColAttributes_checks column : checks (readColAttributes column).
Proof. unfold readColAttributes. checks_auto. Qed.

#[local] Hint Resolve readColAttributes_checks : prog.

Lemma readNext_checks column : checks (readNext column).
Proof. unfold readNext. checks_auto. Qed.

#[local] Hint Resolve readNext_checks : prog.

Lemma readNext_while_checks columns : checks (readNext_while columns).
Proof. induction columns; simpl; checks_auto. Qed.

#[local] Hint Resolve readNext_while_checks : prog.

Lemma StartReadingResults_checks : checks StartReadingResults.
Proof. unfold StartReadingResults. checks_auto. Qed.

Lemma BindCol_loop_checks ps i : checks (BindCol_loop ps i).
Proof. revert i. induction ps; intros i; simpl; checks_auto. Qed.

End Discipline.

#[export] Hint Resolve BindParams_loop_checks BindParams_checks
  readColAttributes_checks readNext_checks readNext_while_checks
  StartReadingResults_checks BindCol_loop_checks : prog.

(** ** Submission *)

(** The return codes that [TryExecuteDirect] reports as an error while
    it goes on to read the result set. *)
Definition reports (r : Z) : bool :=
  (r =? SQL_SUCCESS_WITH_INFO)
  || (negb (r =? SQL_NO_DATA) && negb (SQL_SUCCEEDED r)).

Section Submission.
Context {D : Type} `{!Driver D} {V : Type} `{!NodeBoundary V}.
Implicit Types (s : OdbcStatement D) (d : D).

(** The statement has a result set. *)
Definition described s : Prop := is_Some (resultset s).

#[export] Instance described_stable : Stable described.
Proof.
  split; [split; [split; [split|]|..]|]; intros; unfold described in *;
    simpl; eauto.
Qed.

(** [StartReadingResults] leaves a result set when it returns [true]. *)
Lemma StartReadingResults_resultset s :
  wlp StartReadingResults (fun res s' => res = true -> described s') s.
Proof.
  unfold StartReadingResults.
  apply wlp_bind, wlp_any. intros [rc columns] s1.
  apply wlp_bind, wlp_any. intros [] s2; simpl; [|done].
  apply wlp_bind, wlp_any. intros _ s3.
  apply wlp_bind, wlp_any. intros rs s4.
  apply wlp_bind, wlp_any. intros [] s5; simpl; [|done].
  apply wlp_bind, wlp_any. intros [rc2 n] s6.
  apply wlp_bind. unfold update_resultset, the_resultset.
  apply wlp_bind, wlp_bind, wlp_get_state, wlp_deref. intros rs' Hrs'.
  apply wlp_modify, wlp_bind.
  pose proof (CheckOdbcError_stable described rc2
                (set_resultset (Some (set_rowcount n rs')) s6)) as Hc.
  eapply wlp_mono; [|apply Hc; by eexists].
  intros [] s7 H7; apply wlp_ret; by intros.
Qed.

(** C20: the value that [queryTimeout] returns always passes for a
    success: the check that follows it in [TryExecuteDirect] never fails,
    and the query is submitted when the driver refused the timeout. *)
Theorem queryTimeout_failure_is_masked timeout s :
  wlp (queryTimeout timeout)
    (fun r s' => CheckOdbcError r s' = Done true s') s.
Proof.
  unfold queryTimeout. destruct (0 <? timeout); [|done].
  apply wlp_bind, wlp_any. intros r s1.
  apply wlp_bind, wlp_any. intros [] s2; simpl; [|done].
  apply wlp_bind, wlp_any. intros _ s3.
  apply wlp_bind, wlp_any. by intros [] s4.
Qed.

Lemma StartReadingResults_spec s :
  wlp StartReadingResults
    (fun res s' => verdict s res s' /\ (res = true -> described s')) s.
Proof.
  apply wlp_and; [apply StartReadingResults_checks|].
  apply StartReadingResults_resultset.
Qed.

(** The branch of [TryExecuteDirect_finish] that reports an error. *)
Lemma finish_reports r paramSet s d :
  statement s = Some d ->
  reports r = true ->
  wlp (TryExecuteDirect_finish r paramSet)
    (fun res s' =>
       res = false /\ error s' = ReadErrors d /\
       boundParamsSet s' = paramSet /\
       exists rs, resultset s' = Some rs /\
         (EndOfRows rs = true -> rs = set_endOfRows true (new_ResultSet 0))) s.
Proof.
  intros Hd Hr. unfold TryExecuteDirect_finish. fold (reports r). rewrite Hr.
  apply wlp_bind. unfold wlp at 1. rewrite (ReturnOdbcError_run _ _ Hd).
  apply wlp_bind, wlp_modify, wlp_bind, wlp_gets, wlp_bind.
  eapply wlp_mono; [|apply StartReadingResults_spec].
  intros res s1 [[Hf _] _]. apply frame_boundParamsSet in Hf. simpl in Hf.
  apply wlp_bind, wlp_modify, wlp_bind.
  unfold update_resultset, the_resultset. destruct res.
  - apply wlp_bind, wlp_bind, wlp_get_state, wlp_deref. intros rs Hrs.
    apply wlp_modify, wlp_ret. simpl. split_and!; try done.
    eexists. split; [done|]. by intros [=].
  - apply wlp_bind, wlp_modify, wlp_bind, wlp_bind, wlp_get_state, wlp_deref.
    intros rs [= <-]. apply wlp_modify, wlp_ret. simpl. split_and!; try done.
    by eexists.
Qed.

(** The other branch: the parameters are kept and the result set is
    described. *)
Lemma finish_reads r paramSet s :
  reports r = false ->
  wlp (TryExecuteDirect_finish r paramSet)
    (fun res s' =>
       verdict (set_boundParamsSet paramSet s) res s' /\
       (res = true -> described s')) s.
Proof.
  intros Hr. unfold TryExecuteDirect_finish. fold (reports r). rewrite Hr.
  apply wlp_bind, wlp_modify, StartReadingResults_spec.
Qed.

Lemma odbc_quiet {A} (f : D -> A * D) : quiet (odbc f).
Proof. apply quiet_intro. intros I HI. apply odbc_stable, HI. Qed.

(** C11: when the submission returned [SQL_SUCCESS_WITH_INFO], or an error
    other than [SQL_NO_DATA], [TryExecuteDirect] returns [false] with the
    diagnostic of the driver as its error, whatever the description of
    the result set did to the error meanwhile; the parameters are kept
    and a result set is left: the one described, with rows to read, or an
    empty one at its end when the description failed. *)
Theorem TryExecuteDirect_with_info r paramSet s d :
  statement s = Some d ->
  reports r = true ->
  wlp (TryExecuteDirect_finish r paramSet)
    (fun res s' =>
       res = false /\ error s' = ReadErrors d /\
       boundParamsSet s' = paramSet /\
       exists rs, resultset s' = Some rs /\
         (EndOfRows rs = true -> rs = set_endOfRows true (new_ResultSet 0))) s.
Proof. apply finish_reports. Qed.

Lemma TryExecuteDirect_submitted fuel sched query timeout paramSet s :
  _pollingEnabled s = false ->
  wlp (TryExecuteDirect fuel sched query timeout paramSet)
    (fun res s' =>
       res = true ->
       _statementState s' = STATEMENT_SUBMITTED /\
       boundParamsSet s' = paramSet /\
       _endOfResults s' = true /\
       described s') s.
Proof.
  intros Hp. unfold TryExecuteDirect. apply wlp_bind.
  eapply wlp_mono; [|apply BindParams_checks].
  intros [] s1 [Hf _]; simpl; [|by apply wlp_ret].
  apply wlp_bind, wlp_gets. rewrite (frame_pollingEnabled _ _ Hf), Hp.
  apply wlp_bind, wlp_modify, wlp_bind.
  eapply wlp_mono;
    [|apply (queryTimeout_stable (frame (set_endOfResults true s1)));
      apply frame_refl].
  intros r s2 H2. apply wlp_bind.
  eapply wlp_mono;
    [|by apply (CheckOdbcError_stable (frame (set_endOfResults true s1)) r s2)].
  intros [] s3 H3; simpl; [|by apply wlp_ret].
  apply frame_endOfResults in H3. simpl in H3.
  apply wlp_bind, wlp_modify, wlp_bind, wlp_ret, wlp_bind.
  eapply wlp_mono; [|apply odbc_quiet]. intros r' s4 [H4 H4s].
  apply frame_endOfResults in H4. simpl in H4, H4s.
  apply wlp_bind, wlp_ret.
  destruct (reports r') eqn:Hr.
  - unfold TryExecuteDirect_finish. fold (reports r'). rewrite Hr.
    repeat (apply wlp_bind, wlp_any; intros ? ?). by apply wlp_ret.
  - eapply wlp_mono; [|by apply finish_reads].
    intros res s5 [[Hf5 Hs5] Hd5] ->. simpl in Hs5.
    split_and!; [congruence|apply (frame_boundParamsSet _ _ Hf5)|
                 |by apply Hd5].
    rewrite (frame_endOfResults _ _ Hf5). simpl. congruence.
Qed.

(** C19: without polling, when [TryExecuteDirect] returns [true] the
    statement is in the submitted state, it keeps the parameters it was
    given, the end of the results is still flagged, and the result set is
    described. *)
Theorem TryExecuteDirect_submits fuel sched query timeout paramSet s :
  _pollingEnabled s = false ->
  wlp (TryExecuteDirect fuel sched query timeout paramSet)
    (fun res s' =>
       res = true ->
       _statementState s' = STATEMENT_SUBMITTED /\
       boundParamsSet s' = paramSet /\
       _endOfResults s' = true /\
       described s') s.
Proof. apply TryExecuteDirect_submitted. Qed.

End Submission.

(** ** The theorems at a scripted driver *)

(** A statement on a driver that will give the answers [l]. *)
Definition fresh (l : list Answer) : OdbcStatement ScriptDriver :=
  new_OdbcStatement 1 (scripted l).

Lemma TryExecuteDirect_with_info_witness :
  wlp (TryExecuteDirect_finish SQL_SUCCESS_WITH_INFO (Some new_BoundDatumSet))
    (fun res s' =>
       res = false /\
       error s' = ReadErrors (scripted [RcNum 0 0; RcNum 0 5]) /\
       boundParamsSet s' = Some new_BoundDatumSet /\
       exists rs, resultset s' = Some rs /\
         (EndOfRows rs = true -> rs = set_endOfRows true (new_ResultSet 0)))
    (fresh [RcNum 0 0; RcNum 0 5]).
Proof.
  apply (TryExecuteDirect_with_info SQL_SUCCESS_WITH_INFO
           (Some new_BoundDatumSet) (fresh [RcNum 0 0; RcNum 0 5]));
    reflexivity.
Defined.

Lemma TryExecuteDirect_submits_witness :
  wlp (TryExecuteDirect 0 [] "select 1" 0 (Some new_BoundDatumSet))
    (fun res s' =>
       res = true ->
       _statementState s' = STATEMENT_SUBMITTED /\
       boundParamsSet s' = Some new_BoundDatumSet /\
       _endOfResults s' = true /\
       described s')
    (fresh [Rc 0; RcNum 0 0; RcNum 0 5]).
Proof.
  apply (TryExecuteDirect_submits 0 [] "select 1" 0 (Some new_BoundDatumSet)).
  reflexivity.
Defined.
