(* ===== verification/Decode.v ===== *)
(** * The statement engine: decoding a column

    The second half of [OdbcStatement.cpp] (lines 485 to 932): [dispatch]
    on the SQL type of a column, the decoders [d_Variant], [d_Time],
    [d_TimestampOffset], [d_Timestamp], [d_Integer], [d_String], [d_Bit],
    [d_Decimal] and [d_Binary] with the functions [getData...] that pull
    one value from the driver, the three readers of character data [Lob],
    [reservedString] and [boundedString], [TryReadString] that chooses
    among them, and [TryReadColumn].

    [TryReadColumn] calls [dispatch], which calls [d_Variant], which calls
    [TryReadColumn] again once the underlying type of the variant is known.
    The recursion is cut by fuel: [dispatch] and [d_Variant] take the
    recursive call as an argument and [TryReadColumn] ties the knot.

    The constants [LOB_PACKET_SIZE], [SQL_SERVER_MAX_STRING_SIZE] and
    [SQL_SERVER_DEFAULT_YEAR], [..._MONTH], [..._DAY] come from headers
    that are not among the sources; they are the fields of the class
    [Constants], and the theorems hold for every instance. *)

From S2P Require Import Prelude OdbcApi Storage Driver.
From S2P Require Import ResultSetModel BoundDatumSetModel Statement.

#[local] Open Scope prog_scope.

Class Constants : Type := {
  LOB_PACKET_SIZE : Z;
  SQL_SERVER_MAX_STRING_SIZE : Z;
  SQL_SERVER_DEFAULT_YEAR : Z;
  SQL_SERVER_DEFAULT_MONTH : Z;
  SQL_SERVER_DEFAULT_DAY : Z;
  LOB_PACKET_SIZE_range : 0 < LOB_PACKET_SIZE < 2 ^ 31;
  SQL_SERVER_MAX_STRING_SIZE_range : 0 < SQL_SERVER_MAX_STRING_SIZE < 2 ^ 30
}.

(** The values of the headers of the repository. *)
#[export] Instance repo_constants : Constants := {|
  LOB_PACKET_SIZE := 8192;
  SQL_SERVER_MAX_STRING_SIZE := 8000;
  SQL_SERVER_DEFAULT_YEAR := 1900;
  SQL_SERVER_DEFAULT_MONTH := 1;
  SQL_SERVER_DEFAULT_DAY := 1;
  LOB_PACKET_SIZE_range := ltac:(lia);
  SQL_SERVER_MAX_STRING_SIZE_range := ltac:(lia)
|}.

(** The sizes the sources take with [sizeof]. *)
Abbreviation sizeof_uint16_t := 2 (only parsing).
Abbreviation sizeof_int64_t := 8 (only parsing).
Abbreviation sizeof_double := 8 (only parsing).
Abbreviation sizeof_byte := 1 (only parsing).
Abbreviation sizeof_TIMESTAMP_STRUCT := 16 (only parsing).
Abbreviation sizeof_SQL_SS_TIME2_STRUCT := 12 (only parsing).
Abbreviation sizeof_SQL_SS_TIMESTAMPOFFSET_STRUCT := 20 (only parsing).

Section Decode.
Context {D : Type} `{!Driver D} `{!Constants}.

Abbreviation stmt := (OdbcStatement D).

(** ** Helpers *)

(** [resultset->SetColumn(make_shared<...>(...))] *)
Definition set_column (c : Column) : prog stmt unit :=
  update_resultset (SetColumn c).

(** [_preparedStorage->atIndex(column)] *)
Definition atIndex (column : Z) : prog stmt BoundDatum :=
  s <- get_state ;;
  ps <- deref NullPointer (_preparedStorage s) ;;
  if column <? 0 then throw OutOfRange
  else deref OutOfRange (_bindings ps !! Z.to_nat column).

(** The structure that [SQLGetData] wrote over the zeroed [time]. *)
Definition time2_of (data : CData) : SQL_SS_TIME2_STRUCT :=
  match data with
  | CTime2 t => t
  | _ => zero_time2
  end.

(** The number of elements of [storage->uint16vec_ptr]. *)
Definition uint16_size (storage : DatumStorage) : prog stmt Z :=
  v <- deref NullPointer (uint16vec_ptr storage) ;;
  ret (Z.of_nat (length v)).

(** [storage->charvec_ptr->size()] *)
Definition char_size (storage : DatumStorage) : prog stmt Z :=
  v <- deref NullPointer (charvec_ptr storage) ;;
  ret (Z.of_nat (length v)).

(** The common body of [getDataTimestampOffset], [getDataTimestamp],
    [getDataLong], [getDataBit] and [getDataDecimal]: they differ in the
    vector they reserve, in the C type and the buffer length they pass, and
    in the class of the column they make. *)
Definition getData (reserved : DatumStorage) (ctype len : Z)
    (make : DatumStorage -> Column) (column : Z) : prog stmt bool :=
  r <- odbc (SQLGetData (column + 1) ctype len) ;;
  let '(ret_code, (data, str_len_or_ind_ptr)) := r in
  let storage := storage_write data reserved in
  ok <- CheckOdbcError ret_code ;;
  if negb ok then ret false
  else if str_len_or_ind_ptr =? SQL_NULL_DATA then
    set_column NullColumn ;;;
    ret true
  else
    set_column (make storage) ;;;
    ret true.

(** The common body of the prepared branches: the column shares the
    storage that [SQLBindCol] bound. *)
Definition prepared_column (make : DatumStorage -> Column) (column : Z)
    : prog stmt bool :=
  datum <- atIndex column ;;
  set_column (make (getStorage datum)) ;;;
  ret true.

(** ** The decoders *)

Definition d_Time (column : Z) : prog stmt bool :=
  r <- odbc (SQLGetData (column + 1) SQL_C_DEFAULT sizeof_SQL_SS_TIME2_STRUCT) ;;
  let '(ret_code, (data, str_len_or_ind_ptr)) := r in
  let time := time2_of data in
  ok <- CheckOdbcError ret_code ;;
  if negb ok then ret false
  else if str_len_or_ind_ptr =? SQL_NULL_DATA then
    set_column NullColumn ;;;
    ret true
  else
    let datetime :=
      mkTimestampOffset SQL_SERVER_DEFAULT_YEAR SQL_SERVER_DEFAULT_MONTH
        SQL_SERVER_DEFAULT_DAY (t2_hour time) (t2_minute time)
        (t2_second time) (t2_fraction time) 0 0 in
    set_column (TimestampColumn_of datetime) ;;;
    ret true.

Definition getDataTimestampOffset (column : Z) : prog stmt bool :=
  getData (ReserveTimestampOffset 1 new_DatumStorage) SQL_C_DEFAULT
    sizeof_SQL_SS_TIMESTAMPOFFSET_STRUCT TimestampColumn column.

Definition d_TimestampOffset (column : Z) : prog stmt bool :=
  prepared <- gets _prepared ;;
  if prepared then prepared_column TimestampColumn column
  else
    getDataTimestampOffset column ;;;
    ret true.

Definition getDataTimestamp (column : Z) : prog stmt bool :=
  getData (ReserveTimestamp 1 new_DatumStorage) SQL_C_TIMESTAMP
    sizeof_TIMESTAMP_STRUCT TimestampColumn column.

Definition d_Timestamp (column : Z) : prog stmt bool :=
  prepared <- gets _prepared ;;
  if prepared then prepared_column TimestampColumn column
  else
    getDataTimestamp column ;;;
    ret true.

Definition getDataLong (column : Z) : prog stmt bool :=
  getData (ReserveInt64 1 new_DatumStorage) SQL_C_SLONG sizeof_int64_t
    IntColumn column.

Definition d_Integer (column : Z) : prog stmt bool :=
  prepared <- gets _prepared ;;
  if prepared then prepared_column IntColumn column
  else
    getDataLong column ;;;
    ret true.

Definition getDataBit (column : Z) : prog stmt bool :=
  getData (ReserveChars 1 new_DatumStorage) SQL_C_BIT sizeof_byte
    BoolColumn column.

Definition d_Bit (column : Z) : prog stmt bool :=
  prepared <- gets _prepared ;;
  if prepared then prepared_column BoolColumn column
  else
    getDataBit column ;;;
    ret true.

Definition getDataDecimal (column : Z) : prog stmt bool :=
  getData (ReserveDouble 1 new_DatumStorage) SQL_C_DOUBLE sizeof_double
    NumberColumn column.

Definition d_Decimal (column : Z) : prog stmt bool :=
  prepared <- gets _prepared ;;
  if prepared then prepared_column NumberColumn column
  else getDataDecimal column.

Definition getDataBinary (column : Z) : prog stmt bool :=
  let amount := 2048 in
  let reserved := ReserveChars amount new_DatumStorage in
  r <- odbc (SQLGetData (column + 1) SQL_C_BINARY amount) ;;
  let '(ret_code, (data, str_len_or_ind_ptr)) := r in
  let storage := storage_write data reserved in
  ok <- CheckOdbcError ret_code ;;
  if negb ok then ret false
  else if str_len_or_ind_ptr =? SQL_NULL_DATA then
    set_column NullColumn ;;;
    ret true
  else
    assert (negb (str_len_or_ind_ptr =? SQL_NO_TOTAL)) ;;;
    more <- (if ret_code =? SQL_SUCCESS_WITH_INFO then
               r <- odbc (SQLGetDiagRec SQL_HANDLE_STMT 1) ;;
               let '(ret_code, sql_state) := r in
               ok <- CheckOdbcError ret_code ;;
               if negb ok then ret None
               else ret (Some (String.eqb sql_state "01004"))
             else ret (Some false)) ;;
    match more with
    | None => ret false
    | Some more =>
        size <- char_size storage ;;
        let amount := if more then size else str_len_or_ind_ptr in
        set_column (BinaryColumn storage amount more) ;;;
        ret true
    end.

Definition d_Binary (column : Z) : prog stmt bool :=
  prepared <- gets _prepared ;;
  if prepared then
    let more := false in
    datum <- atIndex column ;;
    let storage := getStorage datum in
    amount <- deref OutOfRange (getIndVec datum !! 0%nat) ;;
    set_column (BinaryColumn storage amount more) ;;;
    ret true
  else getDataBinary column.

(** ** Character data *)

Definition Lob (display_size : Z) (column : Z) : prog stmt bool :=
  let value_len := LOB_PACKET_SIZE + 1 in
  let reserved := ReserveUint16 value_len new_DatumStorage in
  let size := sizeof_uint16_t in
  r <- odbc (SQLGetData (column + 1) SQL_C_WCHAR
               (mul_size_t value_len size)) ;;
  let '(ret_code, (data, value_len)) := r in
  let storage := storage_write data reserved in
  ok <- CheckOdbcError ret_code ;;
  if negb ok then ret false
  else if value_len =? SQL_NULL_DATA then
    set_column NullColumn ;;;
    ret true
  else
    let quotient := wrap_unsigned 64 value_len / size in
    let '(more, storage) :=
      if (value_len =? SQL_NO_TOTAL) || (LOB_PACKET_SIZE <? quotient)
      then (true, resize_uint16 LOB_PACKET_SIZE storage)
      else (false, resize_uint16 quotient storage) in
    n <- uint16_size storage ;;
    set_column (StringColumn storage n more) ;;;
    ret true.

Definition reservedString (display_size : Z) (column : Z) : prog stmt bool :=
  storage <- atIndex column ;;
  let size := sizeof_uint16_t in
  value_len <- deref OutOfRange (getIndVec storage !! 0%nat) ;;
  let value_len := div_size_t value_len size in
  set_column (StringColumn (getStorage storage) value_len false) ;;;
  ret true.

Definition boundedString (display_size : Z) (column : Z) : prog stmt bool :=
  let size := sizeof_uint16_t in
  let display_size := display_size + 1 in
  let reserved := ReserveUint16 display_size new_DatumStorage in
  r <- odbc (SQLGetData (column + 1) SQL_C_WCHAR
               (mul_size_t display_size size)) ;;
  let '(ret_code, (data, value_len)) := r in
  let storage := storage_write data reserved in
  ok <- CheckOdbcError ret_code ;;
  if negb ok then ret false
  else if value_len =? SQL_NULL_DATA then
    set_column NullColumn ;;;
    ret true
  else
    assert (Z.rem value_len 2 =? 0) ;;;
    let value_len := div_size_t value_len size in
    assert ((0 <=? value_len) && (value_len <=? display_size - 1)) ;;;
    let storage := resize_uint16 value_len storage in
    set_column (StringColumn storage value_len false) ;;;
    ret true.

Definition TryReadString (binary : bool) (column : Z) : prog stmt bool :=
  r <- odbc (SQLColAttribute (column + 1) SQL_DESC_DISPLAY_SIZE) ;;
  let '(ret_code, (_, _, display_size)) := r in
  ok <- CheckOdbcError ret_code ;;
  if negb ok then ret false
  else if (display_size =? 0) || (display_size =? INT_MAX)
          || (display_size =? Z.shiftr INT_MAX 1)
          || (display_size =? ULONG_MAX - 1) then
    Lob display_size column
  else if (1 <=? display_size) && (display_size <=? SQL_SERVER_MAX_STRING_SIZE)
  then
    prepared <- gets _prepared ;;
    if prepared then reservedString display_size column
    else boundedString display_size column
  else
    assert false ;;;
    ret false.

Definition d_String (column : Z) : prog stmt bool :=
  TryReadString false column.

(** ** Dispatch *)

(** [d_Variant], with the call of [TryReadColumn] it ends with. *)
Definition d_Variant (TryReadColumn : Z -> prog stmt bool) (column : Z)
    : prog stmt bool :=
  r <- odbc (SQLGetData (column + 1) SQL_C_BINARY 0) ;;
  let '(ret_code, _) := r in
  ok <- CheckOdbcError ret_code ;;
  if negb ok then ret false
  else
    r <- odbc (SQLColAttribute (column + 1) SQL_CA_SS_VARIANT_TYPE) ;;
    let '(ret_code, (_, _, variant_type)) := r in
    ok <- CheckOdbcError ret_code ;;
    if negb ok then ret false
    else
      update_metadata (Z.to_nat column) (fun definition =>
        mkColumnDefinition (name definition) (columnSize definition)
          (wrap_signed 16 variant_type) (dataTypeName definition)
          (decimalDigits definition) (nullable definition)
          (udtTypeName definition)) ;;;
      TryReadColumn column.

Definition dispatch (TryReadColumn : Z -> prog stmt bool) (t : Z) (column : Z)
    : prog stmt bool :=
  match t with
  | SQL_SS_VARIANT => d_Variant TryReadColumn column
  | SQL_CHAR | SQL_VARCHAR | SQL_LONGVARCHAR | SQL_WCHAR | SQL_WVARCHAR
  | SQL_WLONGVARCHAR | SQL_SS_XML | SQL_GUID => d_String column
  | SQL_BIT => d_Bit column
  | SQL_SMALLINT | SQL_TINYINT | SQL_INTEGER | SQL_C_SLONG | SQL_C_SSHORT
  | SQL_C_STINYINT | SQL_C_ULONG | SQL_C_USHORT | SQL_C_UTINYINT =>
      d_Integer column
  | SQL_DECIMAL | SQL_NUMERIC | SQL_REAL | SQL_FLOAT | SQL_DOUBLE
  | SQL_BIGINT => d_Decimal column
  | SQL_BINARY | SQL_VARBINARY | SQL_LONGVARBINARY | SQL_SS_UDT =>
      d_Binary column
  | SQL_SS_TIMESTAMPOFFSET => d_TimestampOffset column
  | SQL_TYPE_TIME | SQL_SS_TIME2 => d_Time column
  | SQL_TIMESTAMP | SQL_DATETIME | SQL_TYPE_TIMESTAMP | SQL_TYPE_DATE =>
      d_Timestamp column
  | _ => d_String column
  end.

Fixpoint TryReadColumn (fuel : nat) (column : Z) : prog stmt bool :=
  match fuel with
  | O => throw OutOfFuel
  | S fuel' =>
      rs <- the_resultset ;;
      assert ((0 <=? column) && (column <? Z.of_nat (get_column_count rs))) ;;;
      definition <- GetMetadata (Z.to_nat column) ;;
      dispatch (TryReadColumn fuel') (dataType definition) column
  end.

(** ** The table of decoding strategies

    The strategies of section 4.4 of the specification, the type codes of
    each, and the decoder of each.  Codes that are in no list are decoded
    as text. *)

Inductive Strategy : Set :=
| Variant
| Text
| Boolean
| Integer
| Number
| Binary
| OffsetTimestamp
| Time
| Timestamp.

Definition member (t : Z) (l : list Z) : bool := existsb (Z.eqb t) l.

Definition text_types : list Z :=
  [SQL_CHAR; SQL_VARCHAR; SQL_LONGVARCHAR; SQL_WCHAR; SQL_WVARCHAR;
   SQL_WLONGVARCHAR; SQL_SS_XML; SQL_GUID].
Definition integer_types : list Z := [SQL_SMALLINT; SQL_TINYINT; SQL_INTEGER].
Definition c_integer_types : list Z :=
  [SQL_C_SLONG; SQL_C_SSHORT; SQL_C_STINYINT; SQL_C_ULONG; SQL_C_USHORT;
   SQL_C_UTINYINT].
Definition number_types : list Z :=
  [SQL_DECIMAL; SQL_NUMERIC; SQL_REAL; SQL_FLOAT; SQL_DOUBLE; SQL_BIGINT].
Definition binary_types : list Z :=
  [SQL_BINARY; SQL_VARBINARY; SQL_LONGVARBINARY; SQL_SS_UDT].
Definition time_types : list Z := [SQL_TYPE_TIME; SQL_SS_TIME2].
Definition timestamp_types : list Z := [SQL_TYPE_TIMESTAMP; SQL_TYPE_DATE].
Definition old_timestamp_types : list Z := [SQL_TIMESTAMP; SQL_DATETIME].

Definition strategy (t : Z) : Strategy :=
  if t =? SQL_SS_VARIANT then Variant
  else if t =? SQL_BIT then Boolean
  else if member t (integer_types ++ c_integer_types) then Integer
  else if member t number_types then Number
  else if member t binary_types then Binary
  else if t =? SQL_SS_TIMESTAMPOFFSET then OffsetTimestamp
  else if member t time_types then Time
  else if member t (timestamp_types ++ old_timestamp_types) then Timestamp
  else Text.

Definition decoder (TryReadColumn : Z -> prog stmt bool) (st : Strategy)
    (column : Z) : prog stmt bool :=
  match st with
  | Variant => d_Variant TryReadColumn column
  | Text => d_String column
  | Boolean => d_Bit column
  | Integer => d_Integer column
  | Number => d_Decimal column
  | Binary => d_Binary column
  | OffsetTimestamp => d_TimestampOffset column
  | Time => d_Time column
  | Timestamp => d_Timestamp column
  end.

(** The name that [ResultSet.cpp] gives to JavaScript for the columns of a
    strategy; a variant has no name of its own. *)
Definition strategy_name (st : Strategy) : string :=
  match st with
  | Variant | Text => "text"
  | Boolean => "boolean"
  | Integer | Number => "number"
  | Binary => "binary"
  | OffsetTimestamp | Time | Timestamp => "date"
  end.

Lemma dispatch_strategy rec t column :
  dispatch rec t column = decoder rec (strategy t) column.
Proof. unfold dispatch. repeat case_match; reflexivity. Qed.

End Decode.

(** ** Every decoder preserves every predicate of [Reading] *)

Section Preservation.
Context {D : Type} `{!Driver D} `{!Constants}.
Context (I : OdbcStatement D -> Prop) `{!Reading I}.

Lemma set_column_stable c : preserves I (set_column c).
Proof. unfold set_column. preserves_auto. Qed.

Lemma atIndex_stable column : preserves I (atIndex column).
Proof. unfold atIndex. preserves_auto. Qed.

Lemma uint16_size_stable storage : preserves I (uint16_size storage).
Proof. unfold uint16_size. preserves_auto. Qed.

Lemma char_size_stable storage : preserves I (char_size storage).
Proof. unfold char_size. preserves_auto. Qed.

#[local] Hint Resolve set_column_stable atIndex_stable uint16_size_stable
  char_size_stable : prog.

Lemma getData_stable reserved ctype len make column :
  preserves I (getData reserved ctype len make column).
Proof. unfold getData. preserves_auto. Qed.

Lemma prepared_column_stable make column :
  preserves I (prepared_column make column).
Proof. unfold prepared_column. preserves_auto. Qed.

#[local] Hint Resolve getData_stable prepared_column_stable : prog.

Lemma d_Time_stable column : preserves I (d_Time column).
Proof. unfold d_Time. preserves_auto. Qed.

Lemma d_TimestampOffset_stable column : preserves I (d_TimestampOffset column).
Proof. unfold d_TimestampOffset, getDataTimestampOffset. preserves_auto. Qed.

Lemma d_Timestamp_stable column : preserves I (d_Timestamp column).
Proof. unfold d_Timestamp, getDataTimestamp. preserves_auto. Qed.

Lemma d_Integer_stable column : preserves I (d_Integer column).
Proof. unfold d_Integer, getDataLong. preserves_auto. Qed.

Lemma d_Bit_stable column : preserves I (d_Bit column).
Proof. unfold d_Bit, getDataBit. preserves_auto. Qed.

Lemma d_Decimal_stable column : preserves I (d_Decimal column).
Proof. unfold d_Decimal, getDataDecimal. preserves_auto. Qed.

Lemma getDataBinary_stable column : preserves I (getDataBinary column).
Proof. unfold getDataBinary. preserves_auto. Qed.

#[local] Hint Resolve getDataBinary_stable : prog.

Lemma d_Binary_stable column : preserves I (d_Binary column).
Proof. unfold d_Binary. preserves_auto. Qed.

Lemma Lob_stable display_size column : preserves I (Lob display_size column).
Proof. unfold Lob. preserves_auto. Qed.

Lemma reservedString_stable display_size column :
  preserves I (reservedString display_size column).
Proof. unfold reservedString. preserves_auto. Qed.

Lemma boundedString_stable display_size column :
  preserves I (boundedString display_size column).
Proof. unfold boundedString. preserves_auto. Qed.

#[local] Hint Resolve Lob_stable reservedString_stable boundedString_stable
  : prog.

Lemma TryReadString_stable binary column :
  preserves I (TryReadString binary column).
Proof. unfold TryReadString. preserves_auto. Qed.

Lemma d_String_stable column : preserves I (d_String column).
Proof. apply TryReadString_stable. Qed.

Lemma d_Variant_stable rec column :
  (forall c, preserves I (rec c)) -> preserves I (d_Variant rec column).
Proof. intros Hrec. unfold d_Variant. preserves_auto. Qed.

#[local] Hint Resolve d_Time_stable d_TimestampOffset_stable
  d_Timestamp_stable d_Integer_stable d_Bit_stable d_Decimal_stable
  d_Binary_stable d_String_stable d_Variant_stable : prog.

Lemma dispatch_stable rec t column :
  (forall c, preserves I (rec c)) -> preserves I (dispatch rec t column).
Proof.
  intros Hrec. rewrite dispatch_strategy.
  destruct (strategy t); simpl; auto with prog.
Qed.

Lemma TryReadColumn_stable fuel column : preserves I (TryReadColumn fuel column).
Proof.
  revert column. induction fuel as [|fuel IH]; intros column; simpl;
    [preserves_auto|].
  do 3 (preserves_step; [preserves_auto|]). by apply dispatch_stable.
Qed.

End Preservation.

(** ** Only the recursion of [TryReadColumn] needs fuel *)

Section Fuel.
Context {D : Type} `{!Driver D} `{!Constants}.

Abbreviation fuel_free c := (avoids (S := OdbcStatement D) OutOfFuel c).

Lemma set_column_fuel c : fuel_free (set_column c).
Proof. unfold set_column. avoids_auto. Qed.

Lemma atIndex_fuel column : fuel_free (atIndex column).
Proof. unfold atIndex. avoids_auto. Qed.

Lemma uint16_size_fuel storage : fuel_free (uint16_size storage).
Proof. unfold uint16_size. avoids_auto. Qed.

Lemma char_size_fuel storage : fuel_free (char_size storage).
Proof. unfold char_size. avoids_auto. Qed.

#[local] Hint Resolve set_column_fuel atIndex_fuel uint16_size_fuel
  char_size_fuel : fuel.

Lemma getData_fuel reserved ctype len make column :
  fuel_free (getData reserved ctype len make column).
Proof. unfold getData. avoids_auto. Qed.

Lemma prepared_column_fuel make column :
  fuel_free (prepared_column make column).
Proof. unfold prepared_column. avoids_auto. Qed.

Lemma getDataBinary_fuel column : fuel_free (getDataBinary column).
Proof. unfold getDataBinary. avoids_auto. Qed.

Lemma Lob_fuel display_size column : fuel_free (Lob display_size column).
Proof. unfold Lob. avoids_auto. Qed.

Lemma reservedString_fuel display_size column :
  fuel_free (reservedString display_size column).
Proof. unfold reservedString. avoids_auto. Qed.

Lemma boundedString_fuel display_size column :
  fuel_free (boundedString display_size column).
Proof. unfold boundedString. avoids_auto. Qed.

#[local] Hint Resolve getData_fuel prepared_column_fuel getDataBinary_fuel
  Lob_fuel reservedString_fuel boundedString_fuel : fuel.

Lemma TryReadString_fuel binary column : fuel_free (TryReadString binary column).
Proof. unfold TryReadString. avoids_auto. Qed.

#[local] Hint Resolve TryReadString_fuel : fuel.

(** Every decoder but the decoder of variants. *)
Lemma decoder_fuel rec st column :
  st <> Variant -> fuel_free (decoder rec st column).
Proof.
  intros Hst. destruct st; [done|..]; simpl;
    unfold d_String, d_Bit, d_Integer, d_Decimal, d_Binary,
      d_TimestampOffset, d_Time, d_Timestamp, getDataBit, getDataLong,
      getDataDecimal, getDataTimestampOffset, getDataTimestamp;
    avoids_auto.
Qed.

Lemma d_Variant_fuel rec column :
  (forall c, fuel_free (rec c)) -> fuel_free (d_Variant rec column).
Proof. intros Hrec. unfold d_Variant. avoids_auto. Qed.

End Fuel.

#[export] Hint Resolve set_column_stable atIndex_stable getData_stable
  prepared_column_stable d_Time_stable d_TimestampOffset_stable
  d_Timestamp_stable d_Integer_stable d_Bit_stable d_Decimal_stable
  getDataBinary_stable d_Binary_stable Lob_stable reservedString_stable
  boundedString_stable TryReadString_stable d_String_stable
  TryReadColumn_stable : prog.
