(* ===== verification/DecodeSpec.v ===== *)
(** * What the decoders compute

    Closed forms of the decoders of [Decode] on a statement whose handle
    and result set are allocated, and the theorems on decoding that follow
    from them: the table of strategies, the treatment of the null
    indicator on the two paths (a value pulled with [SQLGetData], a value
    read from the prepared storage), the bounds of what the readers of
    character and binary data return, and the failures that the decoders
    do not report. *)

From S2P Require Import Prelude OdbcApi Storage Driver ScriptDriver.
From S2P Require Import ResultSetModel BoundDatumSetModel Statement Decode.

(** Run a program on a state whose fields are known by hypotheses. *)
Ltac prog_exec :=
  repeat first
    [ progress simpl
    | match goal with
      | H : ?x = _ |- context [match ?x with _ => _ end] => rewrite H
      | H : ?x = _ |- context [if ?x then _ else _] => rewrite H
      end ].

(** Unfold the primitives of the statement, then run. *)
Ltac prog_start :=
  unfold set_column, atIndex, uint16_size, char_size, update_metadata,
    GetMetadata, update_resultset, the_resultset, odbc, CheckOdbcError,
    ReturnOdbcError;
  prog_unfold; prog_exec.

Section Closed.
Context {D : Type} `{!Driver D} `{!Constants}.
Implicit Types (s : OdbcStatement D) (d : D) (rs : ResultSet).

(** The statement after a driver call that left the handle [d'] and
    returned [rc], when the call is followed by [CheckOdbcError]. *)
Definition checked (rc : Z) (d' : D) s : OdbcStatement D :=
  let s1 := set_statement (Some d') s in
  if SQL_SUCCEEDED rc then s1
  else set_error (ReadErrors d') (set_statementState STATEMENT_ERROR s1).

(** The statement after [resultset->SetColumn(c)]. *)
Definition with_column (c : Column) rs s : OdbcStatement D :=
  set_resultset (Some (SetColumn c rs)) s.

(** The column that one of the five [getData...] makes. *)
Definition pulled (reserved : DatumStorage) (make : DatumStorage -> Column)
    (data : CData) (ind : Z) : Column :=
  if ind =? SQL_NULL_DATA then NullColumn
  else make (storage_write data reserved).

Lemma checked_call {A B} (f : D -> Z * A * D) (k : A -> bool -> prog _ B) s d :
  statement s = Some d ->
  (r <- odbc f ;;
   let '(rc, a) := r in
   ok <- CheckOdbcError rc ;; k a ok)%prog s =
  let '(rc, a, d') := f d in
  k a (SQL_SUCCEEDED rc) (checked rc d' s).
Proof.
  intros Hd. unfold odbc, CheckOdbcError, ReturnOdbcError, checked.
  prog_unfold. rewrite Hd. simpl. destruct (f d) as [[rc a] d']. simpl.
  by destruct (SQL_SUCCEEDED rc).
Qed.

Lemma checked_frame rc d' s :
  resultset (checked rc d' s) = resultset s /\
  _prepared (checked rc d' s) = _prepared s /\
  _preparedStorage (checked rc d' s) = _preparedStorage s /\
  statement (checked rc d' s) = Some d'.
Proof. unfold checked. by destruct (SQL_SUCCEEDED rc). Qed.

Lemma checked_ok rc d' s :
  SQL_SUCCEEDED rc = true -> checked rc d' s = set_statement (Some d') s.
Proof. unfold checked. by intros ->. Qed.

Lemma set_column_run c s rs :
  resultset s = Some rs -> set_column c s = Done tt (with_column c rs s).
Proof. intros Hrs. by apply update_resultset_run. Qed.

Lemma getData_run reserved ctype len make column s d rs :
  statement s = Some d ->
  resultset s = Some rs ->
  getData reserved ctype len make column s =
    let '(rc, (data, ind), d') := SQLGetData (column + 1) ctype len d in
    if SQL_SUCCEEDED rc
    then Done true (with_column (pulled reserved make data ind) rs
                      (set_statement (Some d') s))
    else Done false (checked rc d' s).
Proof.
  intros Hd Hrs. unfold getData, pulled, checked. prog_start.
  destruct (SQLGetData _ _ _ d) as [[rc [data ind]] d']. prog_exec.
  destruct (SQL_SUCCEEDED rc); prog_exec; [|done].
  destruct (ind =? SQL_NULL_DATA); by prog_exec.
Qed.

Lemma atIndex_run column s ps datum :
  _preparedStorage s = Some ps ->
  0 <= column ->
  _bindings ps !! Z.to_nat column = Some datum ->
  atIndex column s = Done datum s.
Proof.
  intros Hps Hc Hdatum. prog_start.
  destruct (Z.ltb_spec column 0); [lia|]. by prog_exec.
Qed.

Lemma prepared_column_run make column s ps datum rs :
  _preparedStorage s = Some ps ->
  0 <= column ->
  _bindings ps !! Z.to_nat column = Some datum ->
  resultset s = Some rs ->
  prepared_column make column s =
    Done true (with_column (make (getStorage datum)) rs s).
Proof.
  intros Hps Hc Hdatum Hrs. unfold prepared_column.
  rewrite (bind_done _ _ _ _ _ (atIndex_run _ _ _ _ Hps Hc Hdatum)).
  by rewrite (bind_done _ _ _ _ _ (set_column_run _ _ _ Hrs)).
Qed.

(** ** The two paths of the typed decoders *)

(** The class of the column of a strategy that reads one fixed-size
    value. *)
Definition column_class (st : Strategy) : option (DatumStorage -> Column) :=
  match st with
  | Boolean => Some BoolColumn
  | Integer => Some IntColumn
  | Number => Some NumberColumn
  | OffsetTimestamp | Timestamp => Some TimestampColumn
  | _ => None
  end.

(** What a strategy passes to [SQLGetData]: the vector it reserves, the C
    type and the length of the buffer. *)
Definition pull_arguments (st : Strategy) : DatumStorage * Z * Z :=
  match st with
  | Boolean => (ReserveChars 1 new_DatumStorage, SQL_C_BIT, 1)
  | Integer => (ReserveInt64 1 new_DatumStorage, SQL_C_SLONG, 8)
  | Number => (ReserveDouble 1 new_DatumStorage, SQL_C_DOUBLE, 8)
  | OffsetTimestamp =>
      (ReserveTimestampOffset 1 new_DatumStorage, SQL_C_DEFAULT, 20)
  | Timestamp => (ReserveTimestamp 1 new_DatumStorage, SQL_C_TIMESTAMP, 16)
  | _ => (new_DatumStorage, 0, 0)
  end.

(** The result that the decoder of a strategy reports for a pull that
    returned [ok]: only the decoder of numbers reports a failure. *)
Definition reported (st : Strategy) (ok : bool) : bool :=
  match st with
  | Number => ok
  | _ => true
  end.

Lemma decoder_prepared rec st make column s ps datum rs :
  column_class st = Some make ->
  _prepared s = true ->
  _preparedStorage s = Some ps ->
  0 <= column ->
  _bindings ps !! Z.to_nat column = Some datum ->
  resultset s = Some rs ->
  decoder rec st column s =
    Done true (with_column (make (getStorage datum)) rs s).
Proof.
  intros Hst Hp Hps Hc Hdatum Hrs.
  pose proof (prepared_column_run make column s ps datum rs Hps Hc Hdatum Hrs).
  destruct st; simplify_eq/=;
    unfold d_Bit, d_Integer, d_Decimal, d_TimestampOffset, d_Timestamp;
    prog_unfold; by rewrite Hp.
Qed.

Lemma decoder_pulled rec st make column s d rs :
  column_class st = Some make ->
  _prepared s = false ->
  statement s = Some d ->
  resultset s = Some rs ->
  decoder rec st column s =
    let '(reserved, ctype, len) := pull_arguments st in
    let '(rc, (data, ind), d') := SQLGetData (column + 1) ctype len d in
    if SQL_SUCCEEDED rc
    then Done true (with_column (pulled reserved make data ind) rs
                      (set_statement (Some d') s))
    else Done (reported st false) (checked rc d' s).
Proof.
  intros Hst Hp Hd Hrs.
  destruct st; simplify_eq/=;
    unfold d_Bit, d_Integer, d_Decimal, d_TimestampOffset, d_Timestamp,
      getDataBit, getDataLong, getDataDecimal, getDataTimestampOffset,
      getDataTimestamp;
    unfold and_then at 1; unfold gets at 1; rewrite Hp;
    try (unfold and_then at 1);
    rewrite (getData_run _ _ _ _ _ _ _ _ Hd Hrs);
    destruct (SQLGetData _ _ _ d) as [[rc [data ind]] d'];
    by destruct (SQL_SUCCEEDED rc).
Qed.

(** ** Character data *)

(** The buffer of [n] characters after the driver wrote [data] into it. *)
Definition packet (data : CData) (n : Z) : list Z :=
  match data with
  | CWChars v => overwrite v (zeros n)
  | _ => zeros n
  end.

(** A storage that holds the characters [v] and nothing else. *)
Definition uint16_storage (v : list Z) : DatumStorage :=
  mkStorage None None None (Some v) None None.

Lemma reserved_uint16 data n :
  storage_write data (ReserveUint16 n new_DatumStorage) =
    uint16_storage (packet data n).
Proof. by destruct data. Qed.

Lemma resize_uint16_storage n v :
  resize_uint16 n (uint16_storage v) = uint16_storage (resize 0 n v).
Proof. done. Qed.

Lemma uint16_size_run v s :
  uint16_size (uint16_storage v) s = Done (Z.of_nat (length v)) s.
Proof. done. Qed.

(** The column that [Lob] makes of what the driver wrote and of the
    length it reported. *)
Definition lob_column (data : CData) (value_len : Z) : Column :=
  if value_len =? SQL_NULL_DATA then NullColumn
  else
    let buffer := packet data (LOB_PACKET_SIZE + 1) in
    let quotient := wrap_unsigned 64 value_len / 2 in
    if (value_len =? SQL_NO_TOTAL) || (LOB_PACKET_SIZE <? quotient)
    then StringColumn (uint16_storage (resize 0 LOB_PACKET_SIZE buffer))
           LOB_PACKET_SIZE true
    else StringColumn (uint16_storage (resize 0 quotient buffer))
           quotient false.

Lemma wrap_unsigned_div_nonneg z : 0 <= wrap_unsigned 64 z / 2.
Proof.
  apply Z.div_pos; [|lia]. apply wrap_unsigned_range. lia.
Qed.

Lemma Lob_run display_size column s d rs :
  statement s = Some d ->
  resultset s = Some rs ->
  Lob display_size column s =
    let '(rc, (data, value_len), d') :=
      SQLGetData (column + 1) SQL_C_WCHAR (2 * (LOB_PACKET_SIZE + 1)) d in
    if SQL_SUCCEEDED rc
    then Done true (with_column (lob_column data value_len) rs
                      (set_statement (Some d') s))
    else Done false (checked rc d' s).
Proof.
  intros Hd Hrs. unfold Lob, lob_column, checked.
  pose proof LOB_PACKET_SIZE_range.
  rewrite mul_size_t_small, (Z.mul_comm _ 2) by lia. prog_start.
  destruct (SQLGetData _ _ _ d) as [[rc [data value_len]] d']. prog_exec.
  destruct (SQL_SUCCEEDED rc); prog_exec; [|done].
  destruct (value_len =? SQL_NULL_DATA); prog_exec; [done|].
  rewrite reserved_uint16.
  pose proof (wrap_unsigned_div_nonneg value_len).
  destruct (_ || _); rewrite resize_uint16_storage; prog_exec;
    rewrite length_resize, Z2Nat.id by lia; by prog_exec.
Qed.

(** What [boundedString] asserts of the length [value_len] the driver
    reported for a buffer of [display_size] characters and a terminator. *)
Definition bounded_ok (display_size value_len : Z) : bool :=
  (Z.rem value_len 2 =? 0)
  && (0 <=? div_size_t value_len 2)
  && (div_size_t value_len 2 <=? display_size).

Definition bounded_column (display_size : Z) (data : CData) (value_len : Z)
    : Column :=
  if value_len =? SQL_NULL_DATA then NullColumn
  else
    StringColumn
      (uint16_storage
         (resize 0 (div_size_t value_len 2) (packet data (display_size + 1))))
      (div_size_t value_len 2) false.

Lemma boundedString_run display_size column s d rs :
  0 <= display_size < 2 ^ 61 ->
  statement s = Some d ->
  resultset s = Some rs ->
  boundedString display_size column s =
    let '(rc, (data, value_len), d') :=
      SQLGetData (column + 1) SQL_C_WCHAR (2 * (display_size + 1)) d in
    if SQL_SUCCEEDED rc then
      if (value_len =? SQL_NULL_DATA) || bounded_ok display_size value_len
      then Done true (with_column (bounded_column display_size data value_len)
                        rs (set_statement (Some d') s))
      else Fault AssertFailed
    else Done false (checked rc d' s).
Proof.
  intros Hsize Hd Hrs. unfold boundedString, bounded_column, bounded_ok, checked.
  rewrite mul_size_t_small, (Z.mul_comm _ 2) by lia. prog_start.
  destruct (SQLGetData _ _ _ d) as [[rc [data value_len]] d']. prog_exec.
  destruct (SQL_SUCCEEDED rc); prog_exec; [|done].
  destruct (value_len =? SQL_NULL_DATA); prog_exec; [done|].
  destruct (Z.rem value_len 2 =? 0); prog_exec; [|done].
  replace (display_size + 1 - 1) with display_size by lia.
  destruct (0 <=? _); prog_exec; [|done].
  destruct (_ <=? display_size); prog_exec; [|done].
  by rewrite reserved_uint16.
Qed.

Lemma reservedString_run display_size column s ps datum value_len rs :
  _preparedStorage s = Some ps ->
  0 <= column ->
  _bindings ps !! Z.to_nat column = Some datum ->
  getIndVec datum !! 0%nat = Some value_len ->
  resultset s = Some rs ->
  reservedString display_size column s =
    Done true
      (with_column
         (StringColumn (getStorage datum) (div_size_t value_len 2) false) rs s).
Proof.
  intros Hps Hc Hdatum Hind Hrs. unfold reservedString.
  rewrite (bind_done _ _ _ _ _ (atIndex_run _ _ _ _ Hps Hc Hdatum)).
  by prog_start.
Qed.

(** The display sizes for which a column is read in packets. *)
Definition is_lob (display_size : Z) : bool :=
  member display_size [0; INT_MAX; 1073741823; ULONG_MAX - 1].

Lemma TryReadString_run binary column s d :
  statement s = Some d ->
  TryReadString binary column s =
    let '(rc, (_, _, display_size), d') :=
      SQLColAttribute (column + 1) SQL_DESC_DISPLAY_SIZE d in
    let s1 := set_statement (Some d') s in
    if SQL_SUCCEEDED rc then
      if is_lob display_size then Lob display_size column s1
      else if (1 <=? display_size) && (display_size <=? SQL_SERVER_MAX_STRING_SIZE)
      then if _prepared s then reservedString display_size column s1
           else boundedString display_size column s1
      else Fault AssertFailed
    else Done false (checked rc d' s).
Proof.
  intros Hd. unfold TryReadString, is_lob, member, checked. prog_start.
  destruct (SQLColAttribute _ _ d) as [[rc [[? ?] display_size]] d'].
  prog_exec. destruct (SQL_SUCCEEDED rc); prog_exec; [|done].
  rewrite orb_false_r, !orb_assoc.
  change (Z.shiftr 2147483647 1) with 1073741823.
  destruct (_ || _); [done|]. destruct (_ && _); [|done].
  simpl. by destruct (_prepared s).
Qed.

(** ** Binary data, time and variant *)

(** The buffer of [n] bytes after the driver wrote [data] into it. *)
Definition byte_packet (data : CData) (n : Z) : list Z :=
  match data with
  | CBytes v => overwrite v (zeros n)
  | _ => zeros n
  end.

Definition char_storage (v : list Z) : DatumStorage :=
  mkStorage None None (Some v) None None None.

Lemma reserved_chars data n :
  storage_write data (ReserveChars n new_DatumStorage) =
    char_storage (byte_packet data n).
Proof. by destruct data. Qed.

Lemma length_byte_packet data n : length (byte_packet data n) = Z.to_nat n.
Proof.
  destruct data; simpl; rewrite ?length_overwrite; apply length_zeros.
Qed.

(** The column that [getDataBinary] makes when the driver reported the
    length [ind] and the caller found that more data is left, or not. *)
Definition binary_column (data : CData) (ind : Z) (more : bool) : Column :=
  BinaryColumn (char_storage (byte_packet data 2048))
    (if more then 2048 else ind) more.

Lemma getDataBinary_run column s d rs :
  statement s = Some d ->
  resultset s = Some rs ->
  getDataBinary column s =
    let '(rc, (data, ind), d1) := SQLGetData (column + 1) SQL_C_BINARY 2048 d in
    let s1 := set_statement (Some d1) s in
    if negb (SQL_SUCCEEDED rc) then Done false (checked rc d1 s)
    else if ind =? SQL_NULL_DATA then Done true (with_column NullColumn rs s1)
    else if ind =? SQL_NO_TOTAL then Fault AssertFailed
    else if rc =? SQL_SUCCESS_WITH_INFO then
      let '(rc2, sql_state, d2) := SQLGetDiagRec SQL_HANDLE_STMT 1 d1 in
      if SQL_SUCCEEDED rc2
      then Done true
             (with_column (binary_column data ind (String.eqb sql_state "01004"))
                rs (set_statement (Some d2) s))
      else Done false (checked rc2 d2 s1)
    else Done true (with_column (binary_column data ind false) rs s1).
Proof.
  intros Hd Hrs. unfold getDataBinary, binary_column, checked. prog_start.
  destruct (SQLGetData _ _ _ d) as [[rc [data ind]] d1]. prog_exec.
  rewrite reserved_chars.
  destruct (SQL_SUCCEEDED rc); prog_exec; [|done].
  destruct (ind =? SQL_NULL_DATA); prog_exec; [done|].
  destruct (ind =? SQL_NO_TOTAL); prog_exec; [done|].
  destruct (rc =? SQL_SUCCESS_WITH_INFO); prog_exec; [|done].
  destruct (SQLGetDiagRec _ _ d1) as [[rc2 sql_state] d2]. prog_exec.
  destruct (SQL_SUCCEEDED rc2); prog_exec; [|done].
  rewrite length_byte_packet. by destruct (String.eqb _ _).
Qed.

Lemma d_Binary_prepared column s ps datum amount rs :
  _prepared s = true ->
  _preparedStorage s = Some ps ->
  0 <= column ->
  _bindings ps !! Z.to_nat column = Some datum ->
  getIndVec datum !! 0%nat = Some amount ->
  resultset s = Some rs ->
  d_Binary column s =
    Done true (with_column (BinaryColumn (getStorage datum) amount false) rs s).
Proof.
  intros Hp Hps Hc Hdatum Hind Hrs. unfold d_Binary.
  unfold and_then at 1. unfold gets at 1. rewrite Hp.
  rewrite (bind_done _ _ _ _ _ (atIndex_run _ _ _ _ Hps Hc Hdatum)).
  by prog_start.
Qed.

(** The column that [d_Time] makes. *)
Definition time_column (data : CData) (ind : Z) : Column :=
  if ind =? SQL_NULL_DATA then NullColumn
  else
    let time := time2_of data in
    TimestampColumn_of
      (mkTimestampOffset SQL_SERVER_DEFAULT_YEAR SQL_SERVER_DEFAULT_MONTH
         SQL_SERVER_DEFAULT_DAY (t2_hour time) (t2_minute time)
         (t2_second time) (t2_fraction time) 0 0).

Lemma d_Time_run column s d rs :
  statement s = Some d ->
  resultset s = Some rs ->
  d_Time column s =
    let '(rc, (data, ind), d') := SQLGetData (column + 1) SQL_C_DEFAULT 12 d in
    if SQL_SUCCEEDED rc
    then Done true (with_column (time_column data ind) rs
                      (set_statement (Some d') s))
    else Done false (checked rc d' s).
Proof.
  intros Hd Hrs. unfold d_Time, time_column, checked. prog_start.
  destruct (SQLGetData _ _ _ d) as [[rc [data ind]] d']. prog_exec.
  destruct (SQL_SUCCEEDED rc); prog_exec; [|done].
  destruct (ind =? SQL_NULL_DATA); by prog_exec.
Qed.

(** The definition of a variant column once its underlying type
    [variant_type] is known. *)
Definition retyped (variant_type : Z) (definition : ColumnDefinition)
    : ColumnDefinition :=
  mkColumnDefinition (name definition) (columnSize definition)
    (wrap_signed 16 variant_type) (dataTypeName definition)
    (decimalDigits definition) (nullable definition) (udtTypeName definition).

Lemma d_Variant_run rec column s d rs definition :
  statement s = Some d ->
  resultset s = Some rs ->
  get_meta_data rs (Z.to_nat column) = Some definition ->
  d_Variant rec column s =
    let '(rc, _, d1) := SQLGetData (column + 1) SQL_C_BINARY 0 d in
    if negb (SQL_SUCCEEDED rc) then Done false (checked rc d1 s)
    else
      let '(rc2, (_, _, variant_type), d2) :=
        SQLColAttribute (column + 1) SQL_CA_SS_VARIANT_TYPE d1 in
      if negb (SQL_SUCCEEDED rc2)
      then Done false (checked rc2 d2 (set_statement (Some d1) s))
      else
        rec column
          (set_resultset
             (Some (set_meta_data (Z.to_nat column)
                      (retyped variant_type definition) rs))
             (set_statement (Some d2) s)).
Proof.
  intros Hd Hrs Hdef. unfold d_Variant, retyped, checked. prog_start.
  destruct (SQLGetData _ _ _ d) as [[rc [data ind]] d1]. prog_exec.
  destruct (SQL_SUCCEEDED rc); prog_exec; [|done].
  destruct (SQLColAttribute _ _ d1) as [[rc2 [[? ?] variant_type]] d2].
  prog_exec. destruct (SQL_SUCCEEDED rc2); by prog_exec.
Qed.

(** Only the decoder of variants uses the recursive call. *)
Lemma decoder_rec rec rec' st column :
  st <> Variant -> decoder rec st column = decoder rec' st column.
Proof. by destruct st. Qed.

Lemma d_Binary_pulled column s :
  _prepared s = false -> d_Binary column s = getDataBinary column s.
Proof. intros Hp. unfold d_Binary. prog_unfold. by rewrite Hp. Qed.

Lemma TryReadColumn_step fuel column s rs definition :
  resultset s = Some rs ->
  0 <= column ->
  get_meta_data rs (Z.to_nat column) = Some definition ->
  TryReadColumn (S fuel) column s =
    decoder (TryReadColumn fuel) (strategy (dataType definition)) column s.
Proof.
  intros Hrs Hc Hdef. simpl. rewrite <- dispatch_strategy.
  assert (column < Z.of_nat (get_column_count rs)) as Hlt.
  { apply lookup_lt_Some in Hdef. unfold get_column_count. lia. }
  prog_start. destruct (Z.leb_spec 0 column); [|lia].
  destruct (Z.ltb_spec column (Z.of_nat (get_column_count rs))); [|lia].
  by prog_exec.
Qed.

Lemma GetColumnValue_run s rs c :
  resultset s = Some rs ->
  get_column rs = Some c ->
  GetColumnValue s = Done (c, More c) s.
Proof.
  intros Hrs Hc. unfold GetColumnValue, the_resultset. prog_unfold.
  by rewrite Hrs; simpl; rewrite Hc.
Qed.

(** ** The bounds of a packet *)

(** What every column that [Lob] makes satisfies: its size is the number
    of characters of its storage and at most a packet, and a packet is
    full when more is left. *)
Definition lob_ok (c : Column) : Prop :=
  match c with
  | NullColumn => True
  | StringColumn storage n more =>
      exists v, uint16vec_ptr storage = Some v /\
                Z.of_nat (length v) = n /\
                0 <= n <= LOB_PACKET_SIZE /\
                (more = true -> n = LOB_PACKET_SIZE)
  | _ => False
  end.

Lemma lob_column_ok data value_len : lob_ok (lob_column data value_len).
Proof.
  unfold lob_column. pose proof LOB_PACKET_SIZE_range.
  pose proof (wrap_unsigned_div_nonneg value_len).
  destruct (value_len =? SQL_NULL_DATA); [done|].
  destruct (_ || _) eqn:E; simpl; eexists; split_and!; try done;
    rewrite ?length_resize, ?Z2Nat.id; lia.
Qed.

End Closed.
