(* ===== verification/DecodeProps.v ===== *)
(** * Theorems on decoding

    The properties of [TryReadColumn] and of the decoders, stated on the
    definitions of [Decode] and proved from the closed forms of
    [DecodeSpec]; each is followed by its instance at a scripted driver. *)

From S2P Require Import Prelude OdbcApi Storage Driver ScriptDriver.
From S2P Require Import ResultSetModel BoundDatumSetModel Statement.
From S2P Require Import Decode DecodeSpec.

(** ** Statements to run the decoders on *)

(** A result set of one column of type [t]. *)
Definition one_column (t : Z) : ResultSet :=
  set_meta_data 0 (mkColumnDefinition "c" 4 t "" 0 1 "") (new_ResultSet 1).

(** A statement that reads the result set [rs] from a driver that will
    give the answers [l]. *)
Definition reading (l : list Answer) (rs : ResultSet)
    : OdbcStatement ScriptDriver :=
  set_resultset (Some rs) (new_OdbcStatement 1 (scripted l)).

(** The same, prepared, with the bindings [bs] for its columns. *)
Definition reading_prepared (l : list Answer) (rs : ResultSet)
    (bs : list BoundDatum) : OdbcStatement ScriptDriver :=
  set_prepared true
    (set_preparedStorage (Some (mkBoundDatumSet None 0 0 bs)) (reading l rs)).

(** ** Dispatch *)

Section Dispatch.
Context {D : Type} `{!Driver D} `{!Constants}.
Implicit Types (s : OdbcStatement D) (d : D) (rs : ResultSet).

(** C4: [TryReadColumn] on a column of the result set runs the decoder
    that the table of strategies gives for the type of the column, with
    one unit of fuel less for the column under a variant. *)
Theorem TryReadColumn_follows_table fuel column s rs definition :
  resultset s = Some rs ->
  0 <= column ->
  get_meta_data rs (Z.to_nat column) = Some definition ->
  TryReadColumn (S fuel) column s =
    decoder (TryReadColumn fuel) (strategy (dataType definition)) column s.
Proof. apply TryReadColumn_step. Qed.

(** C30: one unit of fuel is enough for every column that is not a
    variant: more fuel gives the same run. *)
Theorem TryReadColumn_fuel fuel column s rs definition :
  resultset s = Some rs ->
  0 <= column ->
  get_meta_data rs (Z.to_nat column) = Some definition ->
  strategy (dataType definition) <> Variant ->
  TryReadColumn (S fuel) column s = TryReadColumn 1 column s /\
  TryReadColumn 1 column s <> Fault OutOfFuel.
Proof.
  intros Hrs Hc Hdef Hst.
  rewrite !(TryReadColumn_step _ _ _ _ _ Hrs Hc Hdef).
  split; [by rewrite (decoder_rec _ (TryReadColumn 0))|].
  by apply decoder_fuel.
Qed.

(** C26: reading a variant column asks the driver for the underlying
    type, stores it in the metadata in place of [SQL_SS_VARIANT] after a
    cast to 16 bits, and reads the column again: the description of the
    column is changed for the rows that follow. *)
Theorem variant_type_is_overwritten fuel column s d rs definition :
  statement s = Some d ->
  resultset s = Some rs ->
  0 <= column ->
  get_meta_data rs (Z.to_nat column) = Some definition ->
  dataType definition = SQL_SS_VARIANT ->
  SQL_SUCCEEDED (SQLGetData (column + 1) SQL_C_BINARY 0 d).1.1 = true ->
  let d1 := (SQLGetData (column + 1) SQL_C_BINARY 0 d).2 in
  let answer := SQLColAttribute (column + 1) SQL_CA_SS_VARIANT_TYPE d1 in
  SQL_SUCCEEDED answer.1.1 = true ->
  TryReadColumn (S (S fuel)) column s =
    TryReadColumn (S fuel) column
      (set_resultset
         (Some (set_meta_data (Z.to_nat column)
                  (retyped answer.1.2.2 definition) rs))
         (set_statement (Some answer.2) s)).
Proof.
  intros Hd Hrs Hc Hdef Ht Hrc d1 answer Hrc2. subst d1 answer.
  rewrite (TryReadColumn_step _ _ _ _ _ Hrs Hc Hdef), Ht.
  change (strategy SQL_SS_VARIANT) with Variant. simpl decoder.
  rewrite (d_Variant_run _ _ _ _ _ _ Hd Hrs Hdef).
  destruct (SQLGetData _ _ _ d) as [[rc [data ind]] d1]. simpl in *.
  rewrite Hrc. simpl.
  destruct (SQLColAttribute _ _ d1) as [[rc2 [[? ?] variant_type]] d2].
  simpl in *. by rewrite Hrc2.
Qed.

(** C34: a column index that is negative or not below the number of
    columns fails the assertion of [TryReadColumn]; no decoder runs and
    the driver is not called. *)
Theorem TryReadColumn_out_of_range fuel column s rs :
  resultset s = Some rs ->
  column < 0 \/ Z.of_nat (get_column_count rs) <= column ->
  TryReadColumn (S fuel) column s = Fault AssertFailed.
Proof.
  intros Hrs Hc. simpl. prog_start.
  destruct (Z.leb_spec 0 column); simpl; [|done].
  destruct (Z.ltb_spec column (Z.of_nat (get_column_count rs))); [lia|done].
Qed.

End Dispatch.

(** C35: the type name that the metadata gives to JavaScript agrees with
    the strategy that decodes the column for every type code but eight:
    the six C integer codes, [SQL_TIMESTAMP] and [SQL_DATETIME] are
    decoded as integers and timestamps and described as text. *)
Theorem map_type_agrees_with_strategy (t : Z) :
  map_type t = strategy_name (strategy t) <->
  member t (c_integer_types ++ old_timestamp_types) = false.
Proof.
  unfold map_type.
  repeat case_match; vm_compute; repeat case_match; split; intros; congruence.
Qed.

(** ** The two paths of a decoder *)

(** The strategies whose decoder starts with [SQLGetData] when the
    statement is not prepared. *)
Definition pulls (st : Strategy) : bool :=
  match st with
  | Variant | Text => false
  | _ => true
  end.

Section Paths.
Context {D : Type} `{!Driver D} `{!Constants}.
Implicit Types (s : OdbcStatement D) (d : D) (rs : ResultSet).

(** C9: on a statement that is not prepared, a null indicator makes the
    decoder of every strategy that pulls its value with [SQLGetData]
    return [true] with a null column, whatever the type of the column. *)
Theorem null_indicator_short_circuits rec st column s d rs :
  pulls st = true ->
  _prepared s = false ->
  statement s = Some d ->
  resultset s = Some rs ->
  (forall ctype len,
     SQL_SUCCEEDED (SQLGetData (column + 1) ctype len d).1.1 = true /\
     (SQLGetData (column + 1) ctype len d).1.2.2 = SQL_NULL_DATA) ->
  exists s',
    decoder rec st column s = Done true s' /\
    resultset s' = Some (SetColumn NullColumn rs).
Proof.
  intros Hst Hp Hd Hrs Hnull.
  destruct (column_class st) as [make|] eqn:Hclass.
  - rewrite (decoder_pulled rec st make column s d rs) by done.
    destruct (pull_arguments st) as [[reserved ctype] len].
    specialize (Hnull ctype len).
    destruct (SQLGetData _ _ _ d) as [[rc [data ind]] d'].
    simpl in Hnull. destruct Hnull as [-> ->]. eauto.
  - destruct st; simplify_eq/=.
    + rewrite (d_Binary_pulled _ _ Hp), (getDataBinary_run _ _ _ _ Hd Hrs).
      specialize (Hnull SQL_C_BINARY 2048).
      destruct (SQLGetData _ _ _ d) as [[rc [data ind]] d'].
      simpl in Hnull. destruct Hnull as [-> ->]. eauto.
    + rewrite (d_Time_run _ _ _ _ Hd Hrs). specialize (Hnull SQL_C_DEFAULT 12).
      destruct (SQLGetData _ _ _ d) as [[rc [data ind]] d'].
      simpl in Hnull. destruct Hnull as [-> ->]. eauto.
Qed.

(** C16: on a prepared statement the decoders of the strategies of one
    fixed-size value return the class of their type on the bound storage
    and never a null column: the indicator that [SQLFetch] wrote, here
    [SQL_NULL_DATA], is not read. *)
Theorem prepared_decoders_ignore_the_indicator rec st make column s ps datum rs :
  column_class st = Some make ->
  _prepared s = true ->
  _preparedStorage s = Some ps ->
  0 <= column ->
  _bindings ps !! Z.to_nat column = Some datum ->
  getIndVec datum !! 0%nat = Some SQL_NULL_DATA ->
  resultset s = Some rs ->
  exists s',
    decoder rec st column s = Done true s' /\
    resultset s' = Some (SetColumn (make (getStorage datum)) rs) /\
    make (getStorage datum) <> NullColumn.
Proof.
  intros Hst Hp Hps Hc Hdatum _ Hrs.
  rewrite (decoder_prepared rec st make column s ps datum rs) by done.
  eexists. split_and!; [done..|]. by destruct st; simplify_eq/=.
Qed.

(** C36: on a prepared statement a text column whose indicator is
    [SQL_NULL_DATA] becomes a string of [2^63 - 1] characters: the
    indicator is divided by the size of a character as an unsigned
    integer. *)
Theorem reservedString_null_length display_size column s ps datum rs :
  _preparedStorage s = Some ps ->
  0 <= column ->
  _bindings ps !! Z.to_nat column = Some datum ->
  getIndVec datum !! 0%nat = Some SQL_NULL_DATA ->
  resultset s = Some rs ->
  reservedString display_size column s =
    Done true
      (with_column (StringColumn (getStorage datum) (2 ^ 63 - 1) false) rs s).
Proof.
  intros Hps Hc Hdatum Hind Hrs.
  by rewrite (reservedString_run _ _ _ _ _ _ _ Hps Hc Hdatum Hind Hrs).
Qed.

(** C25: when [SQLGetData] fails on a statement that is not prepared, only
    the decoder of numbers returns [false]; the decoders of booleans,
    integers and timestamps return [true], with the statement in the error
    state and the column of the result set still the one decoded before. *)
Theorem pull_failure_reported_only_for_numbers rec st make column s d rs :
  column_class st = Some make ->
  _prepared s = false ->
  statement s = Some d ->
  resultset s = Some rs ->
  (forall ctype len,
     SQL_SUCCEEDED (SQLGetData (column + 1) ctype len d).1.1 = false) ->
  exists s',
    decoder rec st column s =
      Done (match st with Number => false | _ => true end) s' /\
    resultset s' = Some rs /\
    _statementState s' = STATEMENT_ERROR.
Proof.
  intros Hst Hp Hd Hrs Hfail.
  rewrite (decoder_pulled rec st make column s d rs) by done.
  destruct (pull_arguments st) as [[reserved ctype] len].
  specialize (Hfail ctype len).
  destruct (SQLGetData _ _ _ d) as [[rc [data ind]] d'].
  simpl in Hfail. rewrite Hfail. unfold checked. rewrite Hfail.
  eexists. split_and!; [by destruct st|done..].
Qed.

End Paths.

(** ** Character data *)

Section Characters.
Context {D : Type} `{!Driver D} `{!Constants}.
Implicit Types (s : OdbcStatement D) (d : D) (rs : ResultSet).

(** C27: [Lob] always returns; when it returns [true] the column is null
    or a string whose size is the number of characters of its storage and
    at most [LOB_PACKET_SIZE], and exactly that when more is left; when it
    returns [false] the statement is in the error state. *)
Theorem Lob_packet_bound display_size column s d rs :
  statement s = Some d ->
  resultset s = Some rs ->
  exists res s',
    Lob display_size column s = Done res s' /\
    (res = true ->
     exists c, resultset s' = Some (SetColumn c rs) /\ lob_ok c) /\
    (res = false -> _statementState s' = STATEMENT_ERROR).
Proof.
  intros Hd Hrs. rewrite (Lob_run _ _ _ _ _ Hd Hrs).
  destruct (SQLGetData _ _ _ d) as [[rc [data value_len]] d'].
  destruct (SQL_SUCCEEDED rc) eqn:Hrc; eexists _, _; split_and!; try done.
  - intros _. eexists. split; [done|]. apply lob_column_ok.
  - intros _. unfold checked. by rewrite Hrc.
Qed.

(** C28: [boundedString] aborts on a driver that answers
    [SQL_NO_TOTAL]: the length is even, its half as an unsigned integer is
    [2^63 - 2], and the assertion on the display size fails. *)
Theorem boundedString_no_total_aborts display_size column s d rs :
  0 <= display_size < 2 ^ 61 ->
  statement s = Some d ->
  resultset s = Some rs ->
  SQL_SUCCEEDED
    (SQLGetData (column + 1) SQL_C_WCHAR (2 * (display_size + 1)) d).1.1 = true ->
  (SQLGetData (column + 1) SQL_C_WCHAR (2 * (display_size + 1)) d).1.2.2
    = SQL_NO_TOTAL ->
  boundedString display_size column s = Fault AssertFailed.
Proof.
  intros Hsize Hd Hrs Hrc Hlen.
  rewrite (boundedString_run _ _ _ _ _ Hsize Hd Hrs).
  destruct (SQLGetData _ _ _ d) as [[rc [data value_len]] d'].
  simpl in *. subst value_len. rewrite Hrc. unfold bounded_ok.
  change (div_size_t SQL_NO_TOTAL 2) with (2 ^ 63 - 2). simpl.
  destruct (Z.leb_spec (2 ^ 63 - 2) display_size); [lia|done].
Qed.

(** C29: [TryReadString] aborts on a display size that is neither one of
    the four sizes of a large object nor between 1 and
    [SQL_SERVER_MAX_STRING_SIZE]. *)
Theorem TryReadString_unsupported_size binary column s d :
  statement s = Some d ->
  let answer := SQLColAttribute (column + 1) SQL_DESC_DISPLAY_SIZE d in
  SQL_SUCCEEDED answer.1.1 = true ->
  is_lob answer.1.2.2 = false ->
  answer.1.2.2 < 1 \/ SQL_SERVER_MAX_STRING_SIZE < answer.1.2.2 ->
  TryReadString binary column s = Fault AssertFailed.
Proof.
  intros Hd answer Hrc Hlob Hsize. subst answer.
  rewrite (TryReadString_run _ _ _ _ Hd).
  destruct (SQLColAttribute _ _ d) as [[rc [[? ?] display_size]] d'].
  simpl in *. rewrite Hrc, Hlob.
  destruct (Z.leb_spec 1 display_size); simpl; [|done].
  destruct (Z.leb_spec display_size SQL_SERVER_MAX_STRING_SIZE); [lia|done].
Qed.

End Characters.

Lemma TryReadColumn_follows_table_witness :
  TryReadColumn 1 0 (reading [RcData 0 (CInt64 7) 8] (one_column SQL_INTEGER)) =
    decoder (TryReadColumn 0) (strategy SQL_INTEGER) 0
      (reading [RcData 0 (CInt64 7) 8] (one_column SQL_INTEGER)).
Proof.
  apply (TryReadColumn_follows_table 0 0 _ (one_column SQL_INTEGER)
           (mkColumnDefinition "c" 4 SQL_INTEGER "" 0 1 ""));
    [reflexivity | lia | reflexivity].
Defined.

Lemma null_indicator_short_circuits_witness :
  exists s',
    decoder (TryReadColumn 0) Integer 0
      (reading [RcData 0 CNone (-1)] (one_column SQL_INTEGER)) = Done true s' /\
    resultset s' = Some (SetColumn NullColumn (one_column SQL_INTEGER)).
Proof.
  apply (null_indicator_short_circuits _ Integer 0 _
           (scripted [RcData 0 CNone (-1)]));
    [reflexivity..|]. intros ctype len. split; reflexivity.
Defined.

Lemma prepared_decoders_ignore_the_indicator_witness :
  exists s',
    decoder (TryReadColumn 0) Integer 0
      (reading_prepared [] (one_column SQL_INTEGER) [null_datum]) = Done true s' /\
    resultset s' =
      Some (SetColumn (IntColumn (getStorage null_datum))
              (one_column SQL_INTEGER)) /\
    IntColumn (getStorage null_datum) <> NullColumn.
Proof.
  apply (prepared_decoders_ignore_the_indicator _ Integer IntColumn 0 _
           (mkBoundDatumSet None 0 0 [null_datum]) null_datum);
    [reflexivity | reflexivity | reflexivity | lia | reflexivity..].
Defined.

Lemma reservedString_null_length_witness :
  reservedString 10 0 (reading_prepared [] (one_column SQL_WVARCHAR) [null_datum]) =
    Done true
      (with_column (StringColumn (getStorage null_datum) (2 ^ 63 - 1) false)
         (one_column SQL_WVARCHAR)
         (reading_prepared [] (one_column SQL_WVARCHAR) [null_datum])).
Proof.
  apply (reservedString_null_length 10 0 _
           (mkBoundDatumSet None 0 0 [null_datum]) null_datum);
    [reflexivity | lia | reflexivity..].
Defined.

Lemma pull_failure_reported_only_for_numbers_witness :
  exists s',
    decoder (TryReadColumn 0) Integer 0 (reading [] (one_column SQL_INTEGER)) =
      Done true s' /\
    resultset s' = Some (one_column SQL_INTEGER) /\
    _statementState s' = STATEMENT_ERROR.
Proof.
  apply (pull_failure_reported_only_for_numbers _ Integer IntColumn 0 _
           (scripted []));
    [reflexivity..|]. intros ctype len. reflexivity.
Defined.

Lemma Lob_packet_bound_witness :
  exists res s',
    Lob 0 0 (reading [RcData 1 (CWChars [104; 105]) (-4)]
               (one_column SQL_WLONGVARCHAR)) = Done res s' /\
    (res = true ->
     exists c, resultset s' = Some (SetColumn c (one_column SQL_WLONGVARCHAR)) /\
               lob_ok c) /\
    (res = false -> _statementState s' = STATEMENT_ERROR).
Proof.
  apply (Lob_packet_bound 0 0 _ (scripted [RcData 1 (CWChars [104; 105]) (-4)]));
    reflexivity.
Defined.

Lemma boundedString_no_total_aborts_witness :
  boundedString 10 0 (reading [RcData 0 CNone (-4)] (one_column SQL_WVARCHAR)) =
    Fault AssertFailed.
Proof.
  apply (boundedString_no_total_aborts 10 0 _ (scripted [RcData 0 CNone (-4)])
           (one_column SQL_WVARCHAR)); [lia | reflexivity..].
Defined.

Lemma TryReadString_unsupported_size_witness :
  TryReadString false 0 (reading [RcNum 0 9000] (one_column SQL_WVARCHAR)) =
    Fault AssertFailed.
Proof.
  apply (TryReadString_unsupported_size false 0 _ (scripted [RcNum 0 9000]));
    [reflexivity | reflexivity | reflexivity | right; reflexivity].
Defined.

Lemma TryReadColumn_fuel_witness :
  TryReadColumn 6 0 (reading [RcData 0 (CInt64 7) 8] (one_column SQL_INTEGER)) =
    TryReadColumn 1 0 (reading [RcData 0 (CInt64 7) 8] (one_column SQL_INTEGER)) /\
  TryReadColumn 1 0 (reading [RcData 0 (CInt64 7) 8] (one_column SQL_INTEGER))
    <> Fault OutOfFuel.
Proof.
  apply (TryReadColumn_fuel 5 0 _ (one_column SQL_INTEGER)
           (mkColumnDefinition "c" 4 SQL_INTEGER "" 0 1 ""));
    [reflexivity | lia | reflexivity | discriminate].
Defined.

Lemma variant_type_is_overwritten_witness :
  let l := [RcData 0 CNone 4; RcNum 0 SQL_INTEGER; RcData 0 (CInt64 7) 8] in
  let definition := mkColumnDefinition "c" 4 SQL_SS_VARIANT "" 0 1 "" in
  let d1 := (SQLGetData 1 SQL_C_BINARY 0 (scripted l)).2 in
  let answer := SQLColAttribute 1 SQL_CA_SS_VARIANT_TYPE d1 in
  TryReadColumn 2 0 (reading l (one_column SQL_SS_VARIANT)) =
    TryReadColumn 1 0
      (set_resultset
         (Some (set_meta_data 0 (retyped answer.1.2.2 definition)
                  (one_column SQL_SS_VARIANT)))
         (set_statement (Some answer.2) (reading l (one_column SQL_SS_VARIANT)))).
Proof.
  intros l definition.
  apply (variant_type_is_overwritten 0 0 (reading l (one_column SQL_SS_VARIANT))
           (scripted l) (one_column SQL_SS_VARIANT) definition);
    [reflexivity | reflexivity | lia | reflexivity..].
Defined.

Lemma TryReadColumn_out_of_range_witness :
  TryReadColumn 1 1 (reading [] (one_column SQL_INTEGER)) = Fault AssertFailed.
Proof.
  apply (TryReadColumn_out_of_range 0 1 _ (one_column SQL_INTEGER));
    [reflexivity | right; by vm_compute].
Defined.
