(* ===== verification/Streaming.v ===== *)
(** * Large objects read in packets

    A text column whose display size is one of the sizes of a large object
    is read by [Lob], one packet of [LOB_PACKET_SIZE] characters per call
    of [TryReadColumn]; the caller reads the column again as long as the
    column it gets says that more is left (section 4.6 of the
    specification).  This file states what a driver must do for that to
    work (the class [Streams]), gives the loop of the caller ([read_all])
    and proves that the packets, put end to end, are the value of the
    column, with the number of reads it takes.  [StreamDriver] is a driver
    that delivers one value of any length through a buffer of any size. *)

From S2P Require Import Prelude OdbcApi Storage Driver ScriptDriver.
From S2P Require Import ResultSetModel BoundDatumSetModel Statement.
From S2P Require Import Decode DecodeSpec.

#[local] Open Scope prog_scope.

(** The characters of a column of text: the first [size] elements of its
    storage. *)
Definition chars_of (c : Column) : list Z :=
  match c with
  | StringColumn storage size _ =>
      take (Z.to_nat size) (default [] (uint16vec_ptr storage))
  | _ => []
  end.

(** ** A driver that streams one value *)

Record StreamDriver : Set := mkStream { unread_chars : list Z }.

(** [SQLGetData] with a buffer of [len] bytes: the driver writes as many
    characters as fit before a terminator, reports the number of bytes that
    were left before the call, and keeps what did not fit. *)
Definition stream_data (len : Z) (d : StreamDriver)
    : Z * (CData * Z) * StreamDriver :=
  let n := Z.to_nat (len / 2 - 1) in
  let u := unread_chars d in
  (if (n <? length u)%nat then SQL_SUCCESS_WITH_INFO else SQL_SUCCESS,
   (CWChars (take n u ++ [0]), 2 * Z.of_nat (length u)),
   mkStream (drop n u)).

#[export] Instance stream_driver : Driver StreamDriver := {|
  SQLSetStmtAttr _ _ _ d := (SQL_ERROR, d);
  SQLGetStmtAttr _ d := (SQL_ERROR, 0, d);
  SQLSetDescField _ _ _ _ d := (SQL_ERROR, d);
  SQLBindParameter _ _ _ _ _ _ _ _ _ d := (SQL_ERROR, d);
  SQLPrepare _ _ d := (SQL_ERROR, d);
  SQLExecute d := (SQL_ERROR, d);
  SQLExecDirect _ _ d := (SQL_ERROR, d);
  SQLNumResultCols d := (SQL_ERROR, 0, d);
  SQLDescribeCol _ _ d := (SQL_ERROR, empty_describe, d);
  SQLColAttribute _ _ d := (SQL_SUCCESS, (EmptyString, 0, 0), d);
  SQLRowCount d := (SQL_ERROR, 0, d);
  SQLFetch d := (SQL_ERROR, [], d);
  SQLGetData _ _ len d := stream_data len d;
  SQLBindCol _ _ _ d := (SQL_ERROR, d);
  SQLCancelHandle _ d := (SQL_ERROR, d);
  SQLMoreResults d := (SQL_NO_DATA, d);
  SQLCloseCursor d := (SQL_ERROR, d);
  SQLGetDiagRec _ _ d := (SQL_ERROR, EmptyString, d);
  ReadErrors _ := None
|}.

Section Streaming.
Context {D : Type} `{!Driver D} `{!Constants}.
Implicit Types (s : OdbcStatement D) (d : D) (rs : ResultSet) (u : list Z).

(** The loop of the caller: read the column, take its characters, and
    read it again when more is left.  [None] is a read that failed. *)
Fixpoint read_all (fuel : nat) (column : Z)
    : prog (OdbcStatement D) (option (list Z)) :=
  match fuel with
  | O => throw OutOfFuel
  | S fuel' =>
      ok <- TryReadColumn 1 column ;;
      if negb ok then ret None
      else
        v <- GetColumnValue ;;
        let '(c, more) := v in
        if more then
          rest <- read_all fuel' column ;;
          ret (app (chars_of c) <$> rest)
        else ret (Some (chars_of c))
  end.

(** What a driver does that streams column [column]: it reports a display
    size of a large object, and each [SQLGetData] with the buffer of [Lob]
    delivers the next packet of the characters [unread], with the number
    of bytes that were left. *)
Class Streams (column : Z) : Type := {
  unread : D -> list Z;
  streams_size d :
    let a := SQLColAttribute (column + 1) SQL_DESC_DISPLAY_SIZE d in
    SQL_SUCCEEDED a.1.1 = true /\ is_lob a.1.2.2 = true /\
    unread a.2 = unread d;
  streams_data d :
    let g := SQLGetData (column + 1) SQL_C_WCHAR (2 * (LOB_PACKET_SIZE + 1)) d in
    SQL_SUCCEEDED g.1.1 = true /\
    g.1.2.1 = CWChars (take (Z.to_nat LOB_PACKET_SIZE) (unread d) ++ [0]) /\
    g.1.2.2 = 2 * Z.of_nat (length (unread d)) /\
    unread g.2 = drop (Z.to_nat LOB_PACKET_SIZE) (unread d)
}.

(** The packet that [Lob] makes of the characters [u] that are left. *)
Definition next_packet u : Column :=
  lob_column (CWChars (take (Z.to_nat LOB_PACKET_SIZE) u ++ [0]))
    (2 * Z.of_nat (length u)).

(** ** One packet *)

(** The buffer of [Lob] after the driver wrote a packet of [u]. *)
Definition buffer_of u : list Z :=
  overwrite (take (Z.to_nat LOB_PACKET_SIZE) u ++ [0]) (zeros (LOB_PACKET_SIZE + 1)).

Lemma length_buffer_of u : length (buffer_of u) = S (Z.to_nat LOB_PACKET_SIZE).
Proof.
  pose proof LOB_PACKET_SIZE_range. unfold buffer_of.
  rewrite length_overwrite, length_zeros. lia.
Qed.

Lemma buffer_full u :
  (Z.to_nat LOB_PACKET_SIZE < length u)%nat ->
  buffer_of u = take (Z.to_nat LOB_PACKET_SIZE) u ++ [0].
Proof.
  intros Hu. pose proof LOB_PACKET_SIZE_range. apply overwrite_all.
  rewrite length_app, length_take, length_zeros. simpl. lia.
Qed.

Lemma buffer_last u :
  (length u <= Z.to_nat LOB_PACKET_SIZE)%nat ->
  take (length u) (buffer_of u) = u.
Proof.
  intros Hu. pose proof LOB_PACKET_SIZE_range. unfold buffer_of.
  rewrite (take_ge u) by lia.
  rewrite overwrite_fits by (rewrite length_app, length_zeros; simpl; lia).
  rewrite <- app_assoc. by rewrite take_app_length.
Qed.

(** The characters of a packet are the next [LOB_PACKET_SIZE] characters
    that are left, and more is left exactly when there are more than
    that. *)
Lemma next_packet_chars u :
  2 * Z.of_nat (length u) < 2 ^ 63 ->
  chars_of (next_packet u) = take (Z.to_nat LOB_PACKET_SIZE) u /\
  More (next_packet u) = bool_decide (Z.to_nat LOB_PACKET_SIZE < length u)%nat.
Proof.
  intros Hu. pose proof LOB_PACKET_SIZE_range. unfold next_packet, lob_column.
  rewrite wrap_unsigned_small, (Z.mul_comm 2), Z.div_mul by lia.
  destruct (Z.eqb_spec (Z.of_nat (length u) * 2) SQL_NULL_DATA); [lia|].
  destruct (Z.eqb_spec (Z.of_nat (length u) * 2) SQL_NO_TOTAL); [lia|].
  change (packet _ _) with (buffer_of u). pose proof (length_buffer_of u).
  simpl orb. destruct (Z.ltb_spec LOB_PACKET_SIZE (Z.of_nat (length u))).
  - rewrite bool_decide_true by lia. simpl. split; [|done].
    rewrite resize_le, take_take, Nat.min_id, buffer_full by lia.
    by rewrite take_app_le, take_take, Nat.min_id by (rewrite length_take; lia).
  - rewrite bool_decide_false by lia. simpl. split; [|done].
    rewrite resize_le, take_take, Nat.min_id, Nat2Z.id, buffer_last by lia.
    by rewrite take_ge by lia.
Qed.

(** One call of [TryReadColumn] on a column that streams. *)
Lemma TryReadColumn_packet column `{!Streams column} s d rs definition :
  statement s = Some d ->
  resultset s = Some rs ->
  0 <= column ->
  get_meta_data rs (Z.to_nat column) = Some definition ->
  strategy (dataType definition) = Text ->
  exists d',
    unread d' = drop (Z.to_nat LOB_PACKET_SIZE) (unread d) /\
    TryReadColumn 1 column s =
      Done true
        (with_column (next_packet (unread d)) rs (set_statement (Some d') s)).
Proof.
  intros Hd Hrs Hc Hdef Hst.
  rewrite (TryReadColumn_step _ _ _ _ _ Hrs Hc Hdef), Hst. simpl decoder.
  unfold d_String. rewrite (TryReadString_run _ _ _ _ Hd).
  destruct (streams_size d) as (Hrc & Hlob & Hu).
  destruct (SQLColAttribute _ _ d) as [[rc [[? ?] display_size]] d1].
  simpl in Hrc, Hlob, Hu. rewrite Hrc, Hlob.
  rewrite (Lob_run _ _ _ d1 rs) by done.
  destruct (streams_data d1) as (Hrc2 & Hdata & Hlen & Hu2).
  destruct (SQLGetData _ _ _ d1) as [[rc2 [data value_len]] d2].
  simpl in Hrc2, Hdata, Hlen, Hu2. subst data value_len.
  rewrite Hrc2. exists d2. by rewrite Hu2, Hu.
Qed.

(** ** The whole value *)

(** C5: on a column of text that the driver streams, the loop of the
    caller returns the characters that were left to read, all of them and
    in order, and leaves nothing to read, as soon as its fuel is the
    number of packets that the characters fill. *)
Theorem Lob_streaming_round_trip column `{!Streams column}
    fuel s d rs definition :
  statement s = Some d ->
  resultset s = Some rs ->
  0 <= column ->
  get_meta_data rs (Z.to_nat column) = Some definition ->
  strategy (dataType definition) = Text ->
  2 * Z.of_nat (length (unread d)) < 2 ^ 63 ->
  (0 < fuel)%nat ->
  (length (unread d) <= fuel * Z.to_nat LOB_PACKET_SIZE)%nat ->
  exists s' d',
    read_all fuel column s = Done (Some (unread d)) s' /\
    statement s' = Some d' /\ unread d' = [].
Proof.
  revert s d rs. induction fuel as [|fuel IH]; [lia|].
  intros s d rs Hd Hrs Hc Hdef Hst Hu _ Hfuel. simpl read_all.
  destruct (TryReadColumn_packet column s d rs definition)
    as (d1 & Hd1 & Hrun); try done.
  set (c := next_packet (unread d)) in *.
  set (s1 := with_column c rs (set_statement (Some d1) s)) in *.
  rewrite (bind_done _ _ _ _ _ Hrun). change (negb true) with false. cbv iota.
  rewrite (bind_done _ _ _ _ _
             (GetColumnValue_run s1 (SetColumn c rs) c eq_refl eq_refl)).
  destruct (next_packet_chars (unread d) Hu) as [Hchars Hmore].
  fold c in Hchars, Hmore. rewrite Hmore, Hchars. case_bool_decide as Hlen.
  - destruct (IH s1 d1 (SetColumn c rs) eq_refl eq_refl Hc Hdef Hst)
      as (s' & d' & Hrest & Hd' & Hu'); rewrite ?Hd1, ?length_drop; try lia.
    rewrite (bind_done _ _ _ _ _ Hrest). rewrite Hd1. simpl.
    rewrite take_drop. eauto.
  - exists s1, d1. rewrite take_ge, Hd1, drop_ge by lia. eauto.
Qed.

End Streaming.

(** ** The driver [StreamDriver] streams *)

#[export] Instance stream_streams `{!Constants} column
  : Streams (D := StreamDriver) column.
Proof.
  refine {| unread := unread_chars |}.
  - intros d. by simpl.
  - intros d. pose proof LOB_PACKET_SIZE_range. simpl. unfold stream_data.
    rewrite (Z.mul_comm 2), Z.div_mul by lia.
    replace (LOB_PACKET_SIZE + 1 - 1) with LOB_PACKET_SIZE by lia.
    simpl. split_and!; try done. by destruct (_ <? _)%nat.
Defined.

(** A value of 10000 characters, and a statement that reads it as the
    only column of its result set. *)
Definition long_text : list Z := seqZ 1 10000.

Definition streaming_statement : OdbcStatement StreamDriver :=
  set_resultset
    (Some (set_meta_data 0
             (mkColumnDefinition "doc" 0 SQL_WLONGVARCHAR "nvarchar" 0 1 "")
             (new_ResultSet 1)))
    (new_OdbcStatement 1 (mkStream long_text)).

(** With packets of 8192 characters the value is read in two calls. *)
Lemma Lob_streaming_round_trip_witness :
  exists s' d',
    read_all 2 0 streaming_statement = Done (Some long_text) s' /\
    statement s' = Some d' /\ unread (column := 0) d' = [].
Proof.
  pose proof (Lob_streaming_round_trip 0 2 streaming_statement
                (mkStream long_text)
                (set_meta_data 0
                   (mkColumnDefinition "doc" 0 SQL_WLONGVARCHAR "nvarchar" 0 1 "")
                   (new_ResultSet 1))
                (mkColumnDefinition "doc" 0 SQL_WLONGVARCHAR "nvarchar" 0 1 ""))
    as H.
  change (unread (mkStream long_text)) with long_text in H.
  apply (H eq_refl eq_refl); [lia | reflexivity | reflexivity | by vm_compute | lia |].
  apply Nat.leb_le. by vm_compute.
Defined.

(** The two calls by evaluation; one call is not enough. *)
Example read_long_text :
  result_of (read_all 2 0 streaming_statement) = Some (Some long_text) /\
  read_all 1 0 streaming_statement = Fault OutOfFuel.
Proof. by vm_compute. Qed.
