(* ===== verification/Cursor.v ===== *)
(** * Prepared statements, rows and result sets

    What [TryPrepare] leaves when it succeeds, what a fetch does to the
    buffers of a prepared statement and what the decoders then read
    (section 4.5 of the specification), and what [TryReadNextResult] does
    at the end of the results (section 4.1). *)

From S2P Require Import Prelude OdbcApi Storage Driver ScriptDriver.
From S2P Require Import ResultSetModel BoundDatumSetModel Statement Execute.
From S2P Require Import Decode DecodeSpec DecodeProps.

#[local] Open Scope prog_scope.

(** ** Predicates that a driver call keeps *)

Section Calls.
Context {D : Type} `{!Driver D}.
Implicit Types (s : OdbcStatement D) (I : OdbcStatement D -> Prop).

(** The assignments of a driver call followed by [CheckOdbcError]: to the
    handle, to the error, and to the state when it becomes
    [STATEMENT_ERROR].  The result set and the prepared storage are not
    assigned. *)
Class Calls I : Prop := {
  calls_statement s d : I s -> I (set_statement (Some d) s);
  calls_error s e : I s -> I (set_error e s);
  calls_state_error s : I s -> I (set_statementState STATEMENT_ERROR s)
}.

Context (I : OdbcStatement D -> Prop) `{!Calls I}.

Lemma odbc_calls {A} (f : D -> A * D) : preserves I (odbc f).
Proof.
  intros s Hs. unfold odbc. prog_unfold.
  destruct (statement s); [by apply calls_statement | done].
Qed.

Lemma CheckOdbcError_calls r : preserves I (CheckOdbcError r).
Proof.
  intros s Hs. unfold CheckOdbcError, ReturnOdbcError. prog_unfold.
  destruct (SQL_SUCCEEDED r); simpl; [done|].
  destruct (statement s); simpl; [apply calls_error|]; by apply calls_state_error.
Qed.

Lemma BindCol_loop_calls ps i : preserves I (BindCol_loop ps i).
Proof.
  revert i. induction ps as [|datum ps IH]; intros i; simpl;
    preserves_auto; auto using odbc_calls, CheckOdbcError_calls.
Qed.

End Calls.

Section Prepared.
Context {D : Type} `{!Driver D} {V : Type} `{!NodeBoundary V} `{!Constants}.
Implicit Types (s : OdbcStatement D) (d : D) (rs : ResultSet).

(** The buffers that [reserve] makes for the columns of a result set. *)
Definition buffers_of rs : list BoundDatum :=
  (fun def => reserve_column_type (dataType def) (columnSize def)) <$> metadata rs.

(** The statement holds the result set [rs] and the buffers [bs]. *)
Definition holds rs (bs : list BoundDatum) s : Prop :=
  resultset s = Some rs /\
  exists ps, _preparedStorage s = Some ps /\ _bindings ps = bs.

#[export] Instance holds_calls rs bs : Calls (holds rs bs).
Proof. split; intros; assumption. Qed.

Lemma TryPrepare_prepared query timeout s :
  wlp (TryPrepare (V := V) query timeout)
    (fun res s' =>
       res = true ->
       _prepared s' = true /\
       _statementState s' = STATEMENT_PREPARED /\
       exists rs, holds rs (buffers_of rs) s' /\ EndOfRows rs = true) s.
Proof.
  unfold TryPrepare.
  apply wlp_bind, wlp_any. intros r s1.
  apply wlp_bind, wlp_any. intros [] s2; simpl; [|by apply wlp_ret].
  apply wlp_bind, wlp_any. intros [rc num_cols] s3.
  apply wlp_bind, wlp_any. intros [] s4; simpl; [|by apply wlp_ret].
  apply wlp_bind, wlp_any. intros _ s5.
  apply wlp_bind, wlp_any. intros _ s6.
  apply wlp_bind, wlp_any. intros _ s7.
  apply wlp_bind. unfold the_resultset.
  apply wlp_bind, wlp_get_state, wlp_deref. intros rs Hrs.
  apply wlp_bind, wlp_modify, wlp_bind.
  eapply wlp_mono;
    [|apply (BindCol_loop_calls (holds rs (buffers_of rs)))].
  - intros [] s8 (Hrs8 & ps & Hps & Hbs); simpl; [|by apply wlp_ret].
    apply wlp_bind. unfold wlp at 1.
    rewrite (update_resultset_run _ _ _ Hrs8).
    apply wlp_bind, wlp_modify, wlp_bind, wlp_modify, wlp_ret. intros _.
    split_and!; [done..|]. exists (set_endOfRows true rs). repeat split.
    exists ps. by split.
  - split; [done|]. eexists. split; [done|].
    change (_bindings (snd (reserve rs new_BoundDatumSet)) = buffers_of rs).
    by rewrite reserve_spec.
Qed.

(** C12: when [TryPrepare] returns [true] the statement is prepared and in
    the prepared state, its result set is at the end of its rows, and its
    storage holds one buffer for each column of the result set, in the
    order of the columns, reserved for the type and the size that the
    column was described with. *)
Theorem TryPrepare_prepares query timeout s :
  wlp (TryPrepare (V := V) query timeout)
    (fun res s' =>
       res = true ->
       _prepared s' = true /\
       _statementState s' = STATEMENT_PREPARED /\
       exists rs, holds rs (buffers_of rs) s' /\ EndOfRows rs = true) s.
Proof. apply TryPrepare_prepared. Qed.

(** ** A fetch into the buffers *)

(** The writes of a fetch that are addressed to the buffer [column]: the
    driver numbers the columns from 1, the buffers are numbered from 0. *)
Definition writes_to (column : nat) (ws : list FetchWrite) : list FetchWrite :=
  filter (fun w => fw_column w = Z.of_nat column + 1) ws.

(** A buffer after the driver made the writes [ws] into it. *)
Definition stored (ws : list FetchWrite) (b : BoundDatum) : BoundDatum :=
  foldl (fun b w => datum_write (fw_data w) (fw_indicator w) b) b ws.

(** The buffers after a fetch that made the writes [ws]. *)
Definition written (ws : list FetchWrite) (bs : list BoundDatum)
    : list BoundDatum :=
  foldl fetch_write bs ws.

(** One write changes the buffer it is addressed to, and no other. *)
Lemma fetch_write_lookup w bs (column : nat) :
  fetch_write bs w !! column =
    if decide (fw_column w = Z.of_nat column + 1)
    then datum_write (fw_data w) (fw_indicator w) <$> bs !! column
    else bs !! column.
Proof.
  unfold fetch_write. case_decide as Hw.
  - destruct (Z.ltb_spec (fw_column w) 1); [lia|].
    replace (Z.to_nat (fw_column w - 1)) with column by lia.
    apply list_lookup_alter_eq.
  - destruct (Z.ltb_spec (fw_column w) 1); [done|].
    apply list_lookup_alter_ne. lia.
Qed.

(** Each buffer receives the writes addressed to its column, in order. *)
Lemma written_lookup ws bs (column : nat) :
  written ws bs !! column = stored (writes_to column ws) <$> bs !! column.
Proof.
  revert bs. induction ws as [|w ws IH]; intros bs; simpl.
  - by destruct (bs !! column).
  - rewrite IH, fetch_write_lookup. unfold writes_to. rewrite filter_cons.
    case_decide as Hw; [|done]. by destruct (bs !! column).
Qed.

Lemma fetched_holds rc ws d' rs bs s :
  holds rs bs s ->
  holds (set_endOfRows (rc =? SQL_NO_DATA) rs) (written ws bs)
    (fetched rc ws d' rs s) /\
  statement (fetched rc ws d' rs s) = Some d' /\
  _prepared (fetched rc ws d' rs s) = _prepared s.
Proof.
  intros (Hrs & ps & Hps & <-). unfold holds, fetched, apply_fetch_writes.
  simpl. rewrite Hps.
  destruct (rc =? SQL_NO_DATA); [|destruct (SQL_SUCCEEDED rc)]; simpl; eauto 10.
Qed.

(** When a write covers another, nothing of the other is left after it:
    a value of fixed size covers a value of its kind, and characters or
    bytes cover what is not longer. *)
Definition covers (d1 d2 : CData) : bool :=
  match d1, d2 with
  | (CNone | CTime2 _), _ => true
  | CInt64 _, CInt64 _ | CDouble _, CDouble _ | CTimestamp _, CTimestamp _
  | CTimestampOffset _, CTimestampOffset _ => true
  | CBytes v1, CBytes v2 | CWChars v1, CWChars v2 =>
      bool_decide (length v1 <= length v2)%nat
  | _, _ => false
  end.

Lemma storage_write_covers (data1 data2 : CData) (st : DatumStorage) :
  covers data1 data2 = true ->
  storage_write data2 (storage_write data1 st) = storage_write data2 st.
Proof.
  destruct st as [i64 dbl chr u16 ts tso].
  destruct data1, data2; simpl; try done; intros Hc; f_equal;
    try apply bool_decide_eq_true in Hc;
    match goal with |- _ <$> (_ <$> ?o) = _ => destruct o end; simpl; f_equal;
    by apply overwrite_overwrite.
Qed.

(** The caller reads a row: it fetches, and decodes a column. *)
Definition read_row (column : Z) : prog (OdbcStatement D) (option Column) :=
  ok <- TryReadRow ;;
  if negb ok then ret None
  else
    ok <- TryReadColumn 1 column ;;
    if negb ok then ret None
    else
      v <- GetColumnValue ;;
      ret (Some (fst v)).

(** What a fetch of a row leaves of a prepared statement, for a column of
    a strategy that reads one value of fixed size. *)
Record row_read (column : Z) (make : DatumStorage -> Column) rs
    (d' : D) (datum' : BoundDatum) (s' : OdbcStatement D) : Prop := {
  row_prepared : _prepared s' = true;
  row_statement : statement s' = Some d';
  row_holds :
    exists rs' bs',
      holds rs' bs' s' /\ metadata rs' = metadata rs /\
      bs' !! Z.to_nat column = Some datum'
}.

Lemma read_row_prepared column st make s d rs bs definition datum rc ws d' :
  _prepared s = true ->
  statement s = Some d ->
  holds rs bs s ->
  0 <= column ->
  get_meta_data rs (Z.to_nat column) = Some definition ->
  strategy (dataType definition) = st ->
  column_class st = Some make ->
  bs !! Z.to_nat column = Some datum ->
  SQLFetch d = (rc, ws, d') ->
  SQL_SUCCEEDED rc = true ->
  exists s',
    read_row column s =
      Done (Some (make (getStorage (stored (writes_to (Z.to_nat column) ws) datum))))
        s' /\
    row_read column make rs d' (stored (writes_to (Z.to_nat column) ws) datum) s'.
Proof.
  intros Hp Hd Hholds Hc Hdef Hst Hmake Hdatum Hfetch Hrc. unfold read_row.
  pose proof (TryReadRow_run s) as Hrun. destruct Hholds as [Hrs Hps].
  rewrite Hrs, Hd, Hfetch, Hrc, orb_true_r in Hrun.
  rewrite (bind_done _ _ _ _ _ Hrun). change (negb true) with false. cbv iota.
  destruct (fetched_holds rc ws d' rs bs s (conj Hrs Hps))
    as ((Hrs1 & ps1 & Hps1 & Hbs1) & Hd1 & Hp1).
  set (s1 := fetched rc ws d' rs s) in *. rewrite Hp in Hp1.
  assert (_bindings ps1 !! Z.to_nat column =
            Some (stored (writes_to (Z.to_nat column) ws) datum)) as Hdatum1.
  { by rewrite Hbs1, written_lookup, Hdatum. }
  rewrite (bind_done _ _ _ _ _
    (eq_trans (TryReadColumn_step 0 column s1 _ definition Hrs1 Hc Hdef)
       (decoder_prepared _ (strategy (dataType definition)) make column s1
          ps1 _ _ ltac:(by rewrite Hst) Hp1 Hps1 Hc Hdatum1 Hrs1))).
  change (negb true) with false. cbv iota.
  set (c := make (getStorage (stored (writes_to (Z.to_nat column) ws) datum))).
  set (rs1 := set_endOfRows (rc =? SQL_NO_DATA) rs) in *.
  rewrite (bind_done _ _ _ _ _
    (GetColumnValue_run (with_column c rs1 s1) (SetColumn c rs1) c eq_refl eq_refl)).
  eexists. split; [done|]. split; [done | done |].
  eexists _, _. split; [|split; [|exact Hdatum1]]; [by split; eauto | done].
Qed.

(** Two rows, one after the other. *)
Lemma read_two_rows column st make s d rs bs definition datum
    rc1 ws1 d1 rc2 ws2 d2 :
  _prepared s = true ->
  statement s = Some d ->
  holds rs bs s ->
  0 <= column ->
  get_meta_data rs (Z.to_nat column) = Some definition ->
  strategy (dataType definition) = st ->
  column_class st = Some make ->
  bs !! Z.to_nat column = Some datum ->
  SQLFetch d = (rc1, ws1, d1) -> SQL_SUCCEEDED rc1 = true ->
  SQLFetch d1 = (rc2, ws2, d2) -> SQL_SUCCEEDED rc2 = true ->
  let datum1 := stored (writes_to (Z.to_nat column) ws1) datum in
  let datum2 := stored (writes_to (Z.to_nat column) ws2) datum1 in
  exists s1 s2,
    read_row column s = Done (Some (make (getStorage datum1))) s1 /\
    read_row column s1 = Done (Some (make (getStorage datum2))) s2.
Proof.
  intros Hp Hd Hholds Hc Hdef Hst Hmake Hdatum Hf1 Hrc1 Hf2 Hrc2 datum1 datum2.
  destruct (read_row_prepared column st make s d rs bs definition datum
              rc1 ws1 d1) as (s1 & Hrun1 & [Hp1 Hd1 (rs1 & bs1 & Hh1 & Hm1 & Hb1)]);
    try done.
  destruct (read_row_prepared column st make s1 d1 rs1 bs1 definition datum1
              rc2 ws2 d2) as (s2 & Hrun2 & _); try done; [|eauto].
  unfold get_meta_data in *. by rewrite Hm1.
Qed.

(** C6: on a prepared statement, when two fetches in a row each write
    the buffer of a column once, and the second value covers the first,
    the column decoded after the second fetch is made of the second value
    and of the buffer as it was reserved: nothing of the first row is in
    it. *)
Theorem prepared_rows_do_not_leak column st make s d rs bs definition datum
    rc1 ws1 d1 w1 rc2 ws2 d2 w2 :
  _prepared s = true ->
  statement s = Some d ->
  holds rs bs s ->
  0 <= column ->
  get_meta_data rs (Z.to_nat column) = Some definition ->
  strategy (dataType definition) = st ->
  column_class st = Some make ->
  bs !! Z.to_nat column = Some datum ->
  SQLFetch d = (rc1, ws1, d1) -> SQL_SUCCEEDED rc1 = true ->
  SQLFetch d1 = (rc2, ws2, d2) -> SQL_SUCCEEDED rc2 = true ->
  writes_to (Z.to_nat column) ws1 = [w1] ->
  writes_to (Z.to_nat column) ws2 = [w2] ->
  covers (fw_data w1) (fw_data w2) = true ->
  exists s1 s2,
    read_row column s =
      Done (Some (make (storage_write (fw_data w1) (getStorage datum)))) s1 /\
    read_row column s1 =
      Done (Some (make (storage_write (fw_data w2) (getStorage datum)))) s2.
Proof.
  intros Hp Hd Hholds Hc Hdef Hst Hmake Hdatum Hf1 Hrc1 Hf2 Hrc2 Hw1 Hw2 Hcov.
  destruct (read_two_rows column st make s d rs bs definition datum
              rc1 ws1 d1 rc2 ws2 d2) as (s1 & s2 & Hrun1 & Hrun2); try done.
  rewrite Hw1, Hw2 in *. simpl in *.
  rewrite storage_write_covers in Hrun2 by done. eauto.
Qed.

(** C17: on a prepared statement, when the value of a column is NULL in
    the second of two rows, so that the driver writes the indicator and
    no data, the column decoded after the second fetch is the value of
    the first row. *)
Theorem prepared_null_shows_previous_row column st make s d rs bs definition
    datum rc1 ws1 d1 w1 rc2 ws2 d2 :
  _prepared s = true ->
  statement s = Some d ->
  holds rs bs s ->
  0 <= column ->
  get_meta_data rs (Z.to_nat column) = Some definition ->
  strategy (dataType definition) = st ->
  column_class st = Some make ->
  bs !! Z.to_nat column = Some datum ->
  SQLFetch d = (rc1, ws1, d1) -> SQL_SUCCEEDED rc1 = true ->
  SQLFetch d1 = (rc2, ws2, d2) -> SQL_SUCCEEDED rc2 = true ->
  writes_to (Z.to_nat column) ws1 = [w1] ->
  writes_to (Z.to_nat column) ws2 =
    [mkFetchWrite (column + 1) CNone SQL_NULL_DATA] ->
  exists s1 s2 c,
    read_row column s = Done (Some c) s1 /\
    read_row column s1 = Done (Some c) s2 /\
    c = make (storage_write (fw_data w1) (getStorage datum)) /\
    c <> NullColumn.
Proof.
  intros Hp Hd Hholds Hc Hdef Hst Hmake Hdatum Hf1 Hrc1 Hf2 Hrc2 Hw1 Hw2.
  destruct (read_two_rows column st make s d rs bs definition datum
              rc1 ws1 d1 rc2 ws2 d2) as (s1 & s2 & Hrun1 & Hrun2); try done.
  rewrite Hw1, Hw2 in *. simpl in *. eexists _, _, _. split_and!; try done.
  by destruct st; simplify_eq/=.
Qed.

(** ** The end of the results *)

(** C14: when the driver has no more results, [TryReadNextResult] on a
    reachable statement returns [true] with the end of the results
    flagged, and closes the cursor of a prepared statement; the result
    set, the buffers and the state are left as they are. *)
Theorem TryReadNextResult_end_of_results s d :
  statement s = Some d ->
  _statementState s <> STATEMENT_CANCELLED ->
  (SQLMoreResults d).1 = SQL_NO_DATA ->
  let d1 := (SQLMoreResults d).2 in
  TryReadNextResult s =
    Done true
      (set_endOfResults true
         (set_statement
            (Some (if _prepared s then (SQLCloseCursor d1).2 else d1)) s)).
Proof.
  intros Hd Hstate Hrc d1. subst d1. unfold TryReadNextResult.
  unfold and_then at 1. unfold gets at 1. rewrite decide_False by done.
  unfold TryReadNextResult_advance.
  rewrite (bind_done _ _ _ _ _ (odbc_run _ _ _ Hd)), Hrc.
  change (match SQL_NO_DATA with 100 => ?a | _ => _ end) with a.
  prog_unfold. simpl. destruct (_prepared s); [|done].
  unfold odbc. prog_unfold. by simpl.
Qed.

End Prepared.

(** ** The theorems at a scripted driver *)

(** A prepared statement with one integer column, on a driver that will
    give the answers [l]. *)
Definition prepared_integer (l : list Answer) : OdbcStatement ScriptDriver :=
  reading_prepared l (one_column SQL_INTEGER) [js_reserve SQL_INTEGER 4].

(** The storage of an integer column that holds [n]. *)
Definition integer_storage (n : Z) : DatumStorage :=
  mkStorage (Some [n]) None None None None None.

(** Two rows, 7 then 9. *)
Definition two_rows : list Answer :=
  [RcFetch SQL_SUCCESS [mkFetchWrite 1 (CInt64 7) 8];
   RcFetch SQL_SUCCESS [mkFetchWrite 1 (CInt64 9) 8]].

(** Two rows, 7 then NULL. *)
Definition row_then_null : list Answer :=
  [RcFetch SQL_SUCCESS [mkFetchWrite 1 (CInt64 7) 8];
   RcFetch SQL_SUCCESS [mkFetchWrite 1 CNone SQL_NULL_DATA]].

Lemma prepared_rows_do_not_leak_witness :
  exists s1 s2,
    read_row 0 (prepared_integer two_rows) =
      Done (Some (IntColumn (integer_storage 7))) s1 /\
    read_row 0 s1 = Done (Some (IntColumn (integer_storage 9))) s2.
Proof.
  apply (prepared_rows_do_not_leak 0 Integer IntColumn
           (prepared_integer two_rows) (scripted two_rows)
           (one_column SQL_INTEGER) [js_reserve SQL_INTEGER 4]
           (mkColumnDefinition "c" 4 SQL_INTEGER "" 0 1 "")
           (js_reserve SQL_INTEGER 4)
           SQL_SUCCESS [mkFetchWrite 1 (CInt64 7) 8]
           (SQLFetch (scripted two_rows)).2 (mkFetchWrite 1 (CInt64 7) 8)
           SQL_SUCCESS [mkFetchWrite 1 (CInt64 9) 8]
           (SQLFetch (SQLFetch (scripted two_rows)).2).2
           (mkFetchWrite 1 (CInt64 9) 8));
    try reflexivity. split; [done|]. by eexists.
Defined.

Lemma prepared_null_shows_previous_row_witness :
  exists s1 s2 c,
    read_row 0 (prepared_integer row_then_null) = Done (Some c) s1 /\
    read_row 0 s1 = Done (Some c) s2 /\
    c = IntColumn (integer_storage 7) /\ c <> NullColumn.
Proof.
  apply (prepared_null_shows_previous_row 0 Integer IntColumn
           (prepared_integer row_then_null) (scripted row_then_null)
           (one_column SQL_INTEGER) [js_reserve SQL_INTEGER 4]
           (mkColumnDefinition "c" 4 SQL_INTEGER "" 0 1 "")
           (js_reserve SQL_INTEGER 4)
           SQL_SUCCESS [mkFetchWrite 1 (CInt64 7) 8]
           (SQLFetch (scripted row_then_null)).2 (mkFetchWrite 1 (CInt64 7) 8)
           SQL_SUCCESS [mkFetchWrite 1 CNone SQL_NULL_DATA]
           (SQLFetch (SQLFetch (scripted row_then_null)).2).2);
    try reflexivity. split; [done|]. by eexists.
Defined.

Lemma TryReadNextResult_end_of_results_witness :
  TryReadNextResult (prepared_integer [Rc SQL_NO_DATA; Rc SQL_SUCCESS]) =
    Done true
      (set_endOfResults true
         (set_statement
            (Some (SQLCloseCursor
                     (SQLMoreResults (scripted [Rc SQL_NO_DATA; Rc SQL_SUCCESS])).2).2)
            (prepared_integer [Rc SQL_NO_DATA; Rc SQL_SUCCESS]))).
Proof.
  apply (TryReadNextResult_end_of_results
           (prepared_integer [Rc SQL_NO_DATA; Rc SQL_SUCCESS])
           (scripted [Rc SQL_NO_DATA; Rc SQL_SUCCESS])); done.
Defined.

(** The answers of a driver to the preparation of a query of one integer
    column. *)
Definition one_integer_column : list Answer :=
  [Rc SQL_SUCCESS; RcNum SQL_SUCCESS 1;
   RcDescribe SQL_SUCCESS (mkDescribeCol "n" 1 SQL_INTEGER 10 0 0);
   RcDescribe SQL_SUCCESS (mkDescribeCol "n" 1 SQL_INTEGER 10 0 0);
   RcAttr SQL_SUCCESS "int" 3 0; Rc SQL_SUCCESS].

Lemma TryPrepare_prepares_witness :
  wlp (TryPrepare (V := JsValue) "select n from t" 0)
    (fun res s' =>
       res = true ->
       _prepared s' = true /\
       _statementState s' = STATEMENT_PREPARED /\
       exists rs, holds rs (buffers_of rs) s' /\ EndOfRows rs = true)
    (fresh one_integer_column).
Proof. apply TryPrepare_prepares. Defined.

(** [TryPrepare] by evaluation, on that query: it returns [true] and the
    storage holds the buffer that [js_reserve] makes for the column. *)
Example TryPrepare_one_column :
  let l := one_integer_column in
  match TryPrepare (V := JsValue) "select n from t" 0 (fresh l) with
  | Done res s =>
      res = true /\ _statementState s = STATEMENT_PREPARED /\
      (_bindings <$> _preparedStorage s) = Some [js_reserve SQL_INTEGER 10]
  | Fault _ => False
  end.
Proof. by vm_compute. Qed.

(** After the last result set a fetch still reports a row when the
    driver answers one: [TryReadRow] does not look at the end of the
    results. *)
Example row_after_end_of_results :
  let l := [Rc SQL_NO_DATA; RcFetch SQL_SUCCESS []] in
  let s := reading l (one_column SQL_INTEGER) in
  match (TryReadNextResult ;;; TryReadRow) s with
  | Done res s' => res = true /\ _endOfResults s' = true
  | Fault _ => False
  end.
Proof. by vm_compute. Qed.
