(* ===== verification/Returns.v ===== *)
(** * The operations return

    Total correctness of the submission of a query: from a statement whose
    handle is allocated, and on a driver that reports sizes within the
    buffers ([Driver.Sized]), [StartReadingResults], [TryPrepare] and
    [TryExecuteDirect] without polling return, whatever else the driver
    answers: no null pointer is dereferenced, no column is described out
    of the result set, no buffer is allocated with a negative size or
    read past its end, and no fuel is used.  On a driver that is not
    [Sized] they do not: [readNext_unchecked_name_length] and
    [readColAttributes_unchecked_length] give the faults.  With polling the
    same holds as soon as [PollCheck] returns
    ([Polling.PollCheck_terminates]). *)

From S2P Require Import Prelude OdbcApi Storage Driver ScriptDriver.
From S2P Require Import ResultSetModel BoundDatumSetModel Statement Execute.
From S2P Require Import Decode DecodeSpec DecodeProps Cursor.

#[local] Open Scope prog_scope.

(** ** Programs that return *)

Section Ensures.
Context {S : Type}.
Implicit Types (P Q R I : S -> Prop).

(** From a state of [P] the program returns, and leaves a state of [Q]. *)
Definition ensures {A} P (c : prog S A) Q : Prop :=
  forall s, P s -> wp c (fun _ s' => Q s') s.

(** The program returns from every state of [I] and keeps [I]. *)
Definition total {A} I (c : prog S A) : Prop := ensures I c I.

Lemma ensures_bind {A B} P Q R (c : prog S A) (k : A -> prog S B) :
  ensures P c Q -> (forall a, ensures Q (k a) R) -> ensures P (and_then c k) R.
Proof.
  intros Hc Hk s Hs. apply wp_bind. eapply wp_mono; [|by apply Hc].
  intros a s' Hs'. by apply Hk.
Qed.

Lemma ensures_weaken {A} P P' Q Q' (c : prog S A) :
  (forall s, P' s -> P s) -> (forall s, Q s -> Q' s) ->
  ensures P c Q -> ensures P' c Q'.
Proof. intros HP HQ Hc s Hs. eapply wp_mono; [|apply Hc]; eauto. Qed.

(** What a program ensures, with what holds of its result when it
    returns. *)
Lemma ensures_wlp {A} P Q (R : A -> S -> Prop) (c : prog S A) s :
  ensures P c Q -> P s -> wlp c R s ->
  wp c (fun a s' => Q s' /\ R a s') s.
Proof.
  intros Hc Hs HR. specialize (Hc s Hs). unfold wp, wlp in *.
  by destruct (c s).
Qed.

Lemma total_ret {A} I (a : A) : total I (ret a).
Proof. by intros s Hs. Qed.

Lemma total_bind {A B} I (c : prog S A) (k : A -> prog S B) :
  total I c -> (forall a, total I (k a)) -> total I (and_then c k).
Proof. apply ensures_bind. Qed.

Lemma total_gets {A} I (f : S -> A) : total I (gets f).
Proof. by intros s Hs. Qed.

Lemma total_modify I (f : S -> S) : (forall s, I s -> I (f s)) -> total I (modify f).
Proof. intros Hf s Hs. by apply Hf. Qed.

Lemma total_when I b (c : prog S unit) : total I c -> total I (when b c).
Proof. destruct b; [done | intros _; apply total_ret]. Qed.

Lemma total_if {A} I (b : bool) (c1 c2 : prog S A) :
  total I c1 -> total I c2 -> total I (if b then c1 else c2).
Proof. by destruct b. Qed.

Lemma total_run {A} I (c : prog S A) s :
  total I c -> I s -> exists a s', c s = Done a s' /\ I s'.
Proof. intros Hc Hs. by apply wp_run, Hc. Qed.

End Ensures.

Create HintDb total discriminated.

(** Prove that a program built from the primitives returns and keeps an
    invariant, with the lemmas of the database [total] for the programs
    it calls. *)
Ltac total_step :=
  lazymatch goal with
  | |- total _ (ret _) => apply total_ret
  | |- total _ (gets _) => apply total_gets
  | |- total _ (and_then _ _) => apply total_bind; [|intros ?]
  | |- total _ (when _ _) => apply total_when
  | |- total _ (modify _) => apply total_modify; intros ? ?
  | |- total _ (if ?b then _ else _) => first [apply total_if | destruct b]
  | |- total _ (match ?x with _ => _ end) => destruct x
  end.

Ltac total_auto := repeat total_step; eauto with total.

(** ** Driver calls *)

Section Live.
Context {D : Type} `{!Driver D}.
Implicit Types (s : OdbcStatement D) (I : OdbcStatement D -> Prop).

(** The handle of the statement is allocated. *)
Definition allocated s : Prop := is_Some (statement s).

(** A predicate that a driver call keeps, on statements whose handle is
    allocated. *)
Class Live I : Prop := {
  live_calls :: Calls I;
  live_allocated s : I s -> allocated s
}.

#[export] Instance allocated_live : Live allocated.
Proof. split; [split|]; intros; unfold allocated in *; simpl; eauto. Qed.

Context (I : OdbcStatement D -> Prop) `{!Live I}.

Lemma odbc_total {A} (f : D -> A * D) : total I (odbc f).
Proof.
  intros s Hs. destruct (live_allocated s Hs) as [d Hd].
  eapply wp_done; [by apply odbc_run|]. by apply calls_statement.
Qed.

Lemma ReturnOdbcError_total : total I ReturnOdbcError.
Proof.
  intros s Hs. destruct (live_allocated s Hs) as [d Hd].
  eapply wp_done; [by apply ReturnOdbcError_run|]. by apply calls_error.
Qed.

#[local] Hint Resolve odbc_total ReturnOdbcError_total : total.
#[local] Hint Extern 1 => (apply calls_state_error; assumption) : total.

Lemma CheckOdbcError_total r : total I (CheckOdbcError r).
Proof. unfold CheckOdbcError. total_auto. Qed.

#[local] Hint Resolve CheckOdbcError_total : total.

(** [I] holds and the handle is [d]. *)
Definition on d s : Prop := I s /\ statement s = Some d.

Lemma ensures_on {A} d (c : prog (OdbcStatement D) A) :
  total I c -> ensures (on d) c I.
Proof. apply ensures_weaken; [by intros s []|done]. Qed.

(** What follows a call of the driver runs on the handle that the call
    left. *)
Lemma odbc_on {A B} (f : D -> A * D) (k : A -> prog (OdbcStatement D) B) :
  (forall d, ensures (on (f d).2) (k (f d).1) I) ->
  total I (r <- odbc f ;; k r).
Proof.
  intros Hk s Hs. destruct (live_allocated s Hs) as [d Hd]. apply wp_bind.
  eapply wp_done; [by apply odbc_run|]. apply Hk.
  split; [by apply calls_statement|done].
Qed.

(** What follows a check runs only when the call succeeded, on a
    statement that the check left as it was. *)
Lemma guard_on (P : OdbcStatement D -> Prop) rc
    (k : prog (OdbcStatement D) bool) :
  (forall s, P s -> I s) ->
  (SQL_SUCCEEDED rc = true -> ensures P k I) ->
  ensures P (ok <- CheckOdbcError rc ;; if negb ok then ret false else k) I.
Proof.
  intros HP Hk s Hs. apply wp_bind. destruct (SQL_SUCCEEDED rc) eqn:Hrc.
  - eapply wp_done; [by apply CheckOdbcError_ok|]. by apply Hk.
  - destruct (live_allocated s (HP s Hs)) as [d Hd].
    eapply wp_done; [by apply (CheckOdbcError_fail _ _ d)|].
    simpl. apply wp_ret, calls_error, calls_state_error. auto.
Qed.

Lemma guard_total rc (k : prog (OdbcStatement D) bool) :
  (SQL_SUCCEEDED rc = true -> total I k) ->
  total I (ok <- CheckOdbcError rc ;; if negb ok then ret false else k).
Proof. by apply guard_on. Qed.

Lemma new_buffer_total size : 0 <= size -> total I (new_buffer size).
Proof. intros H s Hs. by eapply wp_done; [by apply new_buffer_run|]. Qed.

Lemma wstring_of_total size buffer n :
  0 <= n <= size -> total I (wstring_of size buffer n).
Proof. intros H s Hs. by eapply wp_done; [by apply wstring_of_run|]. Qed.

Lemma applyPrecision_total datum n : total I (applyPrecision datum n).
Proof. unfold applyPrecision. total_auto. Qed.

#[local] Hint Resolve applyPrecision_total : total.

Lemma BindParams_loop_total ps n : total I (BindParams_loop ps n).
Proof. revert n. induction ps; intros n; simpl; total_auto. Qed.

#[local] Hint Resolve BindParams_loop_total : total.

Lemma BindParams_total ps : total I (BindParams (Some ps)).
Proof. unfold BindParams. simpl deref. total_auto. Qed.

Lemma queryTimeout_total timeout : total I (queryTimeout timeout).
Proof. unfold queryTimeout. total_auto. Qed.

Lemma BindCol_loop_total ps i : total I (BindCol_loop ps i).
Proof. revert i. induction ps; intros i; simpl; total_auto. Qed.

End Live.

#[export] Hint Resolve odbc_total ReturnOdbcError_total CheckOdbcError_total
  applyPrecision_total BindParams_loop_total BindParams_total
  queryTimeout_total BindCol_loop_total : total.
#[export] Hint Extern 1 (Live _) => typeclasses eauto : total.

(** ** The description of a result set *)

Section Shaped.
Context {D : Type} `{!Driver D}.
Implicit Types (s : OdbcStatement D) (rs : ResultSet).

(** The handle is allocated and the result set has [n] columns. *)
Definition shaped (n : nat) s : Prop :=
  allocated s /\ exists rs, resultset s = Some rs /\ get_column_count rs = n.

#[export] Instance shaped_live n : Live (shaped n).
Proof.
  split; [split|]; intros s; unfold shaped, allocated; simpl; try tauto.
  intros ? []. eauto.
Qed.

Lemma update_resultset_total n (f : ResultSet -> ResultSet) :
  (forall rs, get_column_count (f rs) = get_column_count rs) ->
  total (shaped n) (update_resultset f).
Proof.
  intros Hf s (Hd & rs & Hrs & Hn).
  eapply wp_done; [by apply update_resultset_run|].
  split; [done|]. exists (f rs). by rewrite Hf.
Qed.

Lemma GetMetadata_total n column :
  (column < n)%nat -> total (shaped n) (GetMetadata column).
Proof.
  intros Hc s (Hd & rs & Hrs & Hn). unfold GetMetadata.
  apply wp_bind. eapply wp_done; [by apply the_resultset_run|].
  destruct (get_meta_data rs column) as [def|] eqn:Hdef;
    [exact (conj Hd (ex_intro _ rs (conj Hrs Hn)))|].
  apply eq_None_not_Some in Hdef. rewrite get_meta_data_is_Some in Hdef. lia.
Qed.

#[local] Hint Resolve GetMetadata_total : total.

Lemma update_metadata_total n column f :
  (column < n)%nat -> total (shaped n) (update_metadata column f).
Proof.
  intros Hc. unfold update_metadata. total_auto.
  apply update_resultset_total. intros rs. apply set_meta_data_count.
Qed.

#[local] Hint Resolve update_metadata_total : total.

Lemma GetMetadata_done column s rs definition :
  resultset s = Some rs ->
  get_meta_data rs column = Some definition ->
  GetMetadata column s = Done definition s.
Proof.
  intros Hrs Hdef. unfold GetMetadata.
  rewrite (bind_done _ _ _ _ _ (the_resultset_run _ _ Hrs)). by rewrite Hdef.
Qed.

Lemma update_metadata_done column f s rs definition :
  resultset s = Some rs ->
  get_meta_data rs column = Some definition ->
  update_metadata column f s =
    Done tt (set_resultset (Some (set_meta_data column (f definition) rs)) s).
Proof.
  intros Hrs Hdef. unfold update_metadata.
  rewrite (bind_done _ _ _ _ _ (GetMetadata_done _ _ _ _ Hrs Hdef)).
  by apply update_resultset_run.
Qed.

Lemma GetMetadata_run n column s :
  (column < n)%nat -> shaped n s ->
  exists definition, GetMetadata column s = Done definition s.
Proof.
  intros Hc (_ & rs & Hrs & Hn).
  destruct (get_meta_data rs column) as [def|] eqn:Hdef;
    [by exists def; apply (GetMetadata_done _ _ rs)|].
  apply eq_None_not_Some in Hdef. rewrite get_meta_data_is_Some in Hdef. lia.
Qed.

Context `{!Sized D}.

(** The name of a type, read into an array of 1024 characters. *)
Lemma type_name_total n index field
    (k : string -> prog (OdbcStatement D) bool) :
  (forall type_name, total (shaped n) (k type_name)) ->
  total (shaped n)
    (r <- odbc (SQLColAttribute index field) ;;
     let '(rc, (type_name, type_name_len, _)) := r in
     ok <- CheckOdbcError rc ;;
     if negb ok then ret false
     else
       type_name <- wstring_of type_name_size type_name type_name_len ;;
       k type_name).
Proof.
  intros Hk. apply (odbc_on (shaped n)). intros d.
  pose proof (type_names_fit index field d) as Hfit.
  destruct (SQLColAttribute index field d) as [[rc [[type_name len] num]] d1].
  simpl in Hfit |- *. apply ensures_on, (guard_total (shaped n)). intros Hrc.
  apply total_bind; [by apply wstring_of_total, Hfit | done].
Qed.

Lemma readColAttributes_total n column :
  (column < n)%nat -> total (shaped n) (readColAttributes column).
Proof.
  intros Hc. unfold readColAttributes. apply type_name_total. intros type_name.
  apply total_bind; [total_auto|intros []].
  apply total_bind; [total_auto|intros current].
  repeat case_match; try apply total_ret.
  apply type_name_total. intros udt. total_auto.
Qed.

#[local] Hint Resolve readColAttributes_total : total.

(** The part of [readNext] that follows the second call of
    [SQLDescribeCol], which answered [rc] and [out] into a buffer of
    [size] characters. *)
Definition named (column : nat) (size rc : Z) (out : DescribeCol)
    : prog (OdbcStatement D) bool :=
  update_metadata column (fun current =>
    mkColumnDefinition (name current) (dc_column_size out) (dc_data_type out)
      (dataTypeName current) (dc_decimal_digits out) (dc_nullable out)
      (udtTypeName current)) ;;;
  ok <- CheckOdbcError rc ;;
  if negb ok then ret false
  else
    name <- wstring_of size (dc_name out) (dc_name_length out) ;;
    update_metadata column (fun current =>
      mkColumnDefinition name
        (columnSize current) (dataType current) (dataTypeName current)
        (decimalDigits current) (nullable current) (udtTypeName current)) ;;;
    b <- readColAttributes column ;;
    let rc := Z_of_bool b in
    ok <- CheckOdbcError rc ;;
    if negb ok then ret false
    else ret (bool_of_Z rc).

Lemma named_total n column size rc out :
  (column < n)%nat ->
  (SQL_SUCCEEDED rc = true -> 0 <= dc_name_length out <= size) ->
  total (shaped n) (named column size rc out).
Proof.
  intros Hc Hname. unfold named. apply total_bind; [total_auto|intros []].
  apply (guard_total (shaped n)). intros Hrc.
  apply total_bind; [by apply wstring_of_total, Hname|intros name].
  total_auto; cbv zeta; total_auto.
Qed.

Lemma readNext_total n column :
  (column < n)%nat -> total (shaped n) (readNext column).
Proof.
  intros Hc. unfold readNext. apply (odbc_on (shaped n)). intros d.
  pose proof (names_fit (Z.of_nat column + 1) d) as Hfit.
  destruct (SQLDescribeCol (Z.of_nat column + 1) 0 d) as [[rc out] d1].
  simpl in Hfit |- *. apply (guard_on (shaped n)); [by intros s []|]. intros Hrc.
  destruct (Hfit Hrc) as [Hsize Hname]. clear Hfit. intros s [Hs Hd].
  destruct (GetMetadata_run n column s Hc Hs) as [definition Hrun].
  apply wp_bind. eapply wp_done; [exact Hrun|].
  apply wp_bind. eapply wp_done; [by apply new_buffer_run|].
  apply wp_bind. eapply wp_done; [by apply odbc_run|].
  destruct (SQLDescribeCol _ _ d1) as [[rc2 out2] d2]. simpl in Hname |- *.
  apply (named_total n column _ rc2 out2 Hc Hname). by apply calls_statement.
Qed.

Lemma readNext_while_total n columns :
  Forall (fun column => column < n)%nat columns ->
  total (shaped n) (readNext_while columns).
Proof.
  induction 1; simpl; total_auto. by apply readNext_total.
Qed.

Lemma readNext_each_total n columns :
  Forall (fun column => column < n)%nat columns ->
  total (shaped n) (readNext_each columns).
Proof.
  induction 1; simpl; total_auto. by apply readNext_total.
Qed.

Lemma the_resultset_total n : total (shaped n) the_resultset.
Proof.
  intros s Hs. pose proof Hs as (_ & rs & Hrs & _).
  by eapply wp_done; [by apply the_resultset_run|].
Qed.

Lemma make_resultset_shaped columns :
  0 <= columns ->
  ensures allocated (make_resultset columns) (shaped (Z.to_nat columns)).
Proof.
  intros Hc s Hs. unfold make_resultset.
  destruct (Z.ltb_spec columns 0); [lia|].
  split; [done|]. eexists. split; [done|]. apply new_ResultSet_count.
Qed.

Lemma shaped_allocated n s : shaped n s -> allocated s.
Proof. by intros []. Qed.

(** The part of [StartReadingResults] that follows the allocation of the
    result set. *)
Lemma describe_total n :
  total (shaped n)
    (rs <- the_resultset ;;
     ok <- readNext_while (seq 0 (get_column_count rs)) ;;
     if negb ok then ret false
     else
       r <- odbc SQLRowCount ;;
       let '(rc, rows) := r in
       update_resultset (set_rowcount rows) ;;;
       ok <- CheckOdbcError rc ;;
       if negb ok then ret false else ret true).
Proof.
  intros s Hs. apply wp_bind. destruct Hs as (Hd & rs & Hrs & Hn).
  eapply wp_done; [by apply the_resultset_run|].
  match goal with |- wp ?c _ _ => assert (total (shaped n) c) as Ht end;
    [|apply Ht; split; eauto].
  rewrite Hn. total_auto.
  - apply readNext_while_total, Forall_seq. intros column ?. lia.
  - by apply update_resultset_total.
Qed.

Lemma StartReadingResults_total : total allocated StartReadingResults.
Proof.
  unfold StartReadingResults. apply (odbc_on allocated). intros d.
  pose proof (counts_columns d) as Hc.
  destruct (SQLNumResultCols d) as [[rc columns] d1]. simpl in Hc |- *.
  apply ensures_on, (guard_total allocated). intros Hrc.
  eapply ensures_bind; [by apply make_resultset_shaped, Hc|]. intros [].
  eapply ensures_weaken; [done | apply shaped_allocated | apply describe_total].
Qed.

#[local] Hint Extern 1 (shaped _ _) =>
  (unfold shaped, allocated in *; simpl; assumption) : total.

(** The part of [TryPrepare] that follows the allocation of the result
    set. *)
Lemma prepare_total {V} `{!NodeBoundary V} n :
  total (shaped n)
    (readNext_each (seq 0 n) ;;;
     rs <- the_resultset ;;
     modify (set_preparedStorage
               (Some (snd (reserve (V := V) rs new_BoundDatumSet)))) ;;;
     ok <- BindCol_loop (_bindings (snd (reserve (V := V) rs new_BoundDatumSet))) 0 ;;
     if negb ok then ret false
     else
       update_resultset (set_endOfRows true) ;;;
       modify (set_prepared true) ;;;
       modify (set_statementState STATEMENT_PREPARED) ;;;
       ret true).
Proof.
  total_auto.
  - apply readNext_each_total, Forall_seq. intros column ?. lia.
  - apply the_resultset_total.
  - by apply update_resultset_total.
Qed.

Lemma TryPrepare_total {V} `{!NodeBoundary V} query timeout :
  total allocated (TryPrepare (V := V) query timeout).
Proof.
  unfold TryPrepare.
  apply total_bind; [total_auto|intros r].
  apply total_bind; [total_auto|intros []]; simpl; [|apply total_ret].
  apply (odbc_on allocated). intros d. pose proof (counts_columns d) as Hc.
  destruct (SQLNumResultCols d) as [[rc num_cols] d1]. simpl in Hc |- *.
  apply ensures_on, (guard_total allocated). intros Hrc.
  apply total_bind; [total_auto|intros []].
  eapply ensures_bind; [by apply make_resultset_shaped, Hc|]. intros [].
  eapply ensures_weaken;
    [done | apply shaped_allocated | apply (prepare_total (V := V))].
Qed.

End Shaped.

#[export] Hint Resolve StartReadingResults_total TryPrepare_total : total.

#[export] Hint Extern 1 (allocated _) => (unfold allocated in *; simpl; assumption) : total.

(** ** The submission *)

Section Submission.
Context {D : Type} `{!Driver D} `{!Sized D} {V : Type} `{!NodeBoundary V}.
Implicit Types (s : OdbcStatement D).

#[local] Hint Resolve StartReadingResults_total : total.

Lemma TryExecuteDirect_finish_total r paramSet :
  total allocated (TryExecuteDirect_finish r paramSet).
Proof.
  unfold TryExecuteDirect_finish. destruct (_ || _); [|total_auto].
  do 3 (apply total_bind; [total_auto|intros ?]).
  intros s Hs. apply wp_bind.
  eapply wp_mono;
    [|apply (ensures_wlp allocated allocated
               (fun res s' => res = true -> described s'));
      [by apply StartReadingResults_total | done
      | apply StartReadingResults_resultset]].
  intros res s1 [Hs1 Hres]. unfold update_resultset, the_resultset, allocated in *.
  destruct res; prog_unfold; simpl; [|done].
  by destruct (Hres eq_refl) as [rs ->].
Qed.

#[local] Hint Resolve TryExecuteDirect_finish_total : total.

(** The handle is allocated and the statement does not poll. *)
Definition synchronous s : Prop := allocated s /\ _pollingEnabled s = false.

#[export] Instance synchronous_live : Live synchronous.
Proof.
  split; [split|]; intros s; unfold synchronous, allocated; simpl;
    intuition eauto.
Qed.

Lemma TryExecuteDirect_total fuel sched query timeout ps :
  ensures synchronous
    (TryExecuteDirect fuel sched query timeout (Some ps)) allocated.
Proof.
  unfold TryExecuteDirect.
  eapply ensures_bind; [apply (BindParams_total synchronous)|].
  intros bound s [Hs Hp]. destruct bound; simpl; [|done].
  apply wp_bind. unfold wp at 1, gets. rewrite Hp. clear Hp. revert s Hs.
  change (total allocated
    (modify (set_endOfResults true) ;;;
     r <- queryTimeout (wrap_signed 32 timeout) ;;
     ok <- CheckOdbcError r ;;
     if negb ok then ret false
     else
       modify (set_statementState STATEMENT_SUBMITTED) ;;;
       when false
         (odbc (SQLSetStmtAttr SQL_ATTR_ASYNC_ENABLE SQL_ASYNC_ENABLE_ON 0) ;;;
          ret tt) ;;;
       r <- odbc (SQLExecDirect query SQL_NTS) ;;
       r <- ret r ;;
       TryExecuteDirect_finish r (Some ps))).
  total_auto.
Qed.

(** C10: without polling, on a statement whose handle is allocated and a
    driver that reports sizes within the buffers ([Sized]: the number of
    columns, the lengths of the names of the columns and of their
    types), [TryExecuteDirect] returns, whatever else the driver answers,
    with the handle still allocated; and when it returns [true] the
    statement is in the submitted state with its result set described. *)
Theorem TryExecuteDirect_returns fuel sched query timeout ps s :
  is_Some (statement s) ->
  _pollingEnabled s = false ->
  exists res s',
    TryExecuteDirect fuel sched query timeout (Some ps) s = Done res s' /\
    is_Some (statement s') /\
    (res = true ->
     _statementState s' = STATEMENT_SUBMITTED /\ described s').
Proof.
  intros Hd Hp.
  pose proof (TryExecuteDirect_total fuel sched query timeout ps s
                (conj Hd Hp)) as Hrun.
  apply wp_run in Hrun as (res & s' & Hrun & Hs').
  pose proof (TryExecuteDirect_submitted fuel sched query timeout (Some ps) s Hp)
    as Hsub.
  exists res, s'. split_and!; [done | done |].
  intros ->. unfold wlp in Hsub. rewrite Hrun in Hsub.
  by destruct (Hsub eq_refl) as (? & _ & _ & ?).
Qed.

(** C23: on a statement whose handle is allocated and a driver that
    reports sizes within the buffers ([Sized]), [TryPrepare] returns,
    whatever else the driver answers, with the handle still allocated;
    and when it returns [true] the statement is prepared, with one buffer
    for each column of its result set. *)
Theorem TryPrepare_returns query timeout s :
  is_Some (statement s) ->
  exists res s',
    TryPrepare (V := V) query timeout s = Done res s' /\
    is_Some (statement s') /\
    (res = true ->
     _prepared s' = true /\
     exists rs, holds rs (buffers_of (V := V) rs) s').
Proof.
  intros Hd.
  destruct (total_run allocated _ s (TryPrepare_total query timeout) Hd)
    as (res & s' & Hrun & Hs').
  pose proof (TryPrepare_prepared (V := V) query timeout s) as Hp.
  exists res, s'. split_and!; [done | done |].
  intros ->. unfold wlp in Hp. rewrite Hrun in Hp.
  destruct (Hp eq_refl) as (? & _ & rs & ? & _). eauto.
Qed.

End Submission.

(** ** The lengths that the driver writes back are not tested *)

Section Unsized.
Context {D : Type} `{!Driver D}.
Implicit Types (s : OdbcStatement D) (d : D).

(** [readNext] up to the allocation of the buffer of the name: the
    first call of [SQLDescribeCol] succeeded on the handle [d]. *)
Lemma readNext_run column s d rs definition :
  statement s = Some d ->
  resultset s = Some rs ->
  get_meta_data rs column = Some definition ->
  let first := SQLDescribeCol (Z.of_nat column + 1) 0 d in
  let size := dc_name_length first.1.2 + 1 in
  let second := SQLDescribeCol (Z.of_nat column + 1) size first.2 in
  SQL_SUCCEEDED first.1.1 = true ->
  readNext column s =
    if size <? 0 then Fault OutOfRange
    else named column size second.1.1 second.1.2
           (set_statement (Some second.2) s).
Proof.
  intros Hd Hrs Hdef first size second Hrc. subst first size second.
  unfold readNext. rewrite (bind_done _ _ _ _ _ (odbc_run _ _ _ Hd)).
  destruct (SQLDescribeCol (Z.of_nat column + 1) 0 d) as [[rc out] d1].
  simpl in Hrc |- *.
  rewrite (bind_done _ _ _ _ _ (CheckOdbcError_ok _ _ Hrc)). simpl.
  rewrite (bind_done _ _ _ _ _
             (GetMetadata_done column (set_statement (Some d1) s) rs _ Hrs Hdef)).
  unfold new_buffer. destruct (dc_name_length out + 1 <? 0); [done|].
  rewrite (bind_done _ _ _ tt (set_statement (Some d1) s)) by done.
  rewrite (bind_done _ _ _ _ _ (odbc_run _ (set_statement (Some d1) s) d1 eq_refl)).
  by destruct (SQLDescribeCol _ _ d1) as [[rc2 out2] d2].
Qed.

(** C38: [readNext] builds the name of a column from lengths that the
    driver writes back and that it does not test.  When the first call of
    [SQLDescribeCol] succeeds with a length below -1 the allocation of the
    buffer of the name throws; when the second call succeeds with a
    length that is negative or above the size of the buffer, the name is
    built from outside the buffer.  In both cases the description of the
    column does not return. *)
Theorem readNext_unchecked_name_length column s d rs definition :
  statement s = Some d ->
  resultset s = Some rs ->
  get_meta_data rs column = Some definition ->
  let first := SQLDescribeCol (Z.of_nat column + 1) 0 d in
  let size := dc_name_length first.1.2 + 1 in
  let second := SQLDescribeCol (Z.of_nat column + 1) size first.2 in
  SQL_SUCCEEDED first.1.1 = true ->
  size < 0 \/
  SQL_SUCCEEDED second.1.1 = true /\
  (dc_name_length second.1.2 < 0 \/ size < dc_name_length second.1.2) ->
  readNext column s = Fault OutOfRange.
Proof.
  intros Hd Hrs Hdef first size second Hrc Hbad.
  rewrite (readNext_run column s d rs definition Hd Hrs Hdef Hrc).
  fold first size second. destruct (Z.ltb_spec size 0) as [|Hsize]; [done|].
  destruct Hbad as [|[Hrc2 Hlen]]; [lia|]. unfold named.
  rewrite (bind_done _ _ _ _ _
             (update_metadata_done column _
                (set_statement (Some second.2) s) rs definition Hrs Hdef)).
  rewrite (bind_done _ _ _ _ _ (CheckOdbcError_ok _ _ Hrc2)). simpl.
  apply bind_fault. by apply wstring_of_fault.
Qed.

(** The same for the name of the type, which [readColAttributes] builds
    from an array of 1024 characters. *)
Lemma readColAttributes_unchecked_length column s d :
  statement s = Some d ->
  let answer := SQLColAttribute (Z.of_nat column + 1) SQL_DESC_TYPE_NAME d in
  SQL_SUCCEEDED answer.1.1 = true ->
  answer.1.2.1.2 < 0 \/ 1024 < answer.1.2.1.2 ->
  readColAttributes column s = Fault OutOfRange.
Proof.
  intros Hd answer Hrc Hlen. subst answer. unfold readColAttributes.
  rewrite (bind_done _ _ _ _ _ (odbc_run _ _ _ Hd)).
  destruct (SQLColAttribute _ _ d) as [[rc [[type_name len] num]] d1].
  simpl in Hrc, Hlen |- *.
  rewrite (bind_done _ _ _ _ _ (CheckOdbcError_ok _ _ Hrc)). simpl.
  apply bind_fault. by apply wstring_of_fault.
Qed.

End Unsized.

(** ** A driver whose sizes are within the buffers *)

Section Tamed.
Context {D : Type} `{!Driver D}.

(** The driver [D], with the sizes it reports brought within the
    buffers: a negative number of columns is 0, the length of a name is
    not negative and, when a buffer was given, not above its size, and
    the length of the name of a type is between 0 and 1024. *)
Record Tamed : Type := tame { wild : D }.

Definition clamp (size n : Z) : Z := Z.min size (Z.max 0 n).

Definition clamp_name (size : Z) (out : DescribeCol) : DescribeCol :=
  mkDescribeCol (dc_name out)
    (if size =? 0 then Z.max 0 (dc_name_length out)
     else clamp size (dc_name_length out))
    (dc_data_type out) (dc_column_size out) (dc_decimal_digits out)
    (dc_nullable out).

Definition lift {A} (f : D -> A * D) (t : Tamed) : A * Tamed :=
  (fst (f (wild t)), tame (snd (f (wild t)))).

#[export] Instance tamed_driver : Driver Tamed := {|
  SQLSetStmtAttr a v n := lift (SQLSetStmtAttr a v n);
  SQLGetStmtAttr a := lift (SQLGetStmtAttr a);
  SQLSetDescField h r f v := lift (SQLSetDescField h r f v);
  SQLBindParameter n dir ctype type size dig buf len ind :=
    lift (SQLBindParameter n dir ctype type size dig buf len ind);
  SQLPrepare q n := lift (SQLPrepare q n);
  SQLExecute := lift SQLExecute;
  SQLExecDirect q n := lift (SQLExecDirect q n);
  SQLNumResultCols t :=
    let r := SQLNumResultCols (wild t) in
    (r.1.1, Z.max 0 r.1.2, tame r.2);
  SQLDescribeCol c n t :=
    let r := SQLDescribeCol c n (wild t) in
    (r.1.1, clamp_name n r.1.2, tame r.2);
  SQLColAttribute c f t :=
    let r := SQLColAttribute c f (wild t) in
    (r.1.1, (r.1.2.1.1, clamp type_name_size r.1.2.1.2, r.1.2.2), tame r.2);
  SQLRowCount := lift SQLRowCount;
  SQLFetch := lift SQLFetch;
  SQLGetData c ctype len := lift (SQLGetData c ctype len);
  SQLBindCol c ctype len := lift (SQLBindCol c ctype len);
  SQLCancelHandle h := lift (SQLCancelHandle h);
  SQLMoreResults := lift SQLMoreResults;
  SQLCloseCursor := lift SQLCloseCursor;
  SQLGetDiagRec h r := lift (SQLGetDiagRec h r);
  ReadErrors t := ReadErrors (wild t)
|}.

#[export] Instance tamed_sized : Sized Tamed.
Proof.
  split.
  - intros t _. simpl. lia.
  - intros index t first size second _. subst first size second. simpl.
    split; [lia|]. intros _. unfold clamp.
    destruct (Z.eqb_spec (Z.max 0 (dc_name_length (SQLDescribeCol index 0 (wild t)).1.2) + 1) 0);
      lia.
  - intros index field t answer _. subst answer. simpl. unfold clamp. lia.
Qed.

End Tamed.

(** A query without columns that affects five rows, on the scripted
    driver: the submission returns [true]. *)
Lemma TryExecuteDirect_returns_witness :
  exists res s',
    TryExecuteDirect 0 [] "delete from t" 0 (Some new_BoundDatumSet)
      (new_OdbcStatement 1 (tame (scripted [Rc 0; RcNum 0 0; RcNum 0 5])))
      = Done res s' /\
    is_Some (statement s') /\
    (res = true ->
     _statementState s' = STATEMENT_SUBMITTED /\ described s').
Proof.
  apply (TryExecuteDirect_returns 0 [] "delete from t" 0 new_BoundDatumSet);
    [by eexists | reflexivity].
Defined.

Example TryExecuteDirect_returns_true :
  result_of
    (TryExecuteDirect 0 [] "delete from t" 0 (Some new_BoundDatumSet)
       (new_OdbcStatement 1 (tame (scripted [Rc 0; RcNum 0 0; RcNum 0 5]))))
    = Some true.
Proof. by vm_compute. Qed.

(** The preparation of a query of one integer column. *)
Lemma TryPrepare_returns_witness :
  exists res s',
    TryPrepare (V := JsValue) "select n from t" 0
      (new_OdbcStatement 1
         (tame (scripted
            [Rc 0; RcNum 0 1;
             RcDescribe 0 (mkDescribeCol "n" 1 SQL_INTEGER 10 0 0);
             RcDescribe 0 (mkDescribeCol "n" 1 SQL_INTEGER 10 0 0);
             RcAttr 0 "int" 3 0; Rc 0])))
      = Done res s' /\
    is_Some (statement s') /\
    (res = true ->
     _prepared s' = true /\
     exists rs, holds rs (buffers_of (V := JsValue) rs) s').
Proof.
  apply (TryPrepare_returns (V := JsValue)). by eexists.
Defined.

(** A driver that answers the length -5 for the name of the first
    column: the description of the column throws, and so does the
    submission of the query. *)
Definition negative_name : list Answer :=
  [RcDescribe SQL_SUCCESS (mkDescribeCol "" (-5) SQL_INTEGER 10 0 0)].

Lemma readNext_unchecked_name_length_witness :
  readNext 0
    (set_resultset (Some (new_ResultSet 1))
       (new_OdbcStatement 1 (scripted negative_name))) = Fault OutOfRange.
Proof.
  apply (readNext_unchecked_name_length 0 _ (scripted negative_name)
           (new_ResultSet 1) empty_definition);
    [reflexivity | reflexivity | reflexivity | reflexivity | left; reflexivity].
Defined.

Example TryExecuteDirect_negative_name_length :
  TryExecuteDirect 0 [] "select n from t" 0 (Some new_BoundDatumSet)
    (new_OdbcStatement 1
       (scripted (Rc SQL_SUCCESS :: RcNum SQL_SUCCESS 1 :: negative_name)))
    = Fault OutOfRange.
Proof. by vm_compute. Qed.
