(* ===== verification/Cancellation.v ===== *)
(** * Cancellation, from the request to the rows

    What a call of [cancel] does to an execution of [TryExecuteDirect] in
    polling mode ([OdbcStatement.cpp], lines 80 to 93, 322 to 356, 389 to
    405 and 407 to 461).  The request is served in the loop of
    [PollCheck] by a call of [SQLCancelHandle], and the loop goes on: what
    [TryExecuteDirect] then does depends on the answer of the driver to
    the next poll only.  When the driver completes the query in spite of
    the cancellation the result set is described and its rows are read as
    if nothing had been requested; the only trace is the second error of
    the statement, which no operation reads. *)

From S2P Require Import Prelude OdbcApi Storage Driver ScriptDriver.
From S2P Require Import ResultSetModel BoundDatumSetModel Statement Polling Execute.

#[local] Open Scope prog_scope.

Section Cancellation.
Context {D : Type} `{!Driver D}.
Implicit Types (s : OdbcStatement D) (d : D).

(** The statement when [TryExecuteDirect] has submitted a query: [d] is
    the handle that the submission left. *)
Definition submitted d s : OdbcStatement D :=
  set_statement (Some d)
    (set_statementState STATEMENT_SUBMITTED (set_endOfResults true s)).

(** [TryExecuteDirect] in polling mode, for a query without parameters
    and without a timeout: asynchronous execution is enabled, the query
    is submitted, and [PollCheck] takes over. *)
Lemma TryExecuteDirect_polling fuel sched query s d :
  statement s = Some d ->
  _pollingEnabled s = true ->
  TryExecuteDirect fuel sched query 0 (Some new_BoundDatumSet) s =
    let d1 := (SQLSetStmtAttr SQL_ATTR_ASYNC_ENABLE SQL_ASYNC_ENABLE_ON 0 d).2 in
    let submission := SQLExecDirect query SQL_NTS d1 in
    (r <- PollCheck fuel sched submission.1 true ;;
     TryExecuteDirect_finish r (Some new_BoundDatumSet))
      (submitted submission.2 s).
Proof.
  intros Hd Hp. unfold TryExecuteDirect, BindParams, odbc. prog_unfold.
  simpl. rewrite Hp.
  change (statement (set_statementState _ _)) with (statement s).
  by rewrite Hd.
Qed.

(** The cancellation that the driver accepts leaves the state of the
    statement as it is. *)
Lemma after_cancel_state d s :
  SQL_SUCCEEDED (SQLCancelHandle SQL_HANDLE_STMT d).1 = true ->
  _statementState (after_cancel d s) = _statementState s.
Proof.
  unfold after_cancel. destruct (SQLCancelHandle SQL_HANDLE_STMT d) as [rc d'].
  simpl. by intros ->.
Qed.

(** A sleep during which [cancel] is called, in polling mode, ends with
    the cancellation of the handle. *)
Lemma after_sleep_cancel cs d s :
  _pollingEnabled s = true ->
  after_sleep (CallCancel :: cs) d s =
    after_cancel d (clients (CallCancel :: cs) s).
Proof.
  intros Hp. unfold after_sleep.
  change (clients (CallCancel :: cs) s)
    with (clients cs (client_effect CallCancel s)).
  rewrite (clients_requested cs (client_effect CallCancel s)); [done|].
  simpl. by rewrite Hp.
Qed.

(** The loop when the query is cancelled during the first sleep and
    completes at the next poll. *)
Lemma poll_loop_cancelled fuel cs sched direct d s :
  _pollingEnabled s = true ->
  let polled := poll direct d in
  let cancelled := SQLCancelHandle SQL_HANDLE_STMT polled.2 in
  let completed := poll direct cancelled.2 in
  polled.1 = SQL_STILL_EXECUTING ->
  completed.1 <> SQL_STILL_EXECUTING ->
  poll_loop (S (S fuel)) ((CallCancel :: cs) :: sched) direct d s =
    Done completed.1
      (set_statement (Some completed.2)
         (after_cancel polled.2
            (clients (CallCancel :: cs) (set_statement (Some polled.2) s)))).
Proof.
  intros Hp polled cancelled completed Hpolled Hcompleted.
  subst polled cancelled completed. simpl poll_loop.
  destruct (poll direct d) as [r d1]. simpl in *. subst r. simpl.
  rewrite after_sleep_cancel by done. rewrite after_cancel_statement.
  destruct (poll direct _) as [r2 d3]. simpl in *.
  by apply Z.eqb_neq in Hcompleted as ->.
Qed.

(** C21: in polling mode, when [cancel] is called during the first sleep
    of the execution of a query, the driver accepts the cancellation and
    then completes the query all the same, [TryExecuteDirect] reads the
    result set as if nothing had been requested: when it returns [true]
    the statement is in the submitted state with its result set
    described, the request is cleared, and the cancellation is recorded
    in the second error only. *)
Theorem served_cancel_resumes_rows fuel cs sched query s d :
  statement s = Some d ->
  _pollingEnabled s = true ->
  let d1 := (SQLSetStmtAttr SQL_ATTR_ASYNC_ENABLE SQL_ASYNC_ENABLE_ON 0 d).2 in
  let submission := SQLExecDirect query SQL_NTS d1 in
  let polled := poll true submission.2 in
  let cancelled := SQLCancelHandle SQL_HANDLE_STMT polled.2 in
  let completed := poll true cancelled.2 in
  submission.1 = SQL_STILL_EXECUTING ->
  polled.1 = SQL_STILL_EXECUTING ->
  SQL_SUCCEEDED cancelled.1 = true ->
  completed.1 = SQL_SUCCESS ->
  wlp (TryExecuteDirect (S (S fuel)) ((CallCancel :: cs) :: sched) query 0
         (Some new_BoundDatumSet))
    (fun res s' =>
       res = true ->
       _statementState s' = STATEMENT_SUBMITTED /\ described s' /\
       _cancelRequested s' = false /\ error2 s' = Some operation_canceled) s.
Proof.
  intros Hd Hp d1 submission polled cancelled completed Hsub Hpolled Hcan Hcom.
  unfold wlp. rewrite (TryExecuteDirect_polling _ _ _ _ d Hd Hp).
  cbv zeta. fold d1. fold submission. rewrite Hsub.
  unfold and_then. rewrite (PollCheck_run _ _ _ _ _ submission.2) by done.
  simpl Z.eqb. cbv iota.
  rewrite poll_loop_cancelled;
    [|done|done|fold polled cancelled completed; by rewrite Hcom].
  fold polled cancelled completed. rewrite Hcom.
  eapply wlp_mono; [|by apply finish_reads].
  intros res s' [[Hf Hst] Hdesc] ->.
  set (slept := clients (CallCancel :: cs)
                  (set_statement (Some polled.2) (submitted submission.2 s)))
    in *.
  destruct (after_cancel_served polled.2 slept) as [Hreq Herr].
  split_and!; [|by apply Hdesc| |].
  - rewrite Hst. change (_statementState (after_cancel polled.2 slept) =
                         STATEMENT_SUBMITTED).
    rewrite after_cancel_state by done. unfold slept.
    by destruct (clients_frame (CallCancel :: cs)
                   (set_statement (Some polled.2) (submitted submission.2 s)))
      as (_ & -> & _).
  - by rewrite (frame_cancelRequested _ _ Hf).
  - by rewrite (frame_error2 _ _ Hf).
Qed.

End Cancellation.

(** ** The theorem at a scripted driver *)

(** The answers of a driver to a query that is submitted, polled once,
    cancelled, and that completes at the next poll with a result set of
    no column and five rows. *)
Definition cancelled_too_late : list Answer :=
  [Rc SQL_SUCCESS; Rc SQL_STILL_EXECUTING; Rc SQL_STILL_EXECUTING;
   Rc SQL_SUCCESS; Rc SQL_SUCCESS; RcNum SQL_SUCCESS 0; RcNum SQL_SUCCESS 5].

Lemma served_cancel_resumes_rows_witness :
  wlp (TryExecuteDirect 2 [[CallCancel]] "select 1" 0 (Some new_BoundDatumSet))
    (fun res s' =>
       res = true ->
       _statementState s' = STATEMENT_SUBMITTED /\ described s' /\
       _cancelRequested s' = false /\ error2 s' = Some operation_canceled)
    (polling_statement cancelled_too_late).
Proof.
  apply (served_cancel_resumes_rows 0 [] [] "select 1"
           (polling_statement cancelled_too_late) (scripted cancelled_too_late));
    reflexivity.
Defined.

(** The execution returns [true] and the result set has its five rows. *)
Example cancelled_query_is_read :
  match TryExecuteDirect 2 [[CallCancel]] "select 1" 0 (Some new_BoundDatumSet)
          (polling_statement cancelled_too_late) with
  | Done res s' => Some (res, row_count <$> resultset s')
  | Fault _ => None
  end = Some (true, Some 5).
Proof. by vm_compute. Qed.
