(* ===== verification/Machine.v ===== *)
(** * The statement as a state machine

    One step of the machine is one call of a public member function of
    [OdbcStatement] that may change the statement: [cancel], [setPolling],
    [TryPrepare], [BindFetch], [TryExecuteDirect], [TryReadRow],
    [TryReadColumn], [TryReadNextResult] and the destructor.  A caller is
    free to call them in any order and with any arguments, and the driver
    is free to answer anything: the reachable states are those a sequence
    of calls that return leads to, from a statement just constructed.

    The theorems are the invariants of every reachable state, whatever the
    driver and the caller do, and what the operations do on a statement
    that was not executed yet. *)

From S2P Require Import Prelude OdbcApi Storage Driver ScriptDriver.
From S2P Require Import ResultSetModel BoundDatumSetModel Statement Polling.
From S2P Require Import Execute Decode DecodeSpec.

#[local] Open Scope prog_scope.

(** The calls of the client. *)
Inductive Operation : Type :=
| OpCancel
| OpSetPolling (mode : bool)
| OpTryPrepare (query : string) (timeout : Z)
| OpBindFetch (fuel : nat) (sched : list (list ClientCall))
    (paramSet : option BoundDatumSet)
| OpTryExecuteDirect (fuel : nat) (sched : list (list ClientCall))
    (query : string) (timeout : Z) (paramSet : option BoundDatumSet)
| OpTryReadRow
| OpTryReadColumn (fuel : nat) (column : Z)
| OpTryReadNextResult
| OpDestroy.

Section Machine.
Context {D : Type} `{!Driver D} {V : Type} `{!NodeBoundary V} `{!Constants}.
Implicit Types (s : OdbcStatement D) (d : D) (op : Operation).

(** The call [op], with what it returns: the destructor returns nothing,
    which is [true] here. *)
Definition call op : prog (OdbcStatement D) bool :=
  match op with
  | OpCancel => cancel
  | OpSetPolling mode => setPolling mode
  | OpTryPrepare query timeout => TryPrepare (V := V) query timeout
  | OpBindFetch fuel sched paramSet => BindFetch fuel sched paramSet
  | OpTryExecuteDirect fuel sched query timeout paramSet =>
      TryExecuteDirect fuel sched query timeout paramSet
  | OpTryReadRow => TryReadRow
  | OpTryReadColumn fuel column => TryReadColumn fuel column
  | OpTryReadNextResult => TryReadNextResult
  | OpDestroy => destroy ;;; ret true
  end.

(** A sequence of calls, each made after the one before it returned. *)
Fixpoint calls (ops : list Operation) : prog (OdbcStatement D) (list bool) :=
  match ops with
  | [] => ret []
  | op :: ops' =>
      res <- call op ;;
      rest <- calls ops' ;;
      ret (res :: rest)
  end.

Inductive step s op s' : Prop :=
| step_call res : call op s = Done res s' -> step s op s'.

Inductive reachable : OdbcStatement D -> Prop :=
| reachable_new statement_id handle :
    reachable (new_OdbcStatement statement_id handle)
| reachable_step s op s' : reachable s -> step s op s' -> reachable s'.

(** ** Invariants *)

Lemma new_OdbcStatement_inv statement_id (handle : D) :
  statement_inv (new_OdbcStatement statement_id handle).
Proof. split; simpl; [eauto|done|done|]. by intros [|]. Qed.

Lemma call_inv op : preserves statement_inv (call op).
Proof.
  destruct op; simpl; try (by preserves_auto);
    eauto using TryReadRow_inv, TryPrepare_inv with prog.
Qed.

Lemma step_inv s op s' : statement_inv s -> step s op s' -> statement_inv s'.
Proof. intros Hs [res Hrun]. exact (preserves_run _ _ _ _ _ (call_inv op) Hs Hrun). Qed.

Lemma reachable_inv s : reachable s -> statement_inv s.
Proof.
  induction 1 as [|s op s' _ IH Hstep];
    [apply new_OdbcStatement_inv | by eapply step_inv].
Qed.

(** The runs of [calls] are the paths of the machine. *)
Lemma calls_reachable ops s rs s' :
  reachable s -> calls ops s = Done rs s' -> reachable s'.
Proof.
  revert s rs. induction ops as [|op ops IH]; intros s rs Hs; simpl.
  - by intros [= _ <-].
  - intros Hrun. apply bind_inv in Hrun as (res & s1 & Hop & Hrun).
    apply bind_inv in Hrun as (rest & s2 & Hrest & [= _ <-]).
    eapply IH; [|done]. eapply reachable_step; [done|]. by econstructor.
Qed.

(** C1: every state that a sequence of calls leads to, whatever the
    driver answers, satisfies the invariant of the statement: the handle
    is allocated, a prepared statement has its storage and a result set,
    and a statement in the fetching or in the prepared state has a result
    set. *)
Theorem reachable_statement_inv s : reachable s -> statement_inv s.
Proof. apply reachable_inv. Qed.

(** C22: on a statement that has no result set yet [TryReadRow] returns
    [false] and changes nothing, while [TryReadColumn] and the accessors
    [EndOfRows], [GetMetaValue] and [GetColumnValue] dereference the null
    pointer. *)
Theorem unexecuted_statement_faults fuel column s :
  resultset s = None ->
  TryReadRow s = Done false s /\
  TryReadColumn (S fuel) column s = Fault NullPointer /\
  EndOfRows_value s = Fault NullPointer /\
  GetMetaValue s = Fault NullPointer /\
  GetColumnValue s = Fault NullPointer.
Proof.
  intros Hrs. unfold TryReadRow, EndOfRows_value, GetMetaValue, GetColumnValue.
  simpl. by prog_start.
Qed.

End Machine.

(** ** A session on the scripted driver *)

(** The answers of a driver to the execution of a query with one integer
    column and one row, whose value is [v]. *)
Definition one_row (v : Z) : list Answer :=
  [ Rc SQL_SUCCESS;                                   (* SQLExecDirect *)
    RcNum SQL_SUCCESS 1;                              (* SQLNumResultCols *)
    RcDescribe SQL_SUCCESS (mkDescribeCol "n" 1 SQL_INTEGER 10 0 0);
    RcDescribe SQL_SUCCESS (mkDescribeCol "n" 1 SQL_INTEGER 10 0 0);
    RcAttr SQL_SUCCESS "int" 3 0;                     (* SQLColAttribute *)
    RcNum SQL_SUCCESS (-1);                           (* SQLRowCount *)
    RcFetch SQL_SUCCESS [];                           (* SQLFetch *)
    RcData SQL_SUCCESS (CInt64 v) 8;                  (* SQLGetData *)
    RcFetch SQL_NO_DATA [];                           (* SQLFetch *)
    Rc SQL_NO_DATA ].                                 (* SQLMoreResults *)

(** The calls of a client that executes the query and reads the row. *)
Definition read_one_row : list Operation :=
  [ OpTryExecuteDirect 0 [] "select n from t" 0 (Some new_BoundDatumSet);
    OpTryReadRow;
    OpTryReadColumn 1 0;
    OpTryReadRow;
    OpTryReadNextResult ].

(** The statement at the end of the session. *)
Definition after_one_row (v : Z) : OdbcStatement ScriptDriver :=
  match calls (V := JsValue) read_one_row
          (new_OdbcStatement 1 (scripted (one_row v))) with
  | Done _ s => s
  | Fault _ => new_OdbcStatement 1 (scripted [])
  end.

(** Every call of the session returns [true], and the column read is the
    integer of the driver. *)
Example read_one_row_run :
  result_of (calls (V := JsValue) read_one_row
               (new_OdbcStatement 1 (scripted (one_row 42)))) =
    Some [true; true; true; true; true] /\
  (resultset (after_one_row 42) ≫= get_column) =
    Some (IntColumn (mkStorage (Some [42]) None None None None None)) /\
  _statementState (after_one_row 42) = STATEMENT_FETCHING /\
  _endOfResults (after_one_row 42) = true.
Proof. by vm_compute. Qed.

Lemma after_one_row_reachable : reachable (V := JsValue) (after_one_row 42).
Proof.
  apply (calls_reachable read_one_row
           (new_OdbcStatement 1 (scripted (one_row 42)))
           [true; true; true; true; true]);
    [apply reachable_new | by vm_compute].
Defined.

Lemma reachable_statement_inv_witness : statement_inv (after_one_row 42).
Proof.
  exact (reachable_statement_inv (V := JsValue) _ after_one_row_reachable).
Defined.

Lemma unexecuted_statement_faults_witness :
  TryReadRow (new_OdbcStatement 1 (scripted [])) =
    Done false (new_OdbcStatement 1 (scripted [])) /\
  TryReadColumn 1 0 (new_OdbcStatement 1 (scripted [])) = Fault NullPointer /\
  EndOfRows_value (new_OdbcStatement 1 (scripted [])) = Fault NullPointer /\
  GetMetaValue (new_OdbcStatement 1 (scripted [])) = Fault NullPointer /\
  GetColumnValue (new_OdbcStatement 1 (scripted [])) = Fault NullPointer.
Proof.
  exact (unexecuted_statement_faults 0 0 (new_OdbcStatement 1 (scripted []))
           eq_refl).
Defined.
